(** * Sphinx-to-Jupyter translator (jupyter-ext/jupyter.py): a shallow embedding

    The Python module turns a docutils document tree into an ordered list
    of notebook cells.  This file embeds its classes as Rocq functions:

    - [LanguageTranslator] (a dict with identity fallback),
    - [JupyterOutputCellGenerators] (the cell-kind enum, its classifier and
      its renderer),
    - [JupyterWriter.__init__] (conversion mode selection),
    - [JupyterCodeTranslator] and [JupyterTranslator] (the two visitors),
      as functions from a translator state to a result that is either the
      next state or a raised Python exception.

    Python strings are Rocq strings; a character stands for a code point
    below 256, and the white space of [str.strip] and of the regular
    expression class [\s] is Python's on that range. *)

From Stdlib Require Import Ascii String ZArith Lia.
From stdpp Require Import base option list gmap strings.

Local Open Scope Z_scope.

(** ** Python built-ins on strings *)

Module Str.

(** The line feed, the only character that [.] of [re] rejects and the
    separator of [split("\n")]. *)
Definition LF : ascii := "010"%char.

(** [str.isspace] on one character with code point below 256:
    9..13, 28..32, 133 and 160. *)
Definition isspace (c : ascii) : bool :=
  let n := N_of_ascii c in
  ((9 <=? n) && (n <=? 13) || (28 <=? n) && (n <=? 32)
   || (n =? 133) || (n =? 160))%N.

Definition is_empty (s : string) : bool :=
  match s with EmptyString => true | String _ _ => false end.

(** [s.lstrip()] *)
Fixpoint lstrip (s : string) : string :=
  match s with
  | EmptyString => EmptyString
  | String c s' => if isspace c then lstrip s' else s
  end.

(** [s.rstrip()] *)
Fixpoint rstrip (s : string) : string :=
  match s with
  | EmptyString => EmptyString
  | String c s' =>
      let r := rstrip s' in
      if is_empty r && isspace c then EmptyString else String c r
  end.

(** [s.strip()] *)
Definition strip (s : string) : string := rstrip (lstrip s).

(** [s.split(sep)] for a one-character separator: never the empty list. *)
Fixpoint split (sep : ascii) (s : string) : list string :=
  match s with
  | EmptyString => [EmptyString]
  | String c s' =>
      if Ascii.eqb c sep then EmptyString :: split sep s'
      else match split sep s' with
           | [] => [String c EmptyString]
           | l :: ls => String c l :: ls
           end
  end.

(** [sep.join(l)] *)
Definition join (sep : string) (l : list string) : string :=
  String.concat sep l.

(** [c in s] for a one-character [c] *)
Fixpoint contains (c : ascii) (s : string) : bool :=
  match s with
  | EmptyString => false
  | String d s' => Ascii.eqb d c || contains c s'
  end.

(** [s.replace(c, by)] for a one-character [c] *)
Fixpoint replace (c : ascii) (by_ : string) (s : string) : string :=
  match s with
  | EmptyString => EmptyString
  | String d s' =>
      if Ascii.eqb d c then by_ +:+ replace c by_ s'
      else String d (replace c by_ s')
  end.

(** [s * n] for a count that is already a natural number *)
Fixpoint repeat (s : string) (n : nat) : string :=
  match n with
  | O => EmptyString
  | S n' => s +:+ repeat s n'
  end.

(** [s * n] for a Python int: a count below one gives the empty string. *)
Definition mul (s : string) (n : Z) : string := repeat s (Z.to_nat n).

(** The longest prefix of [s] without the character [c], and what follows
    it (starting with [c] when [c] occurs). *)
Fixpoint span_not (c : ascii) (s : string) : string * string :=
  match s with
  | EmptyString => (EmptyString, EmptyString)
  | String d s' =>
      if Ascii.eqb d c then (EmptyString, s)
      else let '(p, r) := span_not c s' in (String d p, r)
  end.

(** [s[-1]] and [s[:-1]] together; [None] on the empty string, where
    [s[-1]] raises [IndexError]. *)
Fixpoint unsnoc (s : string) : option (string * ascii) :=
  match s with
  | EmptyString => None
  | String c s' =>
      match unsnoc s' with
      | None => Some (EmptyString, c)
      | Some (i, l) => Some (String c i, l)
      end
  end.

End Str.

(** The string of one line feed. *)
Definition nl : string := String Str.LF "".

(** ** Python built-ins on lists *)

Module PyList.

(** [l[-1]] and [l[:-1]] (what [l.pop()] returns and leaves); [None] on
    the empty list, where Python raises [IndexError]. *)
Fixpoint unsnoc {A} (l : list A) : option (list A * A) :=
  match l with
  | [] => None
  | x :: l' =>
      match unsnoc l' with
      | None => Some ([], x)
      | Some (i, y) => Some (x :: i, y)
      end
  end.

(** [l.insert(i, x)] for [i >= 0]: an index past the end appends. *)
Fixpoint insert {A} (i : nat) (x : A) (l : list A) : list A :=
  match i, l with
  | O, _ => x :: l
  | S i', [] => [x]
  | S i', y :: l' => y :: insert i' x l'
  end.

End PyList.

(** ** Exceptions and results *)

Inductive exn : Type :=
| IndexError
| KeyError
| TypeError
| AttributeError
| InvalidOutputCellType.

Inductive res (A : Type) : Type :=
| Ok (a : A)
| Raise (e : exn).
Arguments Ok {A} a.
Arguments Raise {A} e.

#[global] Instance res_ret : MRet res := fun A a => Ok a.
#[global] Instance res_bind : MBind res := fun A B k r =>
  match r with
  | Ok a => k a
  | Raise e => Raise e
  end.

#[global] Instance res_fmap : FMap res := fun A B f r =>
  match r with
  | Ok a => Ok (f a)
  | Raise e => Raise e
  end.

(** [d[k]] on an optional config mapping inside [try]: [None] stands for the
    value [None] of an unset config entry, on which subscripting fails. *)
Definition from_option {A} (e : exn) (o : option A) : res A :=
  match o with
  | Some a => Ok a
  | None => Raise e
  end.

(** ** LanguageTranslator *)

(** One [<language>] element of languages.xml: its children as pairs of a
    tag and an optional text. *)
Definition language_element : Type := list (string * option string).

(** The two loops over the children of one [<language>] element: the last
    [sphinx-name] and the last [jupyter-name] win. *)
Fixpoint scan_children (children : language_element)
    (sphinxLang jupyterLang : option string) : option string * option string :=
  match children with
  | [] => (sphinxLang, jupyterLang)
  | (tag, text) :: rest =>
      if String.eqb tag "sphinx-name" then scan_children rest text jupyterLang
      else if String.eqb tag "jupyter-name" then scan_children rest sphinxLang text
      else scan_children rest sphinxLang jupyterLang
  end.

(** Truthiness of an optional string: neither [None] nor empty. *)
Definition truthy (o : option string) : bool :=
  match o with
  | Some s => negb (Str.is_empty s)
  | None => false
  end.

Definition add_language (translator : gmap string string)
    (language : language_element) : gmap string string :=
  match scan_children language None None with
  | (Some sphinxLang, Some jupyterLang) =>
      if truthy (Some sphinxLang) && truthy (Some jupyterLang)
      then <[sphinxLang := jupyterLang]> translator
      else translator
  | _ => translator
  end.

(** [LanguageTranslator.__init__]: [files] holds, for every template path
    where languages.xml exists and in path order, the [<language>] elements
    of its root. *)
Definition LanguageTranslator_init (files : list (list language_element))
    : gmap string string :=
  foldl (fun tr languages => foldl add_language tr languages) ∅ files.

(** [LanguageTranslator.translate] *)
Definition translate (translator : gmap string string)
    (sphinxLanguageName : string) : string :=
  match translator !! sphinxLanguageName with
  | Some jupyterLang => jupyterLang
  | None => sphinxLanguageName
  end.

(** [translate] on a value that may be [None]: [None] is never a key of the
    dict, so it is returned as it is. *)
Definition translate_value (translator : gmap string string)
    (name : option string) : option string :=
  translate translator <$> name.

(** ** Notebook nodes (nbformat.v4) *)

(** [nbformat.v4.new_output(output_type, text)] *)
Record output : Type := new_output { output_type : string; text : string }.

(** A cell of the notebook.  [new_code_cell source] has no outputs; the
    second argument is the [outputs] list of the cell. *)
Inductive cell : Type :=
| code_cell (source : string) (outputs : list output)
| markdown_cell (source : string)
| raw_cell (source : string).

Definition new_code_cell (source : string) : cell := code_cell source [].
Definition new_markdown_cell (source : string) : cell := markdown_cell source.

Definition cell_type (c : cell) : string :=
  match c with
  | code_cell _ _ => "code"
  | markdown_cell _ => "markdown"
  | raw_cell _ => "raw"
  end.

(** What [Generate] returns: a cell or an output record. *)
Inductive nbnode : Type :=
| Cell (c : cell)
| Output (o : output).

(** ** JupyterOutputCellGenerators *)

Inductive JupyterOutputCellGenerators : Type :=
| CODE
| MARKDOWN
| CODE_OUTPUT.

#[global] Instance generators_eq_dec : EqDecision JupyterOutputCellGenerators.
Proof. solve_decision. Defined.

(** The body of the loop of [GetGeneratorFromClasses]. *)
Definition classify_item (res : JupyterOutputCellGenerators) (item : string)
    : JupyterOutputCellGenerators :=
  if String.eqb item "no-execute" then MARKDOWN
  else if String.eqb item "skip-test" then MARKDOWN
  else if String.eqb item "output" then CODE_OUTPUT
  else res.

Definition GetGeneratorFromClasses (class_list : list string)
    : JupyterOutputCellGenerators :=
  foldl classify_item CODE class_list.

(** [Generate(self, formatted_text, translator)]; of the translator only
    [nodelang] is read.  The final [else] of the source, which raises, is
    not reachable from a member of the enum. *)
Definition Generate (self : JupyterOutputCellGenerators)
    (formatted_text : string) (nodelang : option string) : nbnode :=
  match self with
  | CODE => Cell (new_code_cell formatted_text)
  | CODE_OUTPUT => Output (new_output "stream" formatted_text)
  | MARKDOWN =>
      let language := if truthy nodelang then default "" nodelang else "" in
      let raw_markdown :=
        "```" +:+ language +:+ nl +:+ formatted_text +:+ nl +:+ "```" +:+ nl in
      Cell (new_markdown_cell raw_markdown)
  end.

(** ** JupyterWriter.__init__: the conversion mode *)

(** A value of [conf.py]: [None], a string, or anything else. *)
Inductive config_value : Type :=
| ConfNone
| ConfStr (s : string)
| ConfOther.

Inductive translator_class : Type :=
| JupyterCodeTranslator
| JupyterTranslator.

(** What the reporter receives. *)
Inductive message : Type :=
| WarnLanguageNotGiven
| WarnInvalidHeaders
| WarnInvalidKernels
| WarnLanguageNotDefined (lang : string)
| WarnOutputAfter (cell_type : string)
| WarnMultipleOutputs
| ErrorInvalidReference.

Record JupyterWriter : Type := {
  conversion_mode : string;
  translator_class_of : translator_class
}.

(** [self.warn(...)] inside [JupyterWriter.__init__].  The class defines no
    [warn] and [docutils.writers.Writer] gives it none; the translators
    bind [self.warn] to the reporter of the document in their own
    constructor, the writer does not.  The attribute look-up raises
    [AttributeError] before the message is built. *)
Definition writer_warn : res unit := Raise AttributeError.

(** [config] is [builder.config["jupyter_conversion_mode"]], [None] when
    the key is not in the config. *)
Definition JupyterWriter_init (config : option config_value)
    : res JupyterWriter :=
  mode ←
    match config with
    | None | Some ConfNone => writer_warn;; Ok "code"
    | Some v =>
        match v with
        | ConfStr s =>
            if String.eqb s "code" then Ok "code"
            else if String.eqb s "all" then Ok "all"
            else writer_warn;; Ok "code"
        | _ => writer_warn;; Ok "code"
        end
    end;
  Ok {| conversion_mode := mode;
        translator_class_of :=
          if String.eqb mode "code" then JupyterCodeTranslator
          else JupyterTranslator |}.

(** ** The translator state *)

Record kernelspec : Type := {
  display_name : string;
  language_id : string;
  name : string
}.

(** One entry of [jupyter_kernels]; [None] when the entry has no
    ["kernelspec"] key. *)
Record kernel_entry : Type := { entry_kernelspec : option kernelspec }.

(** What the translator reads from the builder's config, and the language
    table built from its template paths.  [None] is the value [None] of an
    unset config entry. *)
Record settings : Type := {
  langTranslator : gmap string string;
  jupyter_kernels : option (gmap string kernel_entry);
  jupyter_headers : option (gmap string (list cell));
  jupyter_write_metadata : bool
}.

Definition default_lang : string := "python3".

(** The attributes of a [JupyterTranslator]; a [JupyterCodeTranslator] uses
    those up to [code_lines] and leaves the others alone. *)
Record translator : Type := {
  conf : settings;  (* the config values and the language table, fixed at construction *)
  lang : option string;
  nodelang : option string;
  cells : list cell;  (* [self.output["cells"]] *)
  metadata_kernelspec : option kernelspec;  (* [self.output.metadata.kernelspec] *)
  in_code_block : bool;
  output_cell_type : option JupyterOutputCellGenerators;
  code_lines : list string;
  markdown_lines : list string;
  indents : list nat;
  section_level : Z;
  bullets : list string;
  list_item_starts : list nat;
  in_topic : bool;
  reference_text_start : nat;
  in_reference : bool;
  list_level : Z;
  in_citation : bool;
  reported : list message  (* what [self.warn] and [self.error] were called with, oldest first *)
}.

(** Attribute assignment, one function per attribute that the code assigns. *)
Definition set_lang (v : option string) (self : translator) : translator :=
  {| conf := conf self; lang := v; nodelang := nodelang self; cells := cells
  self; metadata_kernelspec := metadata_kernelspec self; in_code_block :=
  in_code_block self; output_cell_type := output_cell_type self; code_lines :=
  code_lines self; markdown_lines := markdown_lines self; indents := indents
  self; section_level := section_level self; bullets := bullets self;
  list_item_starts := list_item_starts self; in_topic := in_topic self;
  reference_text_start := reference_text_start self; in_reference :=
  in_reference self; list_level := list_level self; in_citation := in_citation
  self; reported := reported self |}.
Definition set_nodelang (v : option string) (self : translator) : translator :=
  {| conf := conf self; lang := lang self; nodelang := v; cells := cells self;
  metadata_kernelspec := metadata_kernelspec self; in_code_block :=
  in_code_block self; output_cell_type := output_cell_type self; code_lines :=
  code_lines self; markdown_lines := markdown_lines self; indents := indents
  self; section_level := section_level self; bullets := bullets self;
  list_item_starts := list_item_starts self; in_topic := in_topic self;
  reference_text_start := reference_text_start self; in_reference :=
  in_reference self; list_level := list_level self; in_citation := in_citation
  self; reported := reported self |}.
Definition set_cells (v : list cell) (self : translator) : translator :=
  {| conf := conf self; lang := lang self; nodelang := nodelang self; cells :=
  v; metadata_kernelspec := metadata_kernelspec self; in_code_block :=
  in_code_block self; output_cell_type := output_cell_type self; code_lines :=
  code_lines self; markdown_lines := markdown_lines self; indents := indents
  self; section_level := section_level self; bullets := bullets self;
  list_item_starts := list_item_starts self; in_topic := in_topic self;
  reference_text_start := reference_text_start self; in_reference :=
  in_reference self; list_level := list_level self; in_citation := in_citation
  self; reported := reported self |}.
Definition set_metadata_kernelspec (v : option kernelspec) (self : translator) : translator :=
  {| conf := conf self; lang := lang self; nodelang := nodelang self; cells :=
  cells self; metadata_kernelspec := v; in_code_block := in_code_block self;
  output_cell_type := output_cell_type self; code_lines := code_lines self;
  markdown_lines := markdown_lines self; indents := indents self;
  section_level := section_level self; bullets := bullets self;
  list_item_starts := list_item_starts self; in_topic := in_topic self;
  reference_text_start := reference_text_start self; in_reference :=
  in_reference self; list_level := list_level self; in_citation := in_citation
  self; reported := reported self |}.
Definition set_in_code_block (v : bool) (self : translator) : translator :=
  {| conf := conf self; lang := lang self; nodelang := nodelang self; cells :=
  cells self; metadata_kernelspec := metadata_kernelspec self; in_code_block
  := v; output_cell_type := output_cell_type self; code_lines := code_lines
  self; markdown_lines := markdown_lines self; indents := indents self;
  section_level := section_level self; bullets := bullets self;
  list_item_starts := list_item_starts self; in_topic := in_topic self;
  reference_text_start := reference_text_start self; in_reference :=
  in_reference self; list_level := list_level self; in_citation := in_citation
  self; reported := reported self |}.
Definition set_output_cell_type (v : option JupyterOutputCellGenerators) (self : translator) : translator :=
  {| conf := conf self; lang := lang self; nodelang := nodelang self; cells :=
  cells self; metadata_kernelspec := metadata_kernelspec self; in_code_block
  := in_code_block self; output_cell_type := v; code_lines := code_lines self;
  markdown_lines := markdown_lines self; indents := indents self;
  section_level := section_level self; bullets := bullets self;
  list_item_starts := list_item_starts self; in_topic := in_topic self;
  reference_text_start := reference_text_start self; in_reference :=
  in_reference self; list_level := list_level self; in_citation := in_citation
  self; reported := reported self |}.
Definition set_code_lines (v : list string) (self : translator) : translator :=
  {| conf := conf self; lang := lang self; nodelang := nodelang self; cells :=
  cells self; metadata_kernelspec := metadata_kernelspec self; in_code_block
  := in_code_block self; output_cell_type := output_cell_type self; code_lines
  := v; markdown_lines := markdown_lines self; indents := indents self;
  section_level := section_level self; bullets := bullets self;
  list_item_starts := list_item_starts self; in_topic := in_topic self;
  reference_text_start := reference_text_start self; in_reference :=
  in_reference self; list_level := list_level self; in_citation := in_citation
  self; reported := reported self |}.
Definition set_markdown_lines (v : list string) (self : translator) : translator :=
  {| conf := conf self; lang := lang self; nodelang := nodelang self; cells :=
  cells self; metadata_kernelspec := metadata_kernelspec self; in_code_block
  := in_code_block self; output_cell_type := output_cell_type self; code_lines
  := code_lines self; markdown_lines := v; indents := indents self;
  section_level := section_level self; bullets := bullets self;
  list_item_starts := list_item_starts self; in_topic := in_topic self;
  reference_text_start := reference_text_start self; in_reference :=
  in_reference self; list_level := list_level self; in_citation := in_citation
  self; reported := reported self |}.
Definition set_indents (v : list nat) (self : translator) : translator :=
  {| conf := conf self; lang := lang self; nodelang := nodelang self; cells :=
  cells self; metadata_kernelspec := metadata_kernelspec self; in_code_block
  := in_code_block self; output_cell_type := output_cell_type self; code_lines
  := code_lines self; markdown_lines := markdown_lines self; indents := v;
  section_level := section_level self; bullets := bullets self;
  list_item_starts := list_item_starts self; in_topic := in_topic self;
  reference_text_start := reference_text_start self; in_reference :=
  in_reference self; list_level := list_level self; in_citation := in_citation
  self; reported := reported self |}.
Definition set_section_level (v : Z) (self : translator) : translator :=
  {| conf := conf self; lang := lang self; nodelang := nodelang self; cells :=
  cells self; metadata_kernelspec := metadata_kernelspec self; in_code_block
  := in_code_block self; output_cell_type := output_cell_type self; code_lines
  := code_lines self; markdown_lines := markdown_lines self; indents :=
  indents self; section_level := v; bullets := bullets self; list_item_starts
  := list_item_starts self; in_topic := in_topic self; reference_text_start :=
  reference_text_start self; in_reference := in_reference self; list_level :=
  list_level self; in_citation := in_citation self; reported := reported self
  |}.
Definition set_bullets (v : list string) (self : translator) : translator :=
  {| conf := conf self; lang := lang self; nodelang := nodelang self; cells :=
  cells self; metadata_kernelspec := metadata_kernelspec self; in_code_block
  := in_code_block self; output_cell_type := output_cell_type self; code_lines
  := code_lines self; markdown_lines := markdown_lines self; indents :=
  indents self; section_level := section_level self; bullets := v;
  list_item_starts := list_item_starts self; in_topic := in_topic self;
  reference_text_start := reference_text_start self; in_reference :=
  in_reference self; list_level := list_level self; in_citation := in_citation
  self; reported := reported self |}.
Definition set_list_item_starts (v : list nat) (self : translator) : translator :=
  {| conf := conf self; lang := lang self; nodelang := nodelang self; cells :=
  cells self; metadata_kernelspec := metadata_kernelspec self; in_code_block
  := in_code_block self; output_cell_type := output_cell_type self; code_lines
  := code_lines self; markdown_lines := markdown_lines self; indents :=
  indents self; section_level := section_level self; bullets := bullets self;
  list_item_starts := v; in_topic := in_topic self; reference_text_start :=
  reference_text_start self; in_reference := in_reference self; list_level :=
  list_level self; in_citation := in_citation self; reported := reported self
  |}.
Definition set_in_topic (v : bool) (self : translator) : translator :=
  {| conf := conf self; lang := lang self; nodelang := nodelang self; cells :=
  cells self; metadata_kernelspec := metadata_kernelspec self; in_code_block
  := in_code_block self; output_cell_type := output_cell_type self; code_lines
  := code_lines self; markdown_lines := markdown_lines self; indents :=
  indents self; section_level := section_level self; bullets := bullets self;
  list_item_starts := list_item_starts self; in_topic := v;
  reference_text_start := reference_text_start self; in_reference :=
  in_reference self; list_level := list_level self; in_citation := in_citation
  self; reported := reported self |}.
Definition set_reference_text_start (v : nat) (self : translator) : translator :=
  {| conf := conf self; lang := lang self; nodelang := nodelang self; cells :=
  cells self; metadata_kernelspec := metadata_kernelspec self; in_code_block
  := in_code_block self; output_cell_type := output_cell_type self; code_lines
  := code_lines self; markdown_lines := markdown_lines self; indents :=
  indents self; section_level := section_level self; bullets := bullets self;
  list_item_starts := list_item_starts self; in_topic := in_topic self;
  reference_text_start := v; in_reference := in_reference self; list_level :=
  list_level self; in_citation := in_citation self; reported := reported self
  |}.
Definition set_in_reference (v : bool) (self : translator) : translator :=
  {| conf := conf self; lang := lang self; nodelang := nodelang self; cells :=
  cells self; metadata_kernelspec := metadata_kernelspec self; in_code_block
  := in_code_block self; output_cell_type := output_cell_type self; code_lines
  := code_lines self; markdown_lines := markdown_lines self; indents :=
  indents self; section_level := section_level self; bullets := bullets self;
  list_item_starts := list_item_starts self; in_topic := in_topic self;
  reference_text_start := reference_text_start self; in_reference := v;
  list_level := list_level self; in_citation := in_citation self; reported :=
  reported self |}.
Definition set_list_level (v : Z) (self : translator) : translator :=
  {| conf := conf self; lang := lang self; nodelang := nodelang self; cells :=
  cells self; metadata_kernelspec := metadata_kernelspec self; in_code_block
  := in_code_block self; output_cell_type := output_cell_type self; code_lines
  := code_lines self; markdown_lines := markdown_lines self; indents :=
  indents self; section_level := section_level self; bullets := bullets self;
  list_item_starts := list_item_starts self; in_topic := in_topic self;
  reference_text_start := reference_text_start self; in_reference :=
  in_reference self; list_level := v; in_citation := in_citation self;
  reported := reported self |}.
Definition set_in_citation (v : bool) (self : translator) : translator :=
  {| conf := conf self; lang := lang self; nodelang := nodelang self; cells :=
  cells self; metadata_kernelspec := metadata_kernelspec self; in_code_block
  := in_code_block self; output_cell_type := output_cell_type self; code_lines
  := code_lines self; markdown_lines := markdown_lines self; indents :=
  indents self; section_level := section_level self; bullets := bullets self;
  list_item_starts := list_item_starts self; in_topic := in_topic self;
  reference_text_start := reference_text_start self; in_reference :=
  in_reference self; list_level := list_level self; in_citation := v; reported
  := reported self |}.
Definition set_reported (v : list message) (self : translator) : translator :=
  {| conf := conf self; lang := lang self; nodelang := nodelang self; cells :=
  cells self; metadata_kernelspec := metadata_kernelspec self; in_code_block
  := in_code_block self; output_cell_type := output_cell_type self; code_lines
  := code_lines self; markdown_lines := markdown_lines self; indents :=
  indents self; section_level := section_level self; bullets := bullets self;
  list_item_starts := list_item_starts self; in_topic := in_topic self;
  reference_text_start := reference_text_start self; in_reference :=
  in_reference self; list_level := list_level self; in_citation := in_citation
  self; reported := v |}.

(** ** Document tree nodes (docutils) *)

(** The node classes that a translator has a method for; [other] stands for
    every class dispatched to [default_visit] and [default_departure]. *)
Inductive kind : Type :=
| document | topic | section | title | paragraph | emphasis | strong
| figure | image | math | displaymath | raw | reference | target
| bullet_list | enumerated_list | list_item
| definition_list | term | definition | field_list | field_name | field_body
| citation | label | literal_block | highlightlang | other.

(** The attributes the translators read; [None] when the key is absent
    from [node.attributes]. *)
Record attributes : Type := {
  classes : list string;
  language : option string;
  lang_attr : option string;       (* ["lang"] of a highlightlang node *)
  uri : option string;
  latex : option string;
  ids : option (list string);
  number : option string;          (* [str(node["number"])] *)
  refuri : option string;
  internal : option bool;
  refid : option string
}.

#[local] Set Warnings "-register-all".
Inductive node : Type :=
| Text (astext : string)
| Element (k : kind) (a : attributes) (children : list node).

(** ** JupyterCodeTranslator *)

Definition warn (m : message) (self : translator) : translator :=
  set_reported (reported self ++ [m]) self.

(** The loop of [strip_blank_lines_in_end_of_block]: [n] iterations are
    left, [lines[-1]] raises on an empty list. *)
Fixpoint strip_loop (n : nat) (lines : list string) : res (list string) :=
  match n with
  | O => Ok lines
  | S n' =>
      '(init, last) ← from_option IndexError (PyList.unsnoc lines);
      if Nat.eqb (String.length (Str.strip last)) 0
      then strip_loop n' init
      else Ok lines
  end.

Definition strip_blank_lines_in_end_of_block (line_text : string) : res string :=
  let lines := Str.split Str.LF line_text in
  lines ← strip_loop (length lines) lines;
  Ok (Str.join nl lines).

(** The attributes as [__init__] of either class leaves them, with [cells0]
    the first cells of the notebook. *)
Definition initial (c : settings) (cells0 : list cell) : translator :=
  {| conf := c; lang := None; nodelang := None; cells := cells0;
     metadata_kernelspec := None; in_code_block := false;
     output_cell_type := None; code_lines := [];
     markdown_lines := []; indents := []; section_level := 0;
     bullets := []; list_item_starts := []; in_topic := false;
     reference_text_start := 0%nat; in_reference := false;
     list_level := 0; in_citation := false; reported := [] |}.

(** [JupyterCodeTranslator.__init__] after its reads of the config:
    [welcome] is the text of the welcome block file when one was found,
    [metadata] the formatted generation text. *)
Definition JupyterCodeTranslator_init (c : settings) (welcome : option string)
    (metadata : string) : res translator :=
  cells0 ← match welcome with
            | Some line_text =>
                formatted_line_text ← strip_blank_lines_in_end_of_block line_text;
                Ok [new_markdown_cell formatted_line_text]
            | None => Ok []
            end;
  let cells1 :=
    if jupyter_write_metadata c then cells0 ++ [new_markdown_cell metadata]
    else cells0 in
  Ok (initial c cells1).

Module Code.

Definition visit_document (self : translator) : res translator :=
  Ok (set_lang (Some default_lang) self).

(** The header loop of [depart_document]: [hs] is the reversed list. *)
Definition insert_headers (write_metadata : bool) (hs : list cell)
    (cs : list cell) : list cell :=
  foldl (fun cs h => if write_metadata then PyList.insert 1 h cs
                     else PyList.insert 0 h cs) cs hs.

Definition depart_document (self : translator) : res translator :=
  let self :=
    if truthy (lang self) then self
    else set_lang (Some default_lang) (warn WarnLanguageNotGiven self) in
  let l := default default_lang (lang self) in
  (* Header(insert after metadata) *)
  let self :=
    match jupyter_headers (conf self) with
    | Some headers =>
        match headers !! l with
        | Some hs =>
            set_cells (insert_headers (jupyter_write_metadata (conf self))
                         (rev hs) (cells self)) self
        | None => warn WarnInvalidHeaders self
        end
    | None => self
    end in
  (* Update metadata *)
  let self :=
    match jupyter_kernels (conf self) with
    | Some kernels =>
        match kernels !! l ≫= entry_kernelspec with
        | Some ks => set_metadata_kernelspec (Some ks) self
        | None => warn WarnInvalidKernels self
        end
    | None => self
    end in
  Ok self.

Definition visit_highlightlang (a : attributes) (self : translator)
    : res translator :=
  l ← from_option KeyError (lang_attr a);
  let l := Str.strip l in
  kernels ← from_option TypeError (jupyter_kernels (conf self));
  if decide (is_Some (kernels !! l)) then Ok (set_lang (Some l) self)
  else Ok (set_lang (Some default_lang) (warn (WarnLanguageNotDefined l) self)).

Definition visit_Text (text : string) (self : translator) : res translator :=
  if in_code_block self then Ok (set_code_lines (code_lines self ++ [text]) self)
  else Ok self.

Definition depart_Text (self : translator) : res translator := Ok self.

Definition visit_literal_block (a : attributes) (self : translator)
    : res translator :=
  let self :=
    set_output_cell_type (Some (GetGeneratorFromClasses (classes a))) self in
  let self :=
    match language a with
    | Some l => set_nodelang (Some (Str.strip l)) self
    | None => set_nodelang (lang self) self
    end in
  (* Translate the language name across from the Sphinx to the Jupyter namespace *)
  let self :=
    set_nodelang (translate_value (langTranslator (conf self)) (nodelang self))
      self in
  let self := set_in_code_block true self in
  let self := set_code_lines [] self in
  if decide (nodelang self
             ≠ translate_value (langTranslator (conf self)) (lang self))
  then Ok (set_output_cell_type (Some MARKDOWN) self)
  else Ok self.

Definition depart_literal_block (self : translator) : res translator :=
  let line_text := Str.join "" (code_lines self) in
  formatted_line_text ← strip_blank_lines_in_end_of_block line_text;
  ty ← from_option AttributeError (output_cell_type self);
  let new_code_cell := Generate ty formatted_line_text (nodelang self) in
  self ←
    (if decide (ty = CODE_OUTPUT) then
       '(before, mostRecentCell) ←
         from_option IndexError (PyList.unsnoc (cells self));
       match mostRecentCell with
       | code_cell src outs =>
           match outs, new_code_cell with
           | [], Output o =>
               Ok (set_cells (before ++ [code_cell src (outs ++ [o])]) self)
           | [], Cell _ => Raise InvalidOutputCellType (* not reached *)
           | _ :: _, _ => Ok (warn WarnMultipleOutputs self)
           end
       | _ => Ok (warn (WarnOutputAfter (cell_type mostRecentCell)) self)
       end
     else
       match new_code_cell with
       | Cell c => Ok (set_cells (cells self ++ [c]) self)
       | Output _ => Raise InvalidOutputCellType (* not reached *)
       end);
  Ok (set_in_code_block false self).

End Code.

(** ** JupyterTranslator *)

Module Full.

Definition sep_lines : string := "  " +:+ nl.
Definition sep_paras : string := nl +:+ nl.
Definition indent_char : string := " ".
Definition default_ext : string := ".ipynb".

(** [self.markdown_lines.append(t)] *)
Definition emit (t : string) (self : translator) : translator :=
  set_markdown_lines (markdown_lines self ++ [t]) self.

(** [re.sub(URI_SPACE_REPLACE_FROM, URI_SPACE_REPLACE_TO, s)]: the
    pattern [\s] matches one white-space character at a time. *)
Fixpoint sub_space (to : string) (s : string) : string :=
  match s with
  | EmptyString => EmptyString
  | String c s' =>
      if Str.isspace c then to +:+ sub_space to s'
      else String c (sub_space to s')
  end.

Definition URI_SPACE_REPLACE_TO : string := "-".

(** [split_uri_id]: the two groups of [SPLIT_URI_ID_REGEX] searched in
    [uri].  The pattern is a group of characters other than ['#'] (as
    many as possible), an optional ['#'], and a group of characters other
    than the line feed (as many as possible).  It matches at position 0:
    the first group is the longest prefix without ['#'], one ['#'] is
    skipped when it follows, and the second group runs up to the first
    line feed after it. *)
Definition split_uri_id (uri : string) : string * string :=
  let '(g1, r) := Str.span_not "#" uri in
  let r := match r with
           | String _ r' => r'
           | EmptyString => EmptyString
           end in
  let '(g2, _) := Str.span_not Str.LF r in
  (g1, g2).

Definition add_extension_to_inline_link (uri ext : string) : string :=
  if negb (Str.contains "." uri) then
    let '(uri, id_) := split_uri_id uri in
    uri +:+ ext +:+ "#" +:+ id_
  else uri.

Definition add_markdown_cell (self : translator) : res translator :=
  let line_text := Str.join "" (markdown_lines self) in
  formatted_line_text ← strip_blank_lines_in_end_of_block line_text;
  if Nat.ltb 0 (String.length (Str.strip formatted_line_text)) then
    let new_md_cell := new_markdown_cell formatted_line_text in
    let self := set_cells (cells self ++ [new_md_cell]) self in
    Ok (set_markdown_lines [] self)
  else Ok self.

Definition visit_document (self : translator) : res translator :=
  Code.visit_document self.

Definition depart_document (self : translator) : res translator :=
  self ← add_markdown_cell self;
  Code.depart_document self.

Definition visit_topic (self : translator) : res translator :=
  Ok (set_in_topic true self).

Definition depart_topic (self : translator) : res translator :=
  Ok (set_in_topic false self).

Definition visit_section (self : translator) : res translator :=
  Ok (set_section_level (section_level self + 1) self).

Definition depart_section (self : translator) : res translator :=
  Ok (set_section_level (section_level self - 1) self).

Definition visit_Text (text : string) (self : translator) : res translator :=
  if in_code_block self then Ok (set_code_lines (code_lines self ++ [text]) self)
  else Ok (emit text self).

Definition depart_Text (self : translator) : res translator := Ok self.

Definition visit_image (a : attributes) (self : translator) : res translator :=
  uri ← from_option KeyError (uri a);
  Ok (emit ("![" +:+ uri +:+ "](" +:+ uri +:+ ")") self).

Definition visit_math (a : attributes) (self : translator) : res translator :=
  l ← from_option KeyError (latex a);
  let math_text := Str.strip l in
  Ok (emit ("$ " +:+ math_text +:+ " $") self).

Definition visit_displaymath (a : attributes) (self : translator)
    : res translator :=
  l ← from_option KeyError (latex a);
  let math_text := Str.strip l in
  let formatted_text := "$$" +:+ nl +:+ math_text +:+ nl +:+ "$$" +:+ sep_paras in
  let formatted_text :=
    "<table width=100%><tr style='background-color: #FFFFFF !important;'><td width=75%>"
    +:+ formatted_text
    +:+ "</td><td width=25% style='text-align:center !important;'>" in
  let self := emit formatted_text self in
  (* Add the line number reference. *)
  node_ids ← from_option KeyError (ids a);
  self ← match node_ids with
         | _ :: _ =>
             n ← from_option KeyError (number a);
             Ok (emit ("(" +:+ n +:+ ")") self)
         | [] => Ok self
         end;
  Ok (emit "</td></tr></table>" self).

Definition depart_paragraph (self : translator) : res translator :=
  if 0 <? list_level self then Ok (emit sep_lines self)
  else Ok (emit sep_paras self).

Definition visit_title (self : translator) : res translator :=
  self ← add_markdown_cell self;
  if in_topic self then
    Ok (emit (Str.mul "#" (section_level self + 1) +:+ " ") self)
  else
    Ok (emit (Str.mul "#" (section_level self) +:+ " ") self).

Definition depart_title (self : translator) : res translator :=
  Ok (emit sep_paras self).

Definition visit_emphasis (self : translator) : res translator :=
  Ok (emit "*" self).
Definition depart_emphasis (self : translator) : res translator :=
  Ok (emit "*" self).
Definition visit_strong (self : translator) : res translator :=
  Ok (emit "**" self).
Definition depart_strong (self : translator) : res translator :=
  Ok (emit "**" self).

Definition depart_figure (self : translator) : res translator :=
  Ok (emit sep_lines self).

Definition visit_reference (self : translator) : res translator :=
  let self := set_in_reference true self in
  let self := emit "[" self in
  Ok (set_reference_text_start (length (markdown_lines self)) self).

Definition depart_reference (a : attributes) (self : translator)
    : res translator :=
  let self :=
    if in_topic self then
      (* Jupyter Notebook uses the target text as its id *)
      let uri_text :=
        Str.strip (Str.join ""
                     (drop (reference_text_start self) (markdown_lines self))) in
      let uri_text := sub_space URI_SPACE_REPLACE_TO uri_text in
      let formatted_text := "](#" +:+ uri_text +:+ ")" in
      emit formatted_text self
    else
      let '(refuri, self) :=
        match refuri a with
        | Some refuri =>
            if decide (internal a = Some true)
            then (add_extension_to_inline_link refuri default_ext, self)
            else (refuri, self)
        | None =>
            match refid a with
            | Some refid => ("#" +:+ refid, self)
            | None => (EmptyString, warn ErrorInvalidReference self)
            end
        end in
      emit ("](" +:+ refuri +:+ ")") self in
  Ok (set_in_reference false self).

Definition visit_target (a : attributes) (self : translator) : res translator :=
  match refid a with
  | Some refid => Ok (emit (nl +:+ "<a id='" +:+ refid +:+ "'></a>" +:+ nl) self)
  | None => Ok self
  end.

Definition visit_bullet_list (self : translator) : res translator :=
  let self := set_list_level (list_level self + 1) self in
  (* markdown does not have option changing bullet chars *)
  let self := set_bullets (bullets self ++ ["-"]) self in
  '(_, bullet) ← from_option IndexError (PyList.unsnoc (bullets self));
  Ok (set_indents (indents self ++ [(String.length bullet + 1)%nat]) self).

(** [self.bullets.pop()] then [self.indents.pop()] *)
Definition pop_bullet_and_indent (self : translator) : res translator :=
  '(bs, _) ← from_option IndexError (PyList.unsnoc (bullets self));
  let self := set_bullets bs self in
  '(ins, _) ← from_option IndexError (PyList.unsnoc (indents self));
  Ok (set_indents ins self).

Definition depart_bullet_list (self : translator) : res translator :=
  let self := set_list_level (list_level self - 1) self in
  self ← (if list_level self =? 0 then
            let self := emit sep_paras self in
            if in_topic self then add_markdown_cell self else Ok self
          else Ok self);
  pop_bullet_and_indent self.

Definition visit_enumerated_list (self : translator) : res translator :=
  let self := set_list_level (list_level self + 1) self in
  (* markdown does not have option changing bullet chars *)
  let self := set_bullets (bullets self ++ ["1."]) self in
  '(_, bullet) ← from_option IndexError (PyList.unsnoc (bullets self));
  Ok (set_indents (indents self ++ [(String.length bullet + 1)%nat]) self).

Definition depart_enumerated_list (self : translator) : res translator :=
  let self := set_list_level (list_level self - 1) self in
  let self := if list_level self =? 0 then emit sep_paras self else self in
  pop_bullet_and_indent self.

Definition visit_list_item (self : translator) : res translator :=
  '(_, bullet) ← from_option IndexError (PyList.unsnoc (bullets self));
  let head := bullet +:+ " " in
  let self := emit head self in
  Ok (set_list_item_starts
        (list_item_starts self ++ [length (markdown_lines self)]) self).

Definition depart_list_item (self : translator) : res translator :=
  '(starts, list_item_start) ←
    from_option IndexError (PyList.unsnoc (list_item_starts self));
  let self := set_list_item_starts starts self in
  '(_, width) ← from_option IndexError (PyList.unsnoc (indents self));
  let indent := Str.repeat indent_char width in
  (* remove last breakline *)
  '(init, last) ← from_option IndexError (PyList.unsnoc (markdown_lines self));
  '(last_init, last_char) ← from_option IndexError (Str.unsnoc last);
  let br_removed_flag := Ascii.eqb last_char Str.LF in
  let self :=
    if br_removed_flag then set_markdown_lines (init ++ [last_init]) self
    else self in
  let lines := markdown_lines self in
  let self :=
    set_markdown_lines
      (take list_item_start lines
       ++ map (Str.replace Str.LF (nl +:+ indent)) (drop list_item_start lines))
      self in
  (* add breakline *)
  if br_removed_flag then Ok (emit nl self) else Ok self.

Definition visit_definition_list (self : translator) : res translator :=
  Ok (emit (nl +:+ "<dl style='margin: 20px 0;'>" +:+ nl) self).
Definition depart_definition_list (self : translator) : res translator :=
  Ok (emit (nl +:+ "</dl>" +:+ sep_paras) self).
Definition visit_term (self : translator) : res translator :=
  Ok (emit "<dt>" self).
Definition depart_term (self : translator) : res translator :=
  Ok (emit ("</dt>" +:+ nl) self).
Definition visit_definition (self : translator) : res translator :=
  Ok (emit ("<dd>" +:+ nl) self).
Definition depart_definition (self : translator) : res translator :=
  Ok (emit ("</dd>" +:+ nl) self).

Definition visit_field_list := visit_definition_list.
Definition depart_field_list := depart_definition_list.
Definition visit_field_name := visit_term.
Definition depart_field_name := depart_term.
Definition visit_field_body := visit_definition.
Definition depart_field_body := depart_definition.

(** [s[:-1]], the empty string when [s] is empty. *)
Definition drop_last_char (s : string) : string :=
  match Str.unsnoc s with
  | Some (i, _) => i
  | None => EmptyString
  end.

Definition visit_citation (a : attributes) (self : translator)
    : res translator :=
  let self := set_in_citation true self in
  match ids a with
  | Some node_ids =>
      let id_text := foldl (fun id_text id_ => id_text +:+ id_ +:+ " ")
                       EmptyString node_ids in
      let id_text := drop_last_char id_text in
      Ok (emit ("<a id='" +:+ id_text +:+ "'></a>" +:+ nl) self)
  | None => Ok self
  end.

Definition depart_citation (self : translator) : res translator :=
  Ok (set_in_citation false self).

Definition visit_label (self : translator) : res translator :=
  if in_citation self then Ok (emit "\[" self) else Ok self.
Definition depart_label (self : translator) : res translator :=
  if in_citation self then Ok (emit "\] " self) else Ok self.

Definition visit_literal_block (a : attributes) (self : translator)
    : res translator :=
  self ← Code.visit_literal_block a self;
  if in_code_block self then add_markdown_cell self else Ok self.

End Full.

(** ** The traversal (docutils' walkabout) *)

Definition dispatch_visit (cls : translator_class) (k : kind) (a : attributes)
    (self : translator) : res translator :=
  match cls with
  | JupyterCodeTranslator =>
      match k with
      | document => Code.visit_document self
      | highlightlang => Code.visit_highlightlang a self
      | literal_block => Code.visit_literal_block a self
      | _ => Ok self
      end
  | JupyterTranslator =>
      match k with
      | document => Full.visit_document self
      | topic => Full.visit_topic self
      | section => Full.visit_section self
      | title => Full.visit_title self
      | paragraph => Ok self
      | emphasis => Full.visit_emphasis self
      | strong => Full.visit_strong self
      | figure => Ok self
      | image => Full.visit_image a self
      | math => Full.visit_math a self
      | displaymath => Full.visit_displaymath a self
      | raw => Ok self
      | reference => Full.visit_reference self
      | target => Full.visit_target a self
      | bullet_list => Full.visit_bullet_list self
      | enumerated_list => Full.visit_enumerated_list self
      | list_item => Full.visit_list_item self
      | definition_list => Full.visit_definition_list self
      | term => Full.visit_term self
      | definition => Full.visit_definition self
      | field_list => Full.visit_field_list self
      | field_name => Full.visit_field_name self
      | field_body => Full.visit_field_body self
      | citation => Full.visit_citation a self
      | label => Full.visit_label self
      | literal_block => Full.visit_literal_block a self
      | highlightlang => Code.visit_highlightlang a self
      | other => Ok self
      end
  end.

Definition dispatch_departure (cls : translator_class) (k : kind)
    (a : attributes) (self : translator) : res translator :=
  match cls with
  | JupyterCodeTranslator =>
      match k with
      | document => Code.depart_document self
      | literal_block => Code.depart_literal_block self
      | _ => Ok self
      end
  | JupyterTranslator =>
      match k with
      | document => Full.depart_document self
      | topic => Full.depart_topic self
      | section => Full.depart_section self
      | title => Full.depart_title self
      | paragraph => Full.depart_paragraph self
      | emphasis => Full.depart_emphasis self
      | strong => Full.depart_strong self
      | figure => Full.depart_figure self
      | reference => Full.depart_reference a self
      | bullet_list => Full.depart_bullet_list self
      | enumerated_list => Full.depart_enumerated_list self
      | list_item => Full.depart_list_item self
      | definition_list => Full.depart_definition_list self
      | term => Full.depart_term self
      | definition => Full.depart_definition self
      | field_list => Full.depart_field_list self
      | field_name => Full.depart_field_name self
      | field_body => Full.depart_field_body self
      | citation => Full.depart_citation self
      | label => Full.depart_label self
      | literal_block => Code.depart_literal_block self
      | _ => Ok self
      end
  end.

Definition visit_Text (cls : translator_class) (text : string)
    (self : translator) : res translator :=
  match cls with
  | JupyterCodeTranslator => Code.visit_Text text self
  | JupyterTranslator => Full.visit_Text text self
  end.

(** [node.walkabout(visitor)]: visit, then the children in order, then
    depart.  The translators raise none of docutils' skip exceptions. *)
Fixpoint walkabout (cls : translator_class) (n : node) (self : translator)
    : res translator :=
  match n with
  | Text text =>
      self ← visit_Text cls text self;
      Ok self
  | Element k a children =>
      self ← dispatch_visit cls k a self;
      self ← (fix walk_children (l : list node) (self : translator) :=
                match l with
                | [] => Ok self
                | child :: l' =>
                    self ← walkabout cls child self;
                    walk_children l' self
                end) children self;
      dispatch_departure cls k a self
  end.

Definition walk_children (cls : translator_class) : list node -> translator -> res translator :=
  fix walk_children (l : list node) (self : translator) :=
    match l with
    | [] => Ok self
    | child :: l' =>
        self ← walkabout cls child self;
        walk_children l' self
    end.

(** * Vocabulary of the properties *)

(** [all_space s]: every character of [s] is white space. *)
Fixpoint all_space (s : string) : bool :=
  match s with
  | EmptyString => true
  | String c s' => Str.isspace c && all_space s'
  end.

(** [trailing_blank_split lines kept blanks]: [blanks] is the maximal run of
    lines at the end of [lines] that are empty after trimming, [kept] is
    what stands before it. *)
Definition trailing_blank_split (lines kept blanks : list string) : Prop :=
  lines = kept ++ blanks
  /\ Forall (fun line => Str.strip line = "") blanks
  /\ match PyList.unsnoc kept with
     | Some (_, line) => Str.strip line <> ""
     | None => True
     end.

(** What a flush commits: the cell with [formatted] and an empty buffer. *)
Definition commit_markdown (formatted : string) (self : translator) : translator :=
  set_markdown_lines [] (set_cells (cells self ++ [new_markdown_cell formatted]) self).

(** A config with no language table, no kernels and no headers, and a
    translator fresh from [__init__] over it. *)
Definition bare_settings (write_metadata : bool) : settings :=
  {| langTranslator := ∅; jupyter_kernels := None; jupyter_headers := None;
     jupyter_write_metadata := write_metadata |}.

Definition fresh : translator := initial (bare_settings false) [].

(** A node without attributes, and the attributes of a literal block
    with the given classes and no declared language. *)
Definition no_attributes : attributes :=
  {| classes := []; language := None; lang_attr := None; uri := None;
     latex := None; ids := Some []; number := None; refuri := None;
     internal := None; refid := None |}.

Definition with_classes (cl : list string) : attributes :=
  {| classes := cl; language := None; lang_attr := None; uri := None;
     latex := None; ids := Some []; number := None; refuri := None;
     internal := None; refid := None |}.

(** A whole conversion: construction, then the walk over the document. *)
Definition convert (cls : translator_class) (c : settings)
    (welcome : option string) (metadata : string) (doc : node) : res translator :=
  self ← JupyterCodeTranslator_init c welcome metadata;
  walkabout cls doc self.

(** What [depart_literal_block] does with an output block, by the most
    recent cell. *)
Definition attach_output (formatted : string) (self : translator)
    : res translator :=
  match PyList.unsnoc (cells self) with
  | None => Raise IndexError
  | Some (before, code_cell src []) =>
      Ok (set_in_code_block false
            (set_cells (before ++ [code_cell src [new_output "stream" formatted]])
               self))
  | Some (_, code_cell _ (_ :: _)) =>
      Ok (set_in_code_block false (warn WarnMultipleOutputs self))
  | Some (_, c) =>
      Ok (set_in_code_block false (warn (WarnOutputAfter (cell_type c)) self))
  end.

(** A config with two header cells for python3. *)
Definition header_settings (write_metadata : bool) : settings :=
  {| langTranslator := ∅; jupyter_kernels := None;
     jupyter_headers :=
       Some {[ "python3" := [new_code_cell "h1"; new_code_cell "h2"] ]};
     jupyter_write_metadata := write_metadata |}.

(** The language a literal block is rendered in: its declared language,
    trimmed, or the current language of the document when it declares
    none, translated. *)
Definition block_language (a : attributes) (self : translator) : option string :=
  translate_value (langTranslator (conf self))
    (match language a with
     | Some l => Some (Str.strip l)
     | None => lang self
     end).

(** The translated current language of the document. *)
Definition document_language (self : translator) : option string :=
  translate_value (langTranslator (conf self)) (lang self).

(** The markdown cell with [formatted] inside a fence that names the
    language. *)
Definition fenced_markdown (nodelang : option string) (formatted : string) : cell :=
  new_markdown_cell
    ("```" +:+ (if truthy nodelang then default "" nodelang else "")
     +:+ nl +:+ formatted +:+ nl +:+ "```" +:+ nl).

(** The language that [depart_document] looks up. *)
Definition final_lang (self : translator) : string :=
  if truthy (lang self) then default default_lang (lang self) else default_lang.

(** The visible text of a reference: what was appended to the markdown
    buffer since [visit_reference]. *)
Definition visible_text (self : translator) : string :=
  Str.join "" (drop (reference_text_start self) (markdown_lines self)).

(** A dash for a white-space character, the character itself otherwise. *)
Definition dash_for_space (c : ascii) : ascii :=
  if Str.isspace c then "-"%char else c.

(** A state inside a topic, after [visit_reference] and one text child. *)
Definition in_topic_after_text (text : string) : translator :=
  set_reference_text_start 1
    (set_markdown_lines ["["; text] (set_in_topic true fresh)).

(** The counters and stacks that follow the nesting of sections and lists. *)
Definition nesting (self : translator) : Z * Z * list string * list nat :=
  (section_level self, list_level self, bullets self, indents self).

(** The node classes whose visit pushes or increments. *)
Definition structural (k : kind) : bool :=
  match k with
  | section | bullet_list | enumerated_list => true
  | _ => false
  end.

(** A section with a title, a paragraph and a nested list. *)
Definition nested_document : node :=
  Element section no_attributes
    [Element title no_attributes [Text "Intro"];
     Element bullet_list no_attributes
       [Element list_item no_attributes
          [Element paragraph no_attributes [Text "one"];
           Element enumerated_list no_attributes
             [Element list_item no_attributes
                [Element paragraph no_attributes [Text "inner"]]]];
        Element list_item no_attributes
          [Element paragraph no_attributes [Text "two"]]]].

Definition after_nested_document : translator :=
  match walkabout JupyterTranslator nested_document fresh with
  | Ok self => self
  | Raise _ => fresh
  end.

(** The node classes other than literal block and document. *)
Definition plain_kind (k : kind) : bool :=
  match k with
  | literal_block | document => false
  | _ => true
  end.

(** A node that is neither a literal block nor a document and has none
    below it. *)
Fixpoint plain (n : node) : bool :=
  match n with
  | Text _ => true
  | Element k _ children => plain_kind k && forallb plain children
  end.

(** The texts of the text nodes of a tree, in document order. *)
Fixpoint texts_of (n : node) : list string :=
  match n with
  | Text text => [text]
  | Element _ _ children => flat_map texts_of children
  end.

(** What decides how an open literal block is closed. *)
Definition block_state (self : translator)
    : bool * option JupyterOutputCellGenerators * option string :=
  (in_code_block self, output_cell_type self, nodelang self).

(** [grows texts s s']: from [s] to [s'] the open block is the same, the
    code buffer has gained [texts], and the cells have gained markdown
    cells only. *)
Definition grows (texts : list string) (s s' : translator) : Prop :=
  block_state s' = block_state s
  /\ code_lines s' = code_lines s ++ texts
  /\ exists added,
       cells s' = cells s ++ added
       /\ Forall (fun c => cell_type c = "markdown") added.

(** A julia block tagged as output. *)
Definition julia_output_block : attributes :=
  {| classes := ["output"]; language := Some "julia"; lang_attr := None;
     uri := None; latex := None; ids := Some []; number := None;
     refuri := None; internal := None; refid := None |}.

(** ** get_source_file_name *)

(** What [get_source_file_name] returns or raises. *)
Inductive source_name : Type :=
| SourceName (name : string)
| RaiseValueError
| RaiseIndexError.

(** The loop of [get_source_file_name] from index [i] on, with the two
    lists from that index on: [file_path_list[i]] raises [IndexError] past
    the end of the file's list. *)
Fixpoint check_srcdir (srcdir_path_list file_path_list : list string)
    : option source_name :=
  match srcdir_path_list with
  | [] => None
  | d :: srcdir_rest =>
      match file_path_list with
      | [] => Some RaiseIndexError
      | f :: file_rest =>
          if String.eqb d f then check_srcdir srcdir_rest file_rest
          else Some RaiseValueError
      end
  end.

Definition SLASH : ascii := "/"%char.

(** [get_source_file_name(filepath, srcdir)]; [split] returns no empty
    list, so the start of the slice is never negative. *)
Definition get_source_file_name (filepath srcdir : string) : source_name :=
  let file_path_list := Str.split SLASH filepath in
  let srcdir_path_list := Str.split SLASH srcdir in
  match check_srcdir srcdir_path_list file_path_list with
  | Some raised => raised
  | None =>
      let file_name_list := drop (length srcdir_path_list - 1) file_path_list in
      SourceName (Str.join "/" file_name_list)
  end.

(** ** Vocabulary of the further properties *)

(** The classes that [GetGeneratorFromClasses] knows. *)
Definition is_tag (item : string) : bool :=
  String.eqb item "no-execute" || String.eqb item "skip-test"
  || String.eqb item "output".

(** A cell without its outputs: its type and its source. *)
Definition cell_source (c : cell) : string :=
  match c with
  | code_cell source _ | markdown_cell source | raw_cell source => source
  end.

Definition type_and_source (c : cell) : string * string :=
  (cell_type c, cell_source c).

(** The kind a literal block is closed with: markdown when its language
    differs from the document's, the kind of its classes otherwise. *)
Definition effective_kind (a : attributes) (self : translator)
    : JupyterOutputCellGenerators :=
  if decide (block_language a self <> document_language self) then MARKDOWN
  else GetGeneratorFromClasses (classes a).

(** A literal block with the given classes whose language is not declared. *)
Definition block_with (cl : list string) (texts : list string) : node :=
  Element literal_block (with_classes cl) (map Text texts).

(** A tree without a document node. *)
Fixpoint no_document (n : node) : bool :=
  match n with
  | Text _ => true
  | Element k _ children =>
      match k with
      | document => false
      | _ => forallb no_document children
      end
  end.

(** [cells_extend s s']: the cells of [s], by type and source and in their
    order, are the first cells of [s']. *)
Definition cells_extend (s s' : translator) : Prop :=
  exists added,
    map type_and_source (cells s') = map type_and_source (cells s) ++ added.

(** What prose could leave in a minimal translator. *)
Definition prose_trace (self : translator)
    : list cell * list string * list string * bool :=
  (cells self, code_lines self, markdown_lines self, in_code_block self).

(** The language register holds the default language or a key of
    [jupyter_kernels]. *)
Definition known_lang (self : translator) : Prop :=
  exists l,
    lang self = Some l
    /\ (l = default_lang
        \/ exists kernels,
             jupyter_kernels (conf self) = Some kernels
             /\ is_Some (kernels !! l)).

(** [same_lang s s']: the config and the language register are the same. *)
Definition same_lang (s s' : translator) : Prop :=
  conf s' = conf s /\ lang s' = lang s.

(** A config with kernels for python3 and julia, and a document that
    switches to julia. *)
Definition kernel_settings : settings :=
  {| langTranslator := ∅;
     jupyter_kernels :=
       Some {[ "python3" := {| entry_kernelspec :=
                                 Some {| display_name := "Python";
                                         language_id := "python3";
                                         name := "python3" |} |};
               "julia" := {| entry_kernelspec :=
                               Some {| display_name := "Julia 0.6.0";
                                       language_id := "julia";
                                       name := "julia-0.6" |} |} ]};
     jupyter_headers := None;
     jupyter_write_metadata := false |}.

Definition julia_document : node :=
  Element document no_attributes
    [Element highlightlang
       {| classes := []; language := None; lang_attr := Some "julia";
          uri := None; latex := None; ids := Some []; number := None;
          refuri := None; internal := None; refid := None |} [];
     Element literal_block no_attributes [Text "x = 1"]].

Definition after_julia_document : translator :=
  match walkabout JupyterTranslator julia_document (initial kernel_settings []) with
  | Ok self => self
  | Raise _ => fresh
  end.

(** The text of a list item with its continuation lines indented: every
    line feed except a final one is followed by [width] indent characters. *)
Definition indented (width : nat) (text : string) : string :=
  let indent := Str.repeat Full.indent_char width in
  match Str.unsnoc text with
  | Some (init, c) =>
      if Ascii.eqb c Str.LF then Str.replace Str.LF (nl +:+ indent) init +:+ nl
      else Str.replace Str.LF (nl +:+ indent) text
  | None => EmptyString
  end.

(** A translator inside a list item: two fragments were emitted after the
    head of the item, the first with a line feed inside, the second with a
    final line feed. *)
Definition inside_list_item : translator :=
  set_list_item_starts [1%nat]
    (set_indents [2%nat]
       (set_bullets ["-"]
          (set_markdown_lines
             ["- "; "one" +:+ nl +:+ "two"; "three" +:+ nl] fresh))).

(** A node below [depth] nested sections. *)
Fixpoint in_sections (depth : nat) (a : attributes) (n : node) : node :=
  match depth with
  | O => n
  | S d => Element section a [in_sections d a n]
  end.

(** * Properties *)

(** ** Lists and strings *)

Section PyListFacts.
Context {A : Type}.
Implicit Types (l : list A) (x : A).

Lemma unsnoc_snoc l x : PyList.unsnoc (l ++ [x]) = Some (l, x).
Proof.
  induction l as [|y l IH]; simpl; [reflexivity|].
  rewrite IH. reflexivity.
Qed.

Lemma unsnoc_Some l i x : PyList.unsnoc l = Some (i, x) -> l = i ++ [x].
Proof.
  revert i. induction l as [|y l IH]; intros i; simpl; [discriminate|].
  destruct (PyList.unsnoc l) as [[i' z]|] eqn:E.
  - intros [= <- <-]. simpl. f_equal. apply IH. reflexivity.
  - intros [= <- <-]. destruct l; [reflexivity|].
    simpl in E. destruct (PyList.unsnoc l) as [[? ?]|]; discriminate.
Qed.

Lemma unsnoc_None l : PyList.unsnoc l = None -> l = [].
Proof.
  destruct l as [|y l]; [reflexivity|]. simpl.
  destruct (PyList.unsnoc l) as [[? ?]|]; discriminate.
Qed.

Lemma insert_0 x l : PyList.insert 0 x l = x :: l.
Proof. reflexivity. Qed.

End PyListFacts.

Section StrFacts.
Implicit Types (s t : string) (c : ascii).

Lemma append_nil t : "" +:+ t = t.
Proof. reflexivity. Qed.

Lemma append_cons c s t : String c s +:+ t = String c (s +:+ t).
Proof. reflexivity. Qed.

Lemma append_empty_r s : s +:+ "" = s.
Proof.
  induction s as [|c s IH]; [reflexivity|].
  rewrite append_cons, IH. reflexivity.
Qed.

Lemma append_assoc s t u : (s +:+ t) +:+ u = s +:+ t +:+ u.
Proof.
  induction s as [|c s IH]; [reflexivity|].
  rewrite !append_cons, IH. reflexivity.
Qed.

Lemma length_append s t :
  String.length (s +:+ t) = (String.length s + String.length t)%nat.
Proof.
  induction s as [|c s IH]; [reflexivity|].
  rewrite append_cons. simpl. rewrite IH. reflexivity.
Qed.


Lemma all_space_append s t : all_space (s +:+ t) = all_space s && all_space t.
Proof.
  induction s as [|c s IH]; [reflexivity|].
  rewrite append_cons. simpl. rewrite IH. apply andb_assoc.
Qed.

Lemma rstrip_empty s : Str.is_empty (Str.rstrip s) = all_space s.
Proof.
  induction s as [|c s IH]; simpl; [reflexivity|].
  rewrite IH. destruct (all_space s), (Str.isspace c); reflexivity.
Qed.

Lemma lstrip_all_space s : all_space (Str.lstrip s) = all_space s.
Proof.
  induction s as [|c s IH]; simpl; [reflexivity|].
  destruct (Str.isspace c) eqn:E; simpl; rewrite ?E; auto.
Qed.

(** A string strips to the empty string exactly when it is all white space. *)
Lemma strip_empty s : Str.is_empty (Str.strip s) = all_space s.
Proof. unfold Str.strip. rewrite rstrip_empty. apply lstrip_all_space. Qed.

Lemma length_0_is_empty s : Nat.eqb (String.length s) 0 = Str.is_empty s.
Proof. destruct s; reflexivity. Qed.

Lemma length_pos_is_empty s : Nat.ltb 0 (String.length s) = negb (Str.is_empty s).
Proof. destruct s; reflexivity. Qed.

End StrFacts.

Section SplitJoin.
Implicit Types (s t : string) (c : ascii) (l : list string).

Lemma join_cons2 sep s t l :
  Str.join sep (s :: t :: l) = s +:+ sep +:+ Str.join sep (t :: l).
Proof. reflexivity. Qed.


Lemma split_not_nil c s : Str.split c s <> [].
Proof.
  destruct s as [|d s]; simpl; [discriminate|].
  destruct (Ascii.eqb d c); [discriminate|].
  destruct (Str.split c s); discriminate.
Qed.

(** No line that [split] returns holds the separator. *)
Lemma split_no_sep c s :
  Forall (fun line => Str.contains c line = false) (Str.split c s).
Proof.
  induction s as [|d s IH]; simpl.
  - repeat constructor.
  - destruct (Ascii.eqb d c) eqn:E.
    + constructor; [reflexivity|exact IH].
    + destruct (Str.split c s) as [|x xs]; inversion IH; subst;
        repeat constructor; simpl; rewrite ?E; auto.
Qed.

Lemma split_line c s t :
  Str.contains c s = false ->
  Str.split c (s +:+ String c t) = s :: Str.split c t.
Proof.
  induction s as [|d s IH]; intros H.
  - rewrite append_nil. simpl. rewrite Ascii.eqb_refl. reflexivity.
  - simpl in H. apply orb_false_elim in H as [Hd Hs].
    rewrite append_cons. simpl. rewrite Hd, (IH Hs). reflexivity.
Qed.

Lemma split_single c s : Str.contains c s = false -> Str.split c s = [s].
Proof.
  induction s as [|d s IH]; intros H; [reflexivity|].
  simpl in H. apply orb_false_elim in H as [Hd Hs].
  simpl. rewrite Hd, (IH Hs). reflexivity.
Qed.

(** Lines without a line feed survive joining and splitting again. *)
Lemma split_join l :
  l <> [] ->
  Forall (fun line => Str.contains Str.LF line = false) l ->
  Str.split Str.LF (Str.join nl l) = l.
Proof.
  induction l as [|x l IH]; [congruence|]. intros _ H.
  inversion H as [|? ? Hx Hl]; subst.
  destruct l as [|y l].
  - simpl. apply split_single, Hx.
  - rewrite join_cons2. unfold nl at 1. rewrite append_cons, append_nil.
    rewrite split_line by exact Hx.
    rewrite IH; [reflexivity|discriminate|exact Hl].
Qed.

(** Splitting a text into lines and joining them gives the text back. *)
Lemma join_split s : Str.join nl (Str.split Str.LF s) = s.
Proof.
  induction s as [|d s IH]; [reflexivity|]. simpl.
  destruct (Ascii.eqb_spec d Str.LF) as [->|Hd].
  - pose proof (split_not_nil Str.LF s) as Hne.
    destruct (Str.split Str.LF s) as [|x xs]; [congruence|].
    rewrite join_cons2, IH. reflexivity.
  - pose proof (split_not_nil Str.LF s) as Hne.
    destruct (Str.split Str.LF s) as [|x xs]; [congruence|].
    destruct xs as [|y xs].
    + simpl in *. rewrite IH. reflexivity.
    + rewrite join_cons2 in *. rewrite append_cons, IH. reflexivity.
Qed.

Lemma all_space_join l : all_space (Str.join nl l) = forallb all_space l.
Proof.
  induction l as [|x l IH]; [reflexivity|].
  destruct l as [|y l].
  - simpl. rewrite andb_true_r. reflexivity.
  - rewrite join_cons2, !all_space_append, IH. reflexivity.
Qed.
End SplitJoin.

(** ** The strip of trailing blank lines *)

Lemma strip_blank_iff line : Str.strip line = "" <-> all_space line = true.
Proof.
  rewrite <- strip_empty. destruct (Str.strip line); simpl; split; congruence.
Qed.

Lemma strip_loop_spec lines :
  exists kept blanks,
    trailing_blank_split lines kept blanks
    /\ strip_loop (length lines) lines = Ok kept.
Proof.
  induction lines as [|last init IH] using rev_ind.
  - exists [], []. repeat split; constructor.
  - rewrite length_app, Nat.add_comm. simpl.
    rewrite unsnoc_snoc. simpl.
    rewrite length_0_is_empty, strip_empty.
    destruct (all_space last) eqn:E.
    + destruct IH as (kept & blanks & (-> & Hb & Hk) & Hloop).
      exists kept, (blanks ++ [last]). repeat split.
      * rewrite app_assoc. reflexivity.
      * apply Forall_app. split; [exact Hb|].
        constructor; [|constructor]. apply strip_blank_iff, E.
      * exact Hk.
      * exact Hloop.
    + exists (init ++ [last]), []. repeat split.
      * rewrite app_nil_r. reflexivity.
      * constructor.
      * rewrite unsnoc_snoc. rewrite strip_blank_iff. congruence.
Qed.

(** The function never raises, and what it returns. *)
Lemma strip_blank_lines_in_end_of_block_spec line_text :
  exists kept blanks,
    trailing_blank_split (Str.split Str.LF line_text) kept blanks
    /\ strip_blank_lines_in_end_of_block line_text = Ok (Str.join nl kept).
Proof.
  unfold strip_blank_lines_in_end_of_block.
  destruct (strip_loop_spec (Str.split Str.LF line_text))
    as (kept & blanks & Hs & Hloop).
  exists kept, blanks. split; [exact Hs|]. rewrite Hloop. reflexivity.
Qed.

(** The text that is kept is blank only when no line is kept. *)
Lemma kept_all_space lines kept blanks :
  trailing_blank_split lines kept blanks ->
  all_space (Str.join nl kept) = match kept with [] => true | _ => false end.
Proof.
  intros (_ & _ & Hk). rewrite all_space_join.
  destruct (PyList.unsnoc kept) as [[i line]|] eqn:E.
  - apply unsnoc_Some in E as ->. rewrite forallb_app. simpl.
    rewrite strip_blank_iff in Hk.
    destruct (all_space line); [congruence|].
    rewrite andb_false_r. destruct i; reflexivity.
  - apply unsnoc_None in E as ->. reflexivity.
Qed.

(** ** add_markdown_cell *)

Lemma add_markdown_cell_spec self :
  exists kept blanks,
    trailing_blank_split
      (Str.split Str.LF (Str.join "" (markdown_lines self))) kept blanks
    /\ Full.add_markdown_cell self =
         Ok (match kept with
             | [] => self
             | _ => commit_markdown (Str.join nl kept) self
             end).
Proof.
  destruct (strip_blank_lines_in_end_of_block_spec
              (Str.join "" (markdown_lines self)))
    as (kept & blanks & Hs & Hstrip).
  exists kept, blanks. split; [exact Hs|].
  unfold Full.add_markdown_cell. rewrite Hstrip. simpl.
  rewrite length_pos_is_empty, strip_empty, (kept_all_space _ _ _ Hs).
  destruct kept; reflexivity.
Qed.

Lemma add_markdown_cell_ok self :
  exists self', Full.add_markdown_cell self = Ok self'.
Proof.
  destruct (add_markdown_cell_spec self) as (kept & blanks & _ & H).
  eexists. exact H.
Qed.

(** A split with only blank lines keeps nothing. *)
Lemma all_blank_keeps_nothing lines kept blanks :
  trailing_blank_split lines kept blanks ->
  Forall (fun line => Str.strip line = "") lines ->
  kept = [].
Proof.
  intros (-> & _ & Hk) Hall.
  destruct (PyList.unsnoc kept) as [[i line]|] eqn:E.
  - apply unsnoc_Some in E as ->.
    apply Forall_app in Hall as [Hall _].
    apply Forall_app in Hall as [_ Hall].
    inversion Hall; subst. contradiction.
  - apply unsnoc_None in E. exact E.
Qed.

(** What the flush does, for every state: it joins the buffer and strips
    trailing blank lines; when the text that remains is non-empty after
    trimming it appends a markdown cell holding it and clears the buffer,
    and otherwise it appends no cell and returns the state as it is.
    Either way the flush returns, and the cell it appends is never empty. *)
Lemma add_markdown_cell_flush (self : translator) :
  exists formatted,
    strip_blank_lines_in_end_of_block (Str.join "" (markdown_lines self))
      = Ok formatted
    /\ Full.add_markdown_cell self =
         Ok (if Str.is_empty (Str.strip formatted) then self
             else commit_markdown formatted self)
    /\ (if Str.is_empty (Str.strip formatted) then True else formatted <> "").
Proof.
  destruct (strip_blank_lines_in_end_of_block_spec
              (Str.join "" (markdown_lines self)))
    as (kept & blanks & Hs & Hstrip).
  exists (Str.join nl kept). split; [exact Hstrip|].
  unfold Full.add_markdown_cell. rewrite Hstrip. simpl.
  rewrite length_pos_is_empty.
  destruct (Str.is_empty (Str.strip (Str.join nl kept))) eqn:E; simpl.
  - split; [reflexivity|exact I].
  - split; [reflexivity|]. intros H. rewrite H in E. discriminate.
Qed.

(** C2 (a defect of the code): the docstring of [add_markdown_cell] lists
    the reset of [markdown_lines] beside the append, but the assignment
    stands inside the test that guards the append.  A buffer holding one
    line feed is empty after trimming: the flush appends no cell and the
    buffer still holds the line feed.  In a document the white space that
    was left behind stands in front of the text of the next cell: a
    paragraph without text and then a section with the title T give one
    cell, whose text is two line feeds and the heading. *)
Theorem blank_buffer_survives_flush :
  Full.add_markdown_cell (set_markdown_lines [nl] fresh)
    = Ok (set_markdown_lines [nl] fresh)
  /\ markdown_lines (set_markdown_lines [nl] fresh) = [nl]
  /\ cells <$> convert JupyterTranslator (bare_settings false) None ""
                (Element document no_attributes
                   [Element paragraph no_attributes [];
                    Element section no_attributes
                      [Element title no_attributes [Text "T"]]])
     = Ok [new_markdown_cell (nl +:+ nl +:+ "# T")].
Proof. repeat split. Qed.

(** C7, as the code has it: the text of a flushed markdown cell and of a
    code cell is the buffer's text without its maximal run of trailing
    lines that are empty after trimming: the lines before that run are the
    lines of the cell's text, unchanged, blank ones inside included.  A
    markdown buffer with only blank lines is flushed to no cell.  A literal
    block is closed with the stripped text whatever that text is, also
    when it is empty: a block of kind code gives a code cell holding it, a
    block of kind markdown gives the fenced markdown cell around it, and
    an output block hands it to the rules for output blocks. *)
Theorem trailing_blank_lines_stripped (line_text : string) :
  exists kept blanks formatted,
    trailing_blank_split (Str.split Str.LF line_text) kept blanks
    /\ strip_blank_lines_in_end_of_block line_text = Ok formatted
    /\ formatted = Str.join nl kept
    /\ (kept <> [] -> Str.split Str.LF formatted = kept)
    /\ (Forall (fun line => Str.strip line = "") (Str.split Str.LF line_text) ->
        formatted = "")
    /\ (forall self, Str.join "" (markdown_lines self) = line_text ->
          Full.add_markdown_cell self =
            Ok (match kept with
                | [] => self
                | _ => commit_markdown formatted self
                end)
          /\ (Forall (fun line => Str.strip line = "")
                (Str.split Str.LF line_text) ->
              Full.add_markdown_cell self = Ok self))
    /\ (forall self ty, Str.join "" (code_lines self) = line_text ->
          output_cell_type self = Some ty ->
          Code.depart_literal_block self =
            match ty with
            | CODE =>
                Ok (set_in_code_block false
                      (set_cells (cells self ++ [new_code_cell formatted])
                         self))
            | MARKDOWN =>
                Ok (set_in_code_block false
                      (set_cells
                         (cells self
                          ++ [fenced_markdown (nodelang self) formatted])
                         self))
            | CODE_OUTPUT => attach_output formatted self
            end).
Proof.
  destruct (strip_blank_lines_in_end_of_block_spec line_text)
    as (kept & blanks & Hs & Hstrip).
  exists kept, blanks, (Str.join nl kept).
  split; [exact Hs|]. split; [exact Hstrip|]. split; [reflexivity|].
  split; [|split; [|split]].
  - intros Hne. apply split_join; [exact Hne|].
    destruct Hs as (Hl & _ & _).
    pose proof (split_no_sep Str.LF line_text) as Hno.
    rewrite Hl in Hno. apply Forall_app in Hno as [Hno _]. exact Hno.
  - intros Hall. rewrite (all_blank_keeps_nothing _ _ _ Hs Hall). reflexivity.
  - intros self Hbuf.
    assert (Full.add_markdown_cell self =
              Ok (match kept with
                  | [] => self
                  | _ => commit_markdown (Str.join nl kept) self
                  end)) as Hadd.
    { unfold Full.add_markdown_cell. rewrite Hbuf, Hstrip. simpl.
      rewrite length_pos_is_empty, strip_empty, (kept_all_space _ _ _ Hs).
      destruct kept; reflexivity. }
    split; [exact Hadd|].
    intros Hall. rewrite Hadd.
    rewrite (all_blank_keeps_nothing _ _ _ Hs Hall). reflexivity.
  - intros self ty Hbuf Hty.
    unfold Code.depart_literal_block, attach_output.
    rewrite Hbuf, Hstrip. simpl. rewrite Hty.
    destruct ty; simpl; try reflexivity.
    destruct (PyList.unsnoc (cells self)) as [[before c]|]; simpl;
      [|reflexivity].
    destruct c as [src [|o outs]| |]; reflexivity.
Qed.

(** C7, counterexample: a code block whose buffer holds one line feed, a
    buffer of blank lines only, is closed to a code cell with empty text. *)
Lemma blank_code_block_gives_cell :
  cells <$> Code.depart_literal_block
              (set_output_cell_type (Some CODE) (set_code_lines [nl] fresh))
    = Ok [new_code_cell ""]
  /\ Forall (fun line => Str.strip line = "") (Str.split Str.LF (Str.join "" [nl])).
Proof. split; [reflexivity|]. repeat constructor. Qed.

(** ** Output blocks *)

(** How an output block is closed, for every state: the text is attached
    to the most recent cell when that is a code cell without output, a
    warning is reported and nothing else changes when it is another cell or
    a code cell with output, and [IndexError] is raised when there is no
    cell. *)
Lemma depart_output_block (self : translator) :
  output_cell_type self = Some CODE_OUTPUT ->
  exists formatted,
    strip_blank_lines_in_end_of_block (Str.join "" (code_lines self))
      = Ok formatted
    /\ Code.depart_literal_block self = attach_output formatted self.
Proof.
  intros Hty.
  destruct (strip_blank_lines_in_end_of_block_spec
              (Str.join "" (code_lines self)))
    as (kept & blanks & _ & Hstrip).
  exists (Str.join nl kept). split; [exact Hstrip|].
  unfold Code.depart_literal_block, attach_output.
  rewrite Hstrip, Hty. simpl.
  destruct (PyList.unsnoc (cells self)) as [[before c]|]; simpl; [|reflexivity].
  destruct c as [src [|o outs]| |]; reflexivity.
Qed.

(** When closing a literal block raises: on a kind that was never set, and
    on an output block with no cell before it. *)
Lemma depart_literal_block_raises (self : translator) (e : exn) :
  Code.depart_literal_block self = Raise e ->
  (e = AttributeError /\ output_cell_type self = None)
  \/ (e = IndexError /\ output_cell_type self = Some CODE_OUTPUT
      /\ cells self = []).
Proof.
  unfold Code.depart_literal_block.
  destruct (strip_blank_lines_in_end_of_block_spec
              (Str.join "" (code_lines self)))
    as (kept & blanks & _ & ->).
  simpl. destruct (output_cell_type self) as [ty|]; simpl.
  - destruct ty; simpl; try discriminate.
    destruct (PyList.unsnoc (cells self)) as [[before c]|] eqn:E; simpl.
    + destruct c as [src [|o outs]| |]; discriminate.
    + intros [= <-]. right. repeat split. apply unsnoc_None, E.
  - intros [= <-]. left. split; reflexivity.
Qed.

(** C1: a document that starts with an output block, converted with no
    welcome block and no metadata cell, has no cell before the block: the
    conversion raises [IndexError] where a warning is specified. *)
Theorem output_block_without_cell_raises :
  convert JupyterCodeTranslator (bare_settings false) None "meta"
    (Element document no_attributes
       [Element literal_block (with_classes ["output"]) [Text "1"]])
  = Raise IndexError
  /\ convert JupyterTranslator (bare_settings false) None "meta"
       (Element document no_attributes
          [Element literal_block (with_classes ["output"]) [Text "1"]])
     = Raise IndexError.
Proof. split; reflexivity. Qed.

(** ** Header cells at the end of the document *)

Lemma foldl_snoc {A B} (f : A -> B -> A) (a : A) (l : list B) (x : B) :
  foldl f a (l ++ [x]) = f (foldl f a l) x.
Proof. rewrite foldl_app. reflexivity. Qed.

Lemma insert_headers_at_1 hs m rest :
  Code.insert_headers true (rev hs) (m :: rest) = m :: hs ++ rest.
Proof.
  unfold Code.insert_headers. cbv beta iota.
  induction hs as [|h hs IH]; [reflexivity|].
  simpl rev. rewrite foldl_snoc, IH. reflexivity.
Qed.

Lemma insert_headers_at_0 hs cs :
  Code.insert_headers false (rev hs) cs = hs ++ cs.
Proof.
  unfold Code.insert_headers. cbv beta iota.
  induction hs as [|h hs IH]; [reflexivity|].
  simpl rev. rewrite foldl_snoc, IH. reflexivity.
Qed.

(** The cells after [depart_document]: with headers for the final
    language they stand, in their order, from index 1 on when metadata is
    written and from index 0 on otherwise; with no headers configured or
    none for the language the cells are as before. *)
Lemma depart_document_cells (self : translator) :
  exists self',
    Code.depart_document self = Ok self'
    /\ cells self' =
         match jupyter_headers (conf self) with
         | None => cells self
         | Some headers =>
             match headers !! final_lang self with
             | None => cells self
             | Some hs =>
                 if jupyter_write_metadata (conf self) then
                   match cells self with
                   | m :: rest => m :: hs ++ rest
                   | [] => Code.insert_headers true (rev hs) []
                   end
                 else hs ++ cells self
             end
         end.
Proof.
  eexists. split; [reflexivity|].
  unfold final_lang.
  destruct self as [c l nlg cs]; simpl.
  destruct (truthy l) eqn:El; simpl.
  - destruct (jupyter_headers c) as [headers|]; simpl.
    + destruct (headers !! default default_lang l) as [hs|]; simpl.
      * destruct (jupyter_kernels c) as [kernels|]; simpl;
          [destruct (kernels !! default default_lang l ≫= entry_kernelspec)|];
          simpl; destruct (jupyter_write_metadata c);
          rewrite ?insert_headers_at_0; try reflexivity;
          destruct cs; rewrite ?insert_headers_at_1; reflexivity.
      * destruct (jupyter_kernels c) as [kernels|]; simpl;
          [destruct (kernels !! default default_lang l ≫= entry_kernelspec)|];
          reflexivity.
    + destruct (jupyter_kernels c) as [kernels|]; simpl;
        [destruct (kernels !! default default_lang l ≫= entry_kernelspec)|];
        reflexivity.
  - destruct (jupyter_headers c) as [headers|]; simpl.
    + destruct (headers !! default_lang) as [hs|]; simpl.
      * destruct (jupyter_kernels c) as [kernels|]; simpl;
          [destruct (kernels !! default_lang ≫= entry_kernelspec)|];
          simpl; destruct (jupyter_write_metadata c);
          rewrite ?insert_headers_at_0; try reflexivity;
          destruct cs; rewrite ?insert_headers_at_1; reflexivity.
      * destruct (jupyter_kernels c) as [kernels|]; simpl;
          [destruct (kernels !! default_lang ≫= entry_kernelspec)|];
          reflexivity.
    + destruct (jupyter_kernels c) as [kernels|]; simpl;
        [destruct (kernels !! default_lang ≫= entry_kernelspec)|];
        reflexivity.
Qed.

(** C4: with a welcome block the metadata cell is the second cell; the
    headers are inserted from index 1 on, so they stand before the metadata
    cell and not after it, where the comment of the source has them. *)
Theorem headers_before_metadata_with_welcome :
  cells <$> convert JupyterCodeTranslator (header_settings true)
              (Some "Welcome") "meta"
              (Element document no_attributes
                 [Element literal_block no_attributes [Text "x = 1"]])
  = Ok [new_markdown_cell "Welcome"; new_code_cell "h1"; new_code_cell "h2";
        new_markdown_cell "meta"; new_code_cell "x = 1"].
Proof. reflexivity. Qed.

(** ** The conversion mode *)

(** C5 (a defect of the code): the mode ["all"] selects the full
    translator and ["code"] the minimal one.  For an unset mode, for
    [None] and for every other value the constructor does not get as far
    as the fall-back to ["code"] that stands after the warning: the call
    of [self.warn] raises [AttributeError], and no writer is built. *)
Theorem unset_or_invalid_conversion_mode_raises :
  JupyterWriter_init (Some (ConfStr "all"))
    = Ok {| conversion_mode := "all";
            translator_class_of := JupyterTranslator |}
  /\ JupyterWriter_init (Some (ConfStr "code"))
       = Ok {| conversion_mode := "code";
               translator_class_of := JupyterCodeTranslator |}
  /\ JupyterWriter_init None = Raise AttributeError
  /\ JupyterWriter_init (Some ConfNone) = Raise AttributeError
  /\ JupyterWriter_init (Some (ConfStr "markdown")) = Raise AttributeError
  /\ (forall v, v <> ConfStr "code" -> v <> ConfStr "all" ->
        JupyterWriter_init (Some v) = Raise AttributeError).
Proof.
  repeat split.
  intros v Hcode Hall. destruct v as [|s|]; [reflexivity| |reflexivity].
  unfold JupyterWriter_init.
  destruct (String.eqb_spec s "code") as [->|_]; [congruence|].
  destruct (String.eqb_spec s "all") as [->|_]; [congruence|].
  reflexivity.
Qed.

(** ** The language table *)


(** C8: [translate] returns the mapped name for a name of the table and
    the name itself otherwise; the table loaded from one well-formed entry
    for sphinx-lang-X maps it to kernel-lang-Y and leaves plain alone. *)
Theorem translate_mapped_or_unchanged (translator : gmap string string)
    (name : string) :
  (forall jupyterLang, translator !! name = Some jupyterLang ->
     translate translator name = jupyterLang)
  /\ (translator !! name = None -> translate translator name = name)
  /\ LanguageTranslator_init
       [[ [("sphinx-name", Some "sphinx-lang-X");
           ("jupyter-name", Some "kernel-lang-Y")] ]]
     = {[ "sphinx-lang-X" := "kernel-lang-Y" ]}
  /\ translate {[ "sphinx-lang-X" := "kernel-lang-Y" ]} "sphinx-lang-X"
     = "kernel-lang-Y"
  /\ translate {[ "sphinx-lang-X" := "kernel-lang-Y" ]} "plain" = "plain".
Proof.
  split; [|split; [|repeat split]].
  - intros j H. unfold translate. rewrite H. reflexivity.
  - intros H. unfold translate. rewrite H. reflexivity.
Qed.

(** ** Literal blocks in another language *)

Lemma walkabout_element cls k a children self :
  walkabout cls (Element k a children) self =
    (self ← dispatch_visit cls k a self;
     self ← walk_children cls children self;
     dispatch_departure cls k a self).
Proof. reflexivity. Qed.

Lemma walk_children_cons cls child l self :
  walk_children cls (child :: l) self =
    (self ← walkabout cls child self; walk_children cls l self).
Proof. reflexivity. Qed.

(** Inside a code block the text children are appended to the code buffer
    and nothing else changes. *)
Lemma walk_text_children cls texts self :
  in_code_block self = true ->
  walk_children cls (map Text texts) self
    = Ok (set_code_lines (code_lines self ++ texts) self).
Proof.
  revert self. induction texts as [|t texts IH]; intros self Hin.
  - destruct self; simpl. rewrite app_nil_r. reflexivity.
  - simpl map. rewrite walk_children_cons.
    assert (walkabout cls (Text t) self
            = Ok (set_code_lines (code_lines self ++ [t]) self)) as ->.
    { destruct cls; simpl; unfold Code.visit_Text, Full.visit_Text;
        rewrite Hin; reflexivity. }
    simpl. rewrite IH by (destruct self; exact Hin).
    destruct self; simpl. rewrite <- app_assoc. reflexivity.
Qed.

Lemma visit_literal_block_mismatch a self :
  block_language a self <> document_language self ->
  exists self1,
    Code.visit_literal_block a self = Ok self1
    /\ output_cell_type self1 = Some MARKDOWN
    /\ nodelang self1 = block_language a self
    /\ in_code_block self1 = true
    /\ code_lines self1 = []
    /\ cells self1 = cells self
    /\ markdown_lines self1 = markdown_lines self.
Proof.
  unfold block_language, document_language, Code.visit_literal_block.
  destruct self as [c l]; simpl. intros Hmis.
  destruct (language a) as [la|]; simpl in *.
  - destruct (decide _) as [_|Heq]; [|contradiction].
    eexists. split; [reflexivity|]. repeat split.
  - destruct (decide _) as [_|Heq]; [|contradiction].
    eexists. split; [reflexivity|]. repeat split.
Qed.

Lemma depart_markdown_block self formatted :
  output_cell_type self = Some MARKDOWN ->
  strip_blank_lines_in_end_of_block (Str.join "" (code_lines self))
    = Ok formatted ->
  Code.depart_literal_block self
    = Ok (set_in_code_block false
            (set_cells (cells self ++ [fenced_markdown (nodelang self) formatted])
               self)).
Proof.
  intros Hty Hstrip. unfold Code.depart_literal_block.
  rewrite Hstrip, Hty. reflexivity.
Qed.

(** With text children only the walk over the block completes, and the
    cell of the block is the fenced markdown cell. *)
Lemma language_mismatch_text_children (cls : translator_class)
    (a : attributes) (texts : list string) (self : translator) :
  block_language a self <> document_language self ->
  exists formatted self' before,
    strip_blank_lines_in_end_of_block (Str.join "" texts) = Ok formatted
    /\ walkabout cls (Element literal_block a (map Text texts)) self = Ok self'
    /\ cells self' = before ++ [fenced_markdown (block_language a self) formatted]
    /\ (before = cells self
        \/ exists md, cls = JupyterTranslator
                      /\ before = cells self ++ [new_markdown_cell md]).
Proof.
  intros Hmis.
  destruct (visit_literal_block_mismatch a self Hmis)
    as (s1 & Hvisit & Hty & Hnl & Hin & Hcl & Hcells & Hml).
  destruct (strip_blank_lines_in_end_of_block_spec (Str.join "" texts))
    as (kept & blanks & _ & Hstrip).
  exists (Str.join nl kept).
  assert (exists s2, dispatch_visit cls literal_block a self = Ok s2
            /\ output_cell_type s2 = Some MARKDOWN
            /\ nodelang s2 = block_language a self
            /\ in_code_block s2 = true
            /\ code_lines s2 = []
            /\ (cells s2 = cells self
                \/ exists md, cls = JupyterTranslator
                     /\ cells s2 = cells self ++ [new_markdown_cell md]))
    as (s2 & Hdisp & Hty2 & Hnl2 & Hin2 & Hcl2 & Hcells2).
  { destruct cls; simpl.
    - exists s1. repeat split; auto.
    - unfold Full.visit_literal_block. rewrite Hvisit. simpl. rewrite Hin.
      destruct (add_markdown_cell_spec s1) as (k & b & _ & Hadd).
      rewrite Hadd. eexists. split; [reflexivity|].
      destruct k as [|x k].
      + repeat split; auto.
      + destruct s1; simpl in *. repeat split; auto.
        right. eexists. split; [reflexivity|]. rewrite Hcells. reflexivity. }
  rewrite walkabout_element, Hdisp. simpl.
  rewrite walk_text_children by exact Hin2. simpl.
  assert (dispatch_departure cls literal_block a
            (set_code_lines (code_lines s2 ++ texts) s2)
          = Code.depart_literal_block
              (set_code_lines (code_lines s2 ++ texts) s2)) as ->.
  { destruct cls; reflexivity. }
  rewrite (depart_markdown_block _ (Str.join nl kept));
    [| destruct s2; exact Hty2
     | destruct s2; simpl in *; rewrite Hcl2; exact Hstrip ].
  eexists. exists (cells s2).
  split; [exact Hstrip|]. split; [reflexivity|].
  split.
  - destruct s2; simpl in *. rewrite Hnl2. reflexivity.
  - destruct Hcells2 as [->|(md & -> & ->)]; [left; reflexivity|].
    right. exists md. split; reflexivity.
Qed.

(** ** References inside a topic *)

Lemma sub_space_chars s :
  list_ascii_of_string (Full.sub_space "-" s)
    = map dash_for_space (list_ascii_of_string s).
Proof.
  induction s as [|c s IH]; [reflexivity|]. simpl.
  unfold dash_for_space at 1. destruct (Str.isspace c);
    rewrite ?append_cons, ?append_nil; simpl; rewrite IH; reflexivity.
Qed.

(** C6, as the code has it: inside a topic the visible text of the
    reference is trimmed, every white-space character of it becomes one
    dash (a run of [n] of them becomes [n] dashes), and the result after
    ["#"] is the link target; ["Setup Guide"] gives ["#Setup-Guide"]. *)
Theorem reference_in_topic_target (a : attributes) (self : translator) :
  in_topic self = true ->
  exists slug,
    Full.depart_reference a self
      = Ok (set_in_reference false (Full.emit ("](#" +:+ slug +:+ ")") self))
    /\ list_ascii_of_string slug
         = map dash_for_space (list_ascii_of_string (Str.strip (visible_text self)))
    /\ markdown_lines <$> Full.depart_reference a (in_topic_after_text "Setup Guide")
         = Ok ["["; "Setup Guide"; "](#Setup-Guide)"].
Proof.
  intros Htopic.
  exists (Full.sub_space "-" (Str.strip (visible_text self))).
  split; [|split].
  - unfold Full.depart_reference. rewrite Htopic. reflexivity.
  - apply sub_space_chars.
  - destruct a; reflexivity.
Qed.

(** C6, witness: the reference with visible text ["Setup Guide"]. *)
Lemma reference_in_topic_target_witness :
  exists slug,
    Full.depart_reference no_attributes (in_topic_after_text "Setup Guide")
      = Ok (set_in_reference false
              (Full.emit ("](#" +:+ slug +:+ ")")
                 (in_topic_after_text "Setup Guide")))
    /\ list_ascii_of_string slug
         = map dash_for_space
             (list_ascii_of_string
                (Str.strip (visible_text (in_topic_after_text "Setup Guide"))))
    /\ markdown_lines <$> Full.depart_reference no_attributes
                            (in_topic_after_text "Setup Guide")
         = Ok ["["; "Setup Guide"; "](#Setup-Guide)"].
Proof.
  apply (reference_in_topic_target no_attributes
           (in_topic_after_text "Setup Guide")).
  reflexivity.
Defined.

(** C6, counterexample: a run of two spaces in the visible text gives two
    dashes in the target, not one. *)
Lemma reference_in_topic_two_spaces :
  markdown_lines <$> Full.depart_reference no_attributes (in_topic_after_text "a  b")
    = Ok ["["; "a  b"; "](#a--b)"]
  /\ "](#a--b)" <> "](#a-b)".
Proof. split; [reflexivity|discriminate]. Qed.

(** ** Extensions of internal links *)

Lemma span_not_spec c s :
  s = (Str.span_not c s).1 +:+ (Str.span_not c s).2
  /\ Str.contains c (Str.span_not c s).1 = false
  /\ ((Str.span_not c s).2 = ""
      \/ exists r, (Str.span_not c s).2 = String c r).
Proof.
  induction s as [|d s (IH1 & IH2 & IH3)]; simpl.
  - repeat split. left. reflexivity.
  - destruct (Ascii.eqb_spec d c) as [->|Hd]; simpl.
    + repeat split. right. eexists. reflexivity.
    + destruct (Str.span_not c s) as [p r]; simpl in *.
      rewrite append_cons, <- IH1. repeat split; [|exact IH3].
      rewrite IH2, orb_false_r. apply Ascii.eqb_neq, Hd.
Qed.

Lemma append_inv_head s t u : s +:+ t = s +:+ u -> t = u.
Proof.
  induction s as [|c s IH]; [auto|]. rewrite !append_cons.
  intros [= H]. apply IH, H.
Qed.

Lemma add_extension_without_dot uri ext :
  Str.contains "." uri = false ->
  Full.add_extension_to_inline_link uri ext
    = (Str.span_not "#" uri).1 +:+ ext +:+ "#"
      +:+ (Str.span_not Str.LF
             (match (Str.span_not "#" uri).2 with
              | String _ r => r
              | EmptyString => EmptyString
              end)).1.
Proof.
  intros H. unfold Full.add_extension_to_inline_link, Full.split_uri_id.
  rewrite H. simpl.
  destruct (Str.span_not "#" uri) as [g1 r]. simpl.
  destruct (Str.span_not Str.LF _) as [g2 t]. reflexivity.
Qed.

(** C10, as the code has it: a uri with a ['.'] anywhere is returned
    unchanged; a uri without one becomes the text before its first ['#'],
    then the extension, then ['#'], then the text after that ['#'] up to
    the first line feed (all of it when it has none), so that ["doc"]
    becomes ["doc.ipynb#"]; with an extension that is not empty and does
    not start with ['#'] the result then differs from the uri. *)
Theorem add_extension_to_inline_link_spec (uri ext : string) :
  (Str.contains "." uri = true ->
     Full.add_extension_to_inline_link uri ext = uri)
  /\ (Str.contains "." uri = false ->
      exists before rest fragment tail,
        Str.contains "#" before = false
        /\ (uri = before /\ rest = "" \/ uri = before +:+ "#" +:+ rest)
        /\ rest = fragment +:+ tail
        /\ Str.contains Str.LF fragment = false
        /\ (tail = "" \/ exists t, tail = String Str.LF t)
        /\ Full.add_extension_to_inline_link uri ext
             = before +:+ ext +:+ "#" +:+ fragment)
  /\ (Str.contains "." uri = false ->
      forall c e, ext = String c e -> c <> "#"%char ->
      Full.add_extension_to_inline_link uri ext <> uri)
  /\ Full.add_extension_to_inline_link "doc" ".ipynb" = "doc.ipynb#"
  /\ Full.add_extension_to_inline_link "dir.d/doc" ".ipynb" = "dir.d/doc".
Proof.
  assert (Str.contains "." uri = false ->
      exists before rest fragment tail,
        Str.contains "#" before = false
        /\ (uri = before /\ rest = "" \/ uri = before +:+ "#" +:+ rest)
        /\ rest = fragment +:+ tail
        /\ Str.contains Str.LF fragment = false
        /\ (tail = "" \/ exists t, tail = String Str.LF t)
        /\ Full.add_extension_to_inline_link uri ext
             = before +:+ ext +:+ "#" +:+ fragment) as Hsplit.
  { intros Hdot. rewrite (add_extension_without_dot _ _ Hdot).
    destruct (span_not_spec "#" uri) as (Huri & Hbefore & Hr).
    destruct (Str.span_not "#" uri) as [before r]. simpl in *.
    set (rest := match r with String _ r' => r' | EmptyString => EmptyString end).
    destruct (span_not_spec Str.LF rest) as (Hrest & Hfrag & Ht).
    exists before, rest, (Str.span_not Str.LF rest).1, (Str.span_not Str.LF rest).2.
    repeat split; auto.
    destruct Hr as [->|[r' ->]].
    - left. rewrite append_empty_r in Huri. split; [exact Huri|reflexivity].
    - right. exact Huri. }
  split; [|split; [exact Hsplit|split; [|split; reflexivity]]].
  - intros Hdot. unfold Full.add_extension_to_inline_link.
    rewrite Hdot. reflexivity.
  - intros Hdot c e -> Hc.
    destruct (Hsplit Hdot)
      as (before & rest & fragment & tail & _ & Huri & _ & _ & _ & ->).
    destruct Huri as [[-> ->]| ->].
    + intros Heq. apply (f_equal String.length) in Heq.
      rewrite !length_append in Heq. simpl in Heq. lia.
    + intros Heq. apply append_inv_head in Heq.
      rewrite !append_cons in Heq. injection Heq as Heq _. congruence.
Qed.

(** C10, counterexample: what follows a line feed in the fragment is
    dropped, and with an empty extension a uri without ['.'] that has a
    ['#'] is returned unchanged. *)
Lemma add_extension_drops_after_line_feed :
  Full.add_extension_to_inline_link ("a#b" +:+ nl +:+ "c") ".ipynb" = "a.ipynb#b"
  /\ "a.ipynb#b" <> "a.ipynb#b" +:+ nl +:+ "c"
  /\ Str.contains "." "a#b" = false
  /\ Full.add_extension_to_inline_link "a#b" "" = "a#b".
Proof. repeat split. discriminate. Qed.

(** ** Sections and lists: every push is popped *)

(** Induction on nodes that reaches the children. *)
Lemma node_ind' (P : node -> Prop) :
  (forall text, P (Text text)) ->
  (forall k a children, Forall P children -> P (Element k a children)) ->
  forall n, P n.
Proof.
  intros HText HElement.
  fix IH 1. intros [text|k a children].
  - apply HText.
  - apply HElement. induction children as [|child children IHc].
    + constructor.
    + constructor; [apply IH|exact IHc].
Qed.

(** Assignments to the other attributes leave the nesting alone. *)
Section NestingFrame.
Variable self : translator.

Lemma nesting_set_lang v : nesting (set_lang v self) = nesting self.
Proof. reflexivity. Qed.
Lemma nesting_set_nodelang v : nesting (set_nodelang v self) = nesting self.
Proof. reflexivity. Qed.
Lemma nesting_set_cells v : nesting (set_cells v self) = nesting self.
Proof. reflexivity. Qed.
Lemma nesting_set_metadata_kernelspec v : nesting (set_metadata_kernelspec v self) = nesting self.
Proof. reflexivity. Qed.
Lemma nesting_set_in_code_block v : nesting (set_in_code_block v self) = nesting self.
Proof. reflexivity. Qed.
Lemma nesting_set_output_cell_type v : nesting (set_output_cell_type v self) = nesting self.
Proof. reflexivity. Qed.
Lemma nesting_set_code_lines v : nesting (set_code_lines v self) = nesting self.
Proof. reflexivity. Qed.
Lemma nesting_set_markdown_lines v : nesting (set_markdown_lines v self) = nesting self.
Proof. reflexivity. Qed.
Lemma nesting_set_list_item_starts v : nesting (set_list_item_starts v self) = nesting self.
Proof. reflexivity. Qed.
Lemma nesting_set_in_topic v : nesting (set_in_topic v self) = nesting self.
Proof. reflexivity. Qed.
Lemma nesting_set_reference_text_start v : nesting (set_reference_text_start v self) = nesting self.
Proof. reflexivity. Qed.
Lemma nesting_set_in_reference v : nesting (set_in_reference v self) = nesting self.
Proof. reflexivity. Qed.
Lemma nesting_set_in_citation v : nesting (set_in_citation v self) = nesting self.
Proof. reflexivity. Qed.
Lemma nesting_set_reported v : nesting (set_reported v self) = nesting self.
Proof. reflexivity. Qed.
Lemma nesting_warn m : nesting (warn m self) = nesting self.
Proof. reflexivity. Qed.
Lemma nesting_emit t : nesting (Full.emit t self) = nesting self.
Proof. reflexivity. Qed.
Lemma nesting_commit_markdown t : nesting (commit_markdown t self) = nesting self.
Proof. reflexivity. Qed.
End NestingFrame.

Create Rewrite HintDb nesting.
#[local] Hint Rewrite
  nesting_set_lang nesting_set_nodelang nesting_set_cells nesting_set_metadata_kernelspec nesting_set_in_code_block nesting_set_output_cell_type nesting_set_code_lines nesting_set_markdown_lines nesting_set_list_item_starts nesting_set_in_topic nesting_set_reference_text_start nesting_set_in_reference nesting_set_in_citation nesting_set_reported
  nesting_warn nesting_emit nesting_commit_markdown : nesting.

Ltac res_inv :=
  repeat match goal with
  | H : Ok _ = Ok _ |- _ => injection H as H; try subst
  | H : Raise _ = Ok _ |- _ => discriminate H
  | H : mbind _ ?r = Ok _ |- _ =>
      let E := fresh "E" in destruct r eqn:E; simpl in H
  | H : (if ?b then _ else _) = Ok _ |- _ =>
      let E := fresh "E" in destruct b eqn:E
  | H : match ?x with _ => _ end = Ok _ |- _ =>
      let E := fresh "E" in destruct x eqn:E
  | H : (let '(_, _) := ?x in _) = Ok _ |- _ =>
      let E := fresh "E" in destruct x eqn:E
  end.

Ltac goal_cases :=
  repeat match goal with
         | |- context [match ?x with _ => _ end] => destruct x
         end.

Lemma add_markdown_cell_nesting self self' :
  Full.add_markdown_cell self = Ok self' -> nesting self' = nesting self.
Proof.
  destruct (add_markdown_cell_spec self) as (kept & blanks & _ & ->).
  intros [= <-]. destruct kept; [reflexivity|apply nesting_commit_markdown].
Qed.

Lemma visit_literal_block_nesting a self self' :
  Code.visit_literal_block a self = Ok self' -> nesting self' = nesting self.
Proof.
  unfold Code.visit_literal_block. intros H.
  destruct (language a); res_inv; reflexivity.
Qed.

Lemma depart_literal_block_nesting self self' :
  Code.depart_literal_block self = Ok self' -> nesting self' = nesting self.
Proof.
  unfold Code.depart_literal_block, from_option. intros H. simpl in H.
  res_inv; reflexivity.
Qed.

Lemma depart_document_nesting self self' :
  Code.depart_document self = Ok self' -> nesting self' = nesting self.
Proof.
  unfold Code.depart_document. intros H. res_inv.
  goal_cases; reflexivity.
Qed.

Lemma depart_list_item_nesting self self' :
  Full.depart_list_item self = Ok self' -> nesting self' = nesting self.
Proof.
  unfold Full.depart_list_item, from_option. intros H. simpl in H.
  res_inv; reflexivity.
Qed.

Lemma visit_displaymath_nesting a self self' :
  Full.visit_displaymath a self = Ok self' -> nesting self' = nesting self.
Proof.
  unfold Full.visit_displaymath, from_option. intros H. simpl in H.
  res_inv; reflexivity.
Qed.

Lemma depart_reference_nesting a self self' :
  Full.depart_reference a self = Ok self' -> nesting self' = nesting self.
Proof.
  unfold Full.depart_reference. intros [= <-].
  destruct (in_topic self); [reflexivity|].
  destruct (refuri a); [destruct (decide _)|destruct (refid a)]; reflexivity.
Qed.

(** A visit of a node that is not a section or a list leaves the nesting
    as it is. *)
Lemma dispatch_visit_nesting cls k a self self' :
  cls = JupyterCodeTranslator \/ structural k = false ->
  dispatch_visit cls k a self = Ok self' ->
  nesting self' = nesting self.
Proof.
  intros Hk H.
  destruct cls, k; simpl in *;
    try (destruct Hk as [Hk|Hk]; discriminate Hk);
    try (injection H as <-; reflexivity);
    try (apply visit_literal_block_nesting in H; exact H);
    try (apply visit_displaymath_nesting in H; exact H);
    try (unfold Code.visit_highlightlang, Full.visit_image, Full.visit_math,
           Full.visit_target, Full.visit_citation, Full.visit_label,
           Full.visit_list_item, from_option in H;
         simpl in H; res_inv; reflexivity).
  - (* title *)
    unfold Full.visit_title in H. simpl in H.
    destruct (Full.add_markdown_cell self) as [s1|] eqn:E; [|discriminate].
    simpl in H. apply add_markdown_cell_nesting in E.
    res_inv; autorewrite with nesting; exact E.
  - (* literal_block *)
    unfold Full.visit_literal_block in H. simpl in H.
    destruct (Code.visit_literal_block a self) as [s1|] eqn:E; [|discriminate].
    simpl in H. apply visit_literal_block_nesting in E.
    destruct (in_code_block s1).
    + apply add_markdown_cell_nesting in H. congruence.
    + injection H as <-. exact E.
Qed.

Lemma dispatch_departure_nesting cls k a self self' :
  cls = JupyterCodeTranslator \/ structural k = false ->
  dispatch_departure cls k a self = Ok self' ->
  nesting self' = nesting self.
Proof.
  intros Hk H.
  destruct cls, k; simpl in *;
    try (destruct Hk as [Hk|Hk]; discriminate Hk);
    try (injection H as <-; reflexivity);
    try (apply depart_literal_block_nesting in H; exact H);
    try (apply depart_document_nesting in H; exact H);
    try (apply depart_list_item_nesting in H; exact H);
    try (apply depart_reference_nesting in H; exact H);
    try (unfold Full.depart_paragraph, Full.depart_label in H;
         simpl in H; res_inv; reflexivity).
  (* document *)
  unfold Full.depart_document in H. simpl in H.
  destruct (Full.add_markdown_cell self) as [s1|] eqn:E; [|discriminate].
  simpl in H. apply add_markdown_cell_nesting in E.
  apply depart_document_nesting in H. congruence.
Qed.

(** What the visit of a section or a list pushes, and that its departure,
    started from a state with that on top, undoes it. *)
Lemma visit_structural_nesting k a self self' :
  structural k = true ->
  dispatch_visit JupyterTranslator k a self = Ok self' ->
  nesting self' =
    match k with
    | section =>
        (section_level self + 1, list_level self, bullets self, indents self)
    | bullet_list =>
        (section_level self, list_level self + 1, bullets self ++ ["-"],
         indents self ++ [2%nat])
    | _ =>
        (section_level self, list_level self + 1, bullets self ++ ["1."],
         indents self ++ [3%nat])
    end.
Proof.
  intros Hk H. destruct k; try discriminate Hk; simpl in H.
  - injection H as <-. reflexivity.
  - unfold Full.visit_bullet_list in H. simpl in H.
    rewrite unsnoc_snoc in H. injection H as <-. reflexivity.
  - unfold Full.visit_enumerated_list in H. simpl in H.
    rewrite unsnoc_snoc in H. injection H as <-. reflexivity.
Qed.

Lemma pop_bullet_and_indent_nesting self self' sl ll bs b ins i :
  nesting self = (sl, ll, bs ++ [b], ins ++ [i]) ->
  Full.pop_bullet_and_indent self = Ok self' ->
  nesting self' = (sl, ll, bs, ins).
Proof.
  unfold nesting. intros [= Hsl Hll Hbs Hins].
  unfold Full.pop_bullet_and_indent. rewrite Hbs, unsnoc_snoc. simpl.
  rewrite Hins, unsnoc_snoc. simpl. intros [= <-]. simpl.
  rewrite Hsl, Hll. reflexivity.
Qed.

Lemma depart_structural_nesting k a self self' sl ll bs b ins i :
  structural k = true ->
  nesting self =
    match k with
    | section => (sl + 1, ll, bs, ins)
    | _ => (sl, ll + 1, bs ++ [b], ins ++ [i])
    end ->
  dispatch_departure JupyterTranslator k a self = Ok self' ->
  nesting self' = (sl, ll, bs, ins).
Proof.
  intros Hk Hn H. destruct k; try discriminate Hk; simpl in H.
  - injection H as <-. unfold nesting in *. simpl.
    injection Hn as -> -> -> ->. f_equal. f_equal. f_equal. lia.
  - unfold Full.depart_bullet_list in H. simpl in H.
    match type of H with
    | mbind _ ?r = _ => destruct r as [s1|] eqn:E; [|discriminate]
    end.
    simpl in H.
    apply (pop_bullet_and_indent_nesting _ _ sl ll bs b ins i) in H; [exact H|].
    assert (nesting s1 = nesting (set_list_level (list_level self - 1) self)) as ->.
    { destruct (list_level self - 1 =? 0); [|injection E as <-; reflexivity].
      destruct (in_topic self).
      - apply add_markdown_cell_nesting in E. exact E.
      - injection E as <-. reflexivity. }
    unfold nesting in *. simpl. injection Hn as -> -> -> ->.
    f_equal. f_equal. f_equal. lia.
  - unfold Full.depart_enumerated_list in H. simpl in H.
    apply (pop_bullet_and_indent_nesting _ _ sl ll bs b ins i) in H; [exact H|].
    assert (forall s, nesting (if list_level self - 1 =? 0
                               then Full.emit Full.sep_paras s else s)
                      = nesting s) as ->.
    { intros s. destruct (_ =? _); reflexivity. }
    unfold nesting in *. simpl. injection Hn as -> -> -> ->.
    f_equal. f_equal. f_equal. lia.
Qed.

Lemma walk_children_nesting cls children self self' :
  Forall (fun n => forall s s', walkabout cls n s = Ok s' -> nesting s' = nesting s)
    children ->
  walk_children cls children self = Ok self' ->
  nesting self' = nesting self.
Proof.
  intros Hall. revert self.
  induction Hall as [|child children Hchild _ IH]; intros self H.
  - injection H as <-. reflexivity.
  - rewrite walk_children_cons in H.
    destruct (walkabout cls child self) as [s1|] eqn:E; [|discriminate].
    simpl in H. apply IH in H. apply Hchild in E. congruence.
Qed.

(** A walk that completes leaves the section depth, the list level and the
    two stacks as it found them. *)
Lemma walkabout_nesting cls n :
  forall self self',
    walkabout cls n self = Ok self' -> nesting self' = nesting self.
Proof.
  induction n as [text|k a children IH] using node_ind'; intros self self' H.
  - destruct cls; simpl in H;
      unfold Code.visit_Text, Full.visit_Text in H;
      destruct (in_code_block self); injection H as <-; reflexivity.
  - rewrite walkabout_element in H.
    destruct (dispatch_visit cls k a self) as [s1|] eqn:Ev; [|discriminate].
    simpl in H.
    destruct (walk_children cls children s1) as [s2|] eqn:Ec; [|discriminate].
    simpl in H.
    apply (walk_children_nesting _ _ _ _ IH) in Ec.
    destruct cls.
    + apply dispatch_visit_nesting in Ev; [|left; reflexivity].
      apply dispatch_departure_nesting in H; [|left; reflexivity].
      congruence.
    + destruct (structural k) eqn:Hk.
      * apply (visit_structural_nesting _ _ _ _ Hk) in Ev.
        rewrite Ev in Ec. unfold nesting at 2.
        destruct k; try discriminate Hk.
        -- exact (depart_structural_nesting section a s2 self'
                    _ _ _ "" _ 0%nat eq_refl Ec H).
        -- exact (depart_structural_nesting bullet_list a s2 self'
                    _ _ _ _ _ _ eq_refl Ec H).
        -- exact (depart_structural_nesting enumerated_list a s2 self'
                    _ _ _ _ _ _ eq_refl Ec H).
      * apply dispatch_visit_nesting in Ev; [|right; exact Hk].
        apply dispatch_departure_nesting in H; [|right; exact Hk].
        congruence.
Qed.

(** C9: in the full translator, when the visit of a section, a bullet list
    or an enumerated list, the walk over its children and its departure
    complete, the section depth, the list level, the bullets and the
    indents are what they were before the visit. *)
Theorem section_and_list_nesting_balanced (k : kind) (a : attributes)
    (children : list node) (self self' : translator) :
  k = section \/ k = bullet_list \/ k = enumerated_list ->
  walkabout JupyterTranslator (Element k a children) self = Ok self' ->
  section_level self' = section_level self
  /\ list_level self' = list_level self
  /\ bullets self' = bullets self
  /\ indents self' = indents self.
Proof.
  intros _ H. apply walkabout_nesting in H.
  unfold nesting in H. injection H as -> -> -> ->. repeat split.
Qed.

(** C9, witness: the walk over a section that holds a bullet list with an
    enumerated list inside completes and is balanced. *)
Lemma section_and_list_nesting_balanced_witness :
  section_level after_nested_document = section_level fresh
  /\ list_level after_nested_document = list_level fresh
  /\ bullets after_nested_document = bullets fresh
  /\ indents after_nested_document = indents fresh.
Proof.
  apply (section_and_list_nesting_balanced section no_attributes
           [Element title no_attributes [Text "Intro"];
            Element bullet_list no_attributes
              [Element list_item no_attributes
                 [Element paragraph no_attributes [Text "one"];
                  Element enumerated_list no_attributes
                    [Element list_item no_attributes
                       [Element paragraph no_attributes [Text "inner"]]]];
               Element list_item no_attributes
                 [Element paragraph no_attributes [Text "two"]]]]
           fresh after_nested_document).
  - left. reflexivity.
  - vm_compute. reflexivity.
Defined.

(** ** Literal blocks in another language, with any children *)

Lemma grows_refl s : grows [] s s.
Proof.
  split; [reflexivity|]. split; [rewrite app_nil_r; reflexivity|].
  exists []. split; [rewrite app_nil_r; reflexivity|constructor].
Qed.

Lemma grows_trans t1 t2 s s1 s2 :
  grows t1 s s1 -> grows t2 s1 s2 -> grows (t1 ++ t2) s s2.
Proof.
  intros (Hb1 & Hc1 & a1 & Hcells1 & Hmd1) (Hb2 & Hc2 & a2 & Hcells2 & Hmd2).
  split; [congruence|]. split.
  - rewrite Hc2, Hc1, app_assoc. reflexivity.
  - exists (a1 ++ a2). split.
    + rewrite Hcells2, Hcells1, app_assoc. reflexivity.
    + apply Forall_app. split; assumption.
Qed.

(** Assignments to other attributes before and after a step that grows. *)
Lemma grows_frame texts s s0 t s' :
  grows texts s0 t ->
  block_state s0 = block_state s -> code_lines s0 = code_lines s ->
  cells s0 = cells s ->
  block_state s' = block_state t -> code_lines s' = code_lines t ->
  cells s' = cells t ->
  grows texts s s'.
Proof.
  intros (Hb & Hc & added & Hcells & Hmd) Hb0 Hc0 Hcells0 Hb' Hc' Hcells'.
  split; [congruence|]. split; [congruence|].
  exists added. split; [congruence|exact Hmd].
Qed.

Lemma add_markdown_cell_grows s s' :
  Full.add_markdown_cell s = Ok s' -> grows [] s s'.
Proof.
  destruct (add_markdown_cell_spec s) as (kept & blanks & _ & ->).
  intros [= <-]. destruct kept as [|line kept]; [apply grows_refl|].
  split; [reflexivity|]. split; [simpl; rewrite app_nil_r; reflexivity|].
  eexists. split; [reflexivity|]. repeat constructor.
Qed.

#[local] Arguments Full.add_markdown_cell : simpl never.

Ltac grows_solve :=
  match goal with
  | E : Full.add_markdown_cell ?s0 = Ok ?t |- grows [] ?s _ =>
      apply (grows_frame [] s s0 t _ (add_markdown_cell_grows _ _ E));
      reflexivity
  | |- grows [] _ _ =>
      split; [reflexivity|];
      split; [simpl; rewrite app_nil_r; reflexivity|];
      exists []; split; [simpl; rewrite app_nil_r; reflexivity|constructor]
  end.

Ltac unfold_handlers H :=
  unfold Code.visit_highlightlang,
    Full.visit_topic, Full.visit_section, Full.visit_title,
    Full.visit_emphasis, Full.visit_strong, Full.visit_image, Full.visit_math,
    Full.visit_displaymath, Full.visit_reference, Full.visit_target,
    Full.visit_bullet_list, Full.visit_enumerated_list, Full.visit_list_item,
    Full.visit_definition_list, Full.visit_term, Full.visit_definition,
    Full.visit_field_list, Full.visit_field_name, Full.visit_field_body,
    Full.visit_definition_list, Full.visit_term, Full.visit_definition,
    Full.visit_citation, Full.visit_label,
    Full.depart_topic, Full.depart_section, Full.depart_title,
    Full.depart_paragraph, Full.depart_emphasis, Full.depart_strong,
    Full.depart_figure, Full.depart_bullet_list,
    Full.depart_enumerated_list, Full.depart_list_item,
    Full.depart_definition_list, Full.depart_term, Full.depart_definition,
    Full.depart_field_list, Full.depart_field_name, Full.depart_field_body,
    Full.depart_definition_list, Full.depart_term, Full.depart_definition,
    Full.depart_citation, Full.depart_label,
    Full.pop_bullet_and_indent, from_option in H.

Lemma depart_reference_grows a s s' :
  Full.depart_reference a s = Ok s' -> grows [] s s'.
Proof.
  unfold Full.depart_reference. intros [= <-].
  destruct (in_topic s); [grows_solve|].
  destruct (refuri a); [destruct (decide _)|destruct (refid a)]; grows_solve.
Qed.

(** The visit of a node that is neither a literal block nor a document
    leaves the open block and the code buffer alone and adds markdown cells
    at most. *)
Lemma dispatch_visit_grows cls k a s s' :
  plain_kind k = true ->
  dispatch_visit cls k a s = Ok s' -> grows [] s s'.
Proof.
  intros Hk H.
  destruct cls, k; simpl in H; try discriminate Hk;
    unfold_handlers H; simpl in H; res_inv; grows_solve.
Qed.

Lemma dispatch_departure_grows cls k a s s' :
  plain_kind k = true ->
  dispatch_departure cls k a s = Ok s' -> grows [] s s'.
Proof.
  intros Hk H.
  destruct cls, k; simpl in H; try discriminate Hk;
    try (apply depart_reference_grows in H; exact H);
    unfold_handlers H; simpl in H; res_inv; goal_cases; grows_solve.
Qed.

Lemma grows_in_code_block texts s s' :
  grows texts s s' -> in_code_block s = true -> in_code_block s' = true.
Proof.
  intros (Hb & _) Hin. unfold block_state in Hb. congruence.
Qed.

Lemma walk_children_grows cls children :
  Forall (fun n => plain n = true -> forall s s',
            in_code_block s = true -> walkabout cls n s = Ok s' ->
            grows (texts_of n) s s') children ->
  forallb plain children = true ->
  forall s s',
    in_code_block s = true -> walk_children cls children s = Ok s' ->
    grows (flat_map texts_of children) s s'.
Proof.
  induction 1 as [|child children Hchild _ IH]; intros Hplain s s' Hin H.
  - injection H as <-. apply grows_refl.
  - simpl in Hplain. apply andb_prop in Hplain as [Hp Hps].
    rewrite walk_children_cons in H.
    destruct (walkabout cls child s) as [s1|] eqn:E; [|discriminate].
    simpl in H. apply (Hchild Hp _ _ Hin) in E.
    apply (IH Hps) in H; [|exact (grows_in_code_block _ _ _ E Hin)].
    simpl. exact (grows_trans _ _ _ _ _ E H).
Qed.

(** Inside an open literal block, the walk over a tree without literal
    block and document appends the texts of the tree to the code buffer,
    leaves the kind and the language of the block alone, and adds markdown
    cells at most. *)
Lemma walkabout_grows cls n :
  plain n = true ->
  forall s s',
    in_code_block s = true -> walkabout cls n s = Ok s' ->
    grows (texts_of n) s s'.
Proof.
  induction n as [text|k a children IH] using node_ind';
    intros Hplain s s' Hin H.
  - assert (s' = set_code_lines (code_lines s ++ [text]) s) as ->.
    { destruct cls; simpl in H;
        unfold Code.visit_Text, Full.visit_Text in H;
        rewrite Hin in H; injection H as <-; reflexivity. }
    split; [reflexivity|]. split; [reflexivity|].
    exists []. split; [simpl; rewrite app_nil_r; reflexivity|constructor].
  - simpl in Hplain. apply andb_prop in Hplain as [Hk Hps].
    rewrite walkabout_element in H.
    destruct (dispatch_visit cls k a s) as [s1|] eqn:Ev; [|discriminate].
    simpl in H.
    destruct (walk_children cls children s1) as [s2|] eqn:Ec; [|discriminate].
    simpl in H.
    apply (dispatch_visit_grows _ _ _ _ _ Hk) in Ev.
    apply (walk_children_grows _ _ IH Hps) in Ec;
      [|exact (grows_in_code_block _ _ _ Ev Hin)].
    apply (dispatch_departure_grows _ _ _ _ _ Hk) in H.
    pose proof (grows_trans _ _ _ _ _ (grows_trans _ _ _ _ _ Ev Ec) H) as G.
    simpl in G. rewrite app_nil_r in G. exact G.
Qed.

(** C3: a literal block whose translated language (the declared one, or
    the document's when none is declared) differs from the translated
    language of the document is closed to one markdown cell, the texts
    below it in a fence that names the block's language, whatever its
    classes are, the class output included; when the walk over the block
    completes, nothing but markdown cells has been added, so the block is
    no code cell and its text no output of one.  With text children the
    walk completes. *)
Theorem language_mismatch_renders_markdown (cls : translator_class)
    (a : attributes) (children : list node) (self : translator) :
  block_language a self <> document_language self ->
  forallb plain children = true ->
  exists formatted,
    strip_blank_lines_in_end_of_block
      (Str.join "" (flat_map texts_of children)) = Ok formatted
    /\ (forall self',
          walkabout cls (Element literal_block a children) self = Ok self' ->
          exists added,
            cells self'
              = cells self ++ added
                ++ [fenced_markdown (block_language a self) formatted]
            /\ Forall (fun c => cell_type c = "markdown") added)
    /\ (forall texts, children = map Text texts ->
          exists self',
            walkabout cls (Element literal_block a children) self = Ok self').
Proof.
  intros Hmis Hplain.
  destruct (strip_blank_lines_in_end_of_block_spec
              (Str.join "" (flat_map texts_of children)))
    as (kept & blanks & _ & Hstrip).
  exists (Str.join nl kept). split; [exact Hstrip|]. split.
  - intros self' H.
    destruct (visit_literal_block_mismatch a self Hmis)
      as (s1 & Hvisit & Hty & Hnl & Hin & Hcl & Hcells & _).
    rewrite walkabout_element in H.
    assert (exists s2, dispatch_visit cls literal_block a self = Ok s2
              /\ grows [] s1 s2) as (s2 & Hdisp & G1).
    { destruct cls; simpl.
      - exists s1. split; [exact Hvisit|apply grows_refl].
      - unfold Full.visit_literal_block. rewrite Hvisit. simpl. rewrite Hin.
        destruct (add_markdown_cell_ok s1) as (s2 & Hadd).
        exists s2. split; [exact Hadd|].
        apply add_markdown_cell_grows, Hadd. }
    rewrite Hdisp in H. simpl in H.
    destruct (walk_children cls children s2) as [s3|] eqn:Ec; [|discriminate].
    simpl in H.
    assert (Forall (fun n => plain n = true -> forall s s',
                      in_code_block s = true -> walkabout cls n s = Ok s' ->
                      grows (texts_of n) s s') children) as Hall.
    { apply Forall_forall. intros n _. apply walkabout_grows. }
    apply (walk_children_grows _ _ Hall Hplain) in Ec;
      [|exact (grows_in_code_block _ _ _ G1 Hin)].
    pose proof (grows_trans _ _ _ _ _ G1 Ec)
      as (Hb & Hc & added & Hcells3 & Hmd).
    unfold block_state in Hb. injection Hb as _ Hty3 Hnl3.
    assert (dispatch_departure cls literal_block a s3
            = Code.depart_literal_block s3) as Hdep.
    { destruct cls; reflexivity. }
    rewrite Hdep in H.
    rewrite (depart_markdown_block _ (Str.join nl kept)) in H.
    + injection H as <-. exists added. split; [|exact Hmd]. simpl.
      rewrite Hcells3, Hnl3, Hnl, Hcells, <- app_assoc. reflexivity.
    + congruence.
    + rewrite Hc, Hcl. exact Hstrip.
  - intros texts ->.
    destruct (language_mismatch_text_children cls a texts self Hmis)
      as (f & s' & b & _ & H & _).
    exists s'. exact H.
Qed.

(** C3, witness: a julia block tagged as output in a python3 document. *)
Lemma language_mismatch_renders_markdown_witness :
  exists formatted,
    strip_blank_lines_in_end_of_block
      (Str.join "" (flat_map texts_of [Text "x = 1"])) = Ok formatted
    /\ (forall self',
          walkabout JupyterCodeTranslator
            (Element literal_block julia_output_block [Text "x = 1"])
            (set_lang (Some "python3") fresh) = Ok self' ->
          exists added,
            cells self'
              = cells (set_lang (Some "python3") fresh) ++ added
                ++ [fenced_markdown (Some "julia") formatted]
            /\ Forall (fun c => cell_type c = "markdown") added)
    /\ (forall texts, [Text "x = 1"] = map Text texts ->
          exists self',
            walkabout JupyterCodeTranslator
              (Element literal_block julia_output_block [Text "x = 1"])
              (set_lang (Some "python3") fresh) = Ok self').
Proof.
  apply (language_mismatch_renders_markdown JupyterCodeTranslator
           julia_output_block [Text "x = 1"] (set_lang (Some "python3") fresh)).
  - vm_compute. discriminate.
  - reflexivity.
Defined.

(** * Further properties of the code *)

(** ** strip_blank_lines_in_end_of_block *)

Lemma join_app sep l1 l2 :
  l1 <> [] -> l2 <> [] ->
  Str.join sep (l1 ++ l2) = Str.join sep l1 +:+ sep +:+ Str.join sep l2.
Proof.
  intros H1 H2. induction l1 as [|x l1 IH]; [congruence|].
  destruct l1 as [|y l1].
  - destruct l2 as [|z l2]; [congruence|]. reflexivity.
  - change ((x :: y :: l1) ++ l2) with (x :: y :: (l1 ++ l2)).
    rewrite !join_cons2.
    change (y :: l1 ++ l2) with ((y :: l1) ++ l2).
    rewrite IH by discriminate. rewrite !append_assoc. reflexivity.
Qed.

Lemma blank_lines_all_space blanks :
  Forall (fun line => Str.strip line = "") blanks ->
  forallb all_space blanks = true.
Proof.
  induction 1 as [|line blanks Hline _ IH]; [reflexivity|].
  simpl. rewrite IH, andb_true_r. apply strip_blank_iff, Hline.
Qed.

(** X1: stripping the trailing blank lines of a text that was already
    stripped returns it unchanged. *)
Theorem strip_blank_lines_idempotent (line_text : string) :
  exists formatted,
    strip_blank_lines_in_end_of_block line_text = Ok formatted
    /\ strip_blank_lines_in_end_of_block formatted = Ok formatted.
Proof.
  destruct (strip_blank_lines_in_end_of_block_spec line_text)
    as (kept & blanks & (Hl & Hb & Hk) & Hstrip).
  exists (Str.join nl kept). split; [exact Hstrip|].
  destruct (PyList.unsnoc kept) as [[i line]|] eqn:E.
  - apply unsnoc_Some in E. subst kept.
    unfold strip_blank_lines_in_end_of_block.
    rewrite split_join.
    + rewrite length_app, Nat.add_comm. simpl. rewrite unsnoc_snoc. simpl.
      rewrite length_0_is_empty, strip_empty.
      rewrite strip_blank_iff in Hk.
      destruct (all_space line); [congruence|]. reflexivity.
    + destruct i; discriminate.
    + pose proof (split_no_sep Str.LF line_text) as Hno.
      rewrite Hl in Hno. apply Forall_app in Hno as [Hno _]. exact Hno.
  - apply unsnoc_None in E. subst kept. reflexivity.
Qed.

(** X2: the function never raises, and it removes white space only: the
    text is the result followed by characters that are all white space. *)
Theorem strip_blank_lines_removes_white_space (line_text : string) :
  exists formatted removed,
    strip_blank_lines_in_end_of_block line_text = Ok formatted
    /\ line_text = formatted +:+ removed
    /\ all_space removed = true.
Proof.
  destruct (strip_blank_lines_in_end_of_block_spec line_text)
    as (kept & blanks & (Hl & Hb & Hk) & Hstrip).
  exists (Str.join nl kept).
  pose proof (join_split line_text) as Hjoin. rewrite Hl in Hjoin.
  pose proof (blank_lines_all_space _ Hb) as Hall.
  destruct blanks as [|b blanks].
  - exists "". split; [exact Hstrip|].
    rewrite app_nil_r in Hjoin. rewrite append_empty_r. auto.
  - destruct kept as [|k kept].
    + exists line_text. split; [exact Hstrip|]. split; [reflexivity|].
      rewrite <- Hjoin. simpl app. rewrite all_space_join. exact Hall.
    + exists (nl +:+ Str.join nl (b :: blanks)).
      split; [exact Hstrip|]. split.
      * rewrite <- Hjoin. apply join_app; discriminate.
      * rewrite all_space_append, all_space_join, Hall. reflexivity.
Qed.

(** ** GetGeneratorFromClasses *)

Lemma classify_item_tag res item :
  is_tag item = true -> classify_item res item = classify_item CODE item.
Proof.
  unfold is_tag, classify_item.
  destruct (String.eqb item "no-execute"); [reflexivity|].
  destruct (String.eqb item "skip-test"); [reflexivity|].
  destruct (String.eqb item "output"); [reflexivity|discriminate].
Qed.

Lemma classify_item_other res item :
  is_tag item = false -> classify_item res item = res.
Proof.
  unfold is_tag, classify_item.
  destruct (String.eqb item "no-execute"); [discriminate|].
  destruct (String.eqb item "skip-test"); [discriminate|].
  destruct (String.eqb item "output"); [discriminate|reflexivity].
Qed.

Lemma classify_item_tag_not_code item :
  is_tag item = true -> classify_item CODE item <> CODE.
Proof.
  unfold is_tag, classify_item.
  destruct (String.eqb item "no-execute"); [discriminate|].
  destruct (String.eqb item "skip-test"); [discriminate|].
  destruct (String.eqb item "output"); discriminate.
Qed.

Lemma classify_no_tags res rest :
  forallb (fun item => negb (is_tag item)) rest = true ->
  foldl classify_item res rest = res.
Proof.
  revert res. induction rest as [|item rest IH]; intros res H; [reflexivity|].
  simpl in H. apply andb_prop in H as [Hitem Hrest].
  simpl. rewrite classify_item_other by (destruct (is_tag item); auto; discriminate).
  apply IH, Hrest.
Qed.

(** X3: the kind of a block is that of the last class among no-execute,
    skip-test and output, whatever stands before it, and it is CODE exactly
    when the block has none of these classes. *)
Theorem last_tag_decides_kind (class_list : list string) :
  (GetGeneratorFromClasses class_list = CODE
   <-> forallb (fun item => negb (is_tag item)) class_list = true)
  /\ (forall before tag rest,
        class_list = before ++ tag :: rest ->
        is_tag tag = true ->
        forallb (fun item => negb (is_tag item)) rest = true ->
        GetGeneratorFromClasses class_list = classify_item CODE tag).
Proof.
  split.
  - unfold GetGeneratorFromClasses.
    induction class_list as [|item l IH] using rev_ind; [split; reflexivity|].
    rewrite foldl_snoc, forallb_app. simpl. rewrite andb_true_r.
    destruct (is_tag item) eqn:E; simpl.
    + rewrite andb_false_r, classify_item_tag by exact E.
      split; [|discriminate].
      intros H. exfalso. exact (classify_item_tag_not_code _ E H).
    + rewrite andb_true_r, classify_item_other by exact E. exact IH.
  - intros before tag rest -> Htag Hrest.
    unfold GetGeneratorFromClasses. rewrite foldl_app. simpl.
    rewrite classify_no_tags by exact Hrest.
    apply classify_item_tag, Htag.
Qed.

(** ** LanguageTranslator.__init__ *)

Lemma add_language_no_empty_name translator language :
  map_Forall (fun sphinxLang jupyterLang : string =>
                sphinxLang <> "" /\ jupyterLang <> "") translator ->
  map_Forall (fun sphinxLang jupyterLang : string =>
                sphinxLang <> "" /\ jupyterLang <> "")
    (add_language translator language).
Proof.
  intros H. unfold add_language.
  destruct (scan_children language None None) as [[s|] [j|]]; try exact H.
  destruct s as [|c s], j as [|d j]; simpl; try exact H.
  apply map_Forall_insert_2; [split; discriminate|exact H].
Qed.

(** X4: whatever the language files hold, the table built from them maps
    no empty name and maps to no empty name (entries with a missing or
    empty side are skipped), so translating a non-empty language name never
    gives the empty string. *)
Theorem loaded_table_has_no_empty_name (files : list (list language_element))
    (name : string) :
  map_Forall (fun sphinxLang jupyterLang : string =>
                sphinxLang <> "" /\ jupyterLang <> "")
    (LanguageTranslator_init files)
  /\ (name <> "" -> translate (LanguageTranslator_init files) name <> "").
Proof.
  assert (map_Forall (fun sphinxLang jupyterLang : string =>
                        sphinxLang <> "" /\ jupyterLang <> "")
            (LanguageTranslator_init files)) as Hall.
  { unfold LanguageTranslator_init.
    induction files as [|languages files IH] using rev_ind.
    - apply map_Forall_empty.
    - rewrite foldl_snoc.
      induction languages as [|language languages IHl] using rev_ind;
        [exact IH|].
      rewrite foldl_snoc. apply add_language_no_empty_name, IHl. }
  split; [exact Hall|].
  intros Hname. unfold translate.
  destruct (LanguageTranslator_init files !! name) as [j|] eqn:E; [|exact Hname].
  apply (Hall _ _ E).
Qed.

(** ** get_source_file_name *)

Lemma split_app c s t :
  Str.split c (s +:+ String c t) = Str.split c s ++ Str.split c t.
Proof.
  induction s as [|d s IH].
  - rewrite append_nil. simpl. rewrite Ascii.eqb_refl. reflexivity.
  - rewrite append_cons. simpl. rewrite IH.
    destruct (Ascii.eqb d c); [reflexivity|].
    pose proof (split_not_nil c s) as Hne.
    destruct (Str.split c s) as [|x xs]; [congruence|]. reflexivity.
Qed.

Lemma join_split_sep c s : Str.join (String c "") (Str.split c s) = s.
Proof.
  induction s as [|d s IH]; [reflexivity|]. simpl.
  pose proof (split_not_nil c s) as Hne.
  destruct (Ascii.eqb_spec d c) as [->|Hd].
  - destruct (Str.split c s) as [|x xs]; [congruence|].
    rewrite join_cons2, IH. reflexivity.
  - destruct (Str.split c s) as [|x xs]; [congruence|].
    destruct xs as [|y xs].
    + simpl in *. rewrite IH. reflexivity.
    + rewrite join_cons2 in *. rewrite append_cons, IH. reflexivity.
Qed.

Lemma check_srcdir_prefix srcdir_list rest :
  check_srcdir srcdir_list (srcdir_list ++ rest) = None.
Proof.
  induction srcdir_list as [|d l IH]; [reflexivity|].
  simpl. rewrite String.eqb_refl. exact IH.
Qed.

Lemma check_srcdir_None srcdir_list file_list :
  check_srcdir srcdir_list file_list = None ->
  exists rest, file_list = srcdir_list ++ rest.
Proof.
  revert file_list. induction srcdir_list as [|d l IH]; intros file_list H.
  - exists file_list. reflexivity.
  - destruct file_list as [|f file_list]; [discriminate|]. simpl in H.
    destruct (String.eqb_spec d f) as [->|_]; [|discriminate].
    destruct (IH _ H) as [rest ->]. exists rest. reflexivity.
Qed.

Lemma check_srcdir_IndexError srcdir_list file_list :
  check_srcdir srcdir_list file_list = Some RaiseIndexError
  <-> exists d more, srcdir_list = file_list ++ d :: more.
Proof.
  revert file_list. induction srcdir_list as [|d l IH]; intros file_list.
  - split; [discriminate|]. intros (d & more & H).
    destruct file_list; discriminate.
  - destruct file_list as [|f file_list]; simpl.
    + split; [|reflexivity]. intros _. exists d, l. reflexivity.
    + destruct (String.eqb_spec d f) as [->|Hne].
      * rewrite IH. split; intros (d' & more & H).
        -- exists d', more. rewrite H. reflexivity.
        -- exists d', more. injection H as H. exact H.
      * split; [discriminate|]. intros (d' & more & H).
        injection H as H _. contradiction.
Qed.

(** X5: for a file below the source directory, the name is the last
    component of the directory's path, a slash and the path of the file
    below the directory: the directory's own name is kept in front. *)
Theorem source_file_name_below_srcdir (srcdir name : string) :
  exists parents base,
    Str.split SLASH srcdir = parents ++ [base]
    /\ get_source_file_name (srcdir +:+ "/" +:+ name) srcdir
       = SourceName (base +:+ "/" +:+ name).
Proof.
  pose proof (split_not_nil SLASH srcdir) as Hne.
  destruct (PyList.unsnoc (Str.split SLASH srcdir)) as [[parents base]|] eqn:E;
    [|apply unsnoc_None in E; congruence].
  apply unsnoc_Some in E.
  exists parents, base. split; [exact E|].
  unfold get_source_file_name.
  change ("/" +:+ name) with (String SLASH name).
  rewrite split_app, check_srcdir_prefix, E.
  rewrite length_app, Nat.add_comm. simpl. rewrite Nat.sub_0_r.
  rewrite <- app_assoc, drop_app_length. cbn [app].
  pose proof (split_not_nil SLASH name) as Hn.
  pose proof (join_split_sep SLASH name) as Hj.
  destruct (Str.split SLASH name) as [|x xs]; [congruence|].
  rewrite join_cons2. unfold SLASH in Hj. rewrite Hj. reflexivity.
Qed.

(** X6: the function returns a name only when the components of the
    directory's path are the first components of the file's path; it
    raises IndexError exactly when the file's path has fewer components
    than the directory's and agrees with it on all of them, and ValueError
    in every other case. *)
Theorem source_file_name_errors (filepath srcdir : string) :
  (forall name, get_source_file_name filepath srcdir = SourceName name ->
     exists rest,
       Str.split SLASH filepath = Str.split SLASH srcdir ++ rest
       /\ name = Str.join "/"
                   (drop (length (Str.split SLASH srcdir) - 1)
                      (Str.split SLASH filepath)))
  /\ (get_source_file_name filepath srcdir = RaiseIndexError
      <-> exists d more,
            Str.split SLASH srcdir = Str.split SLASH filepath ++ d :: more)
  /\ (get_source_file_name filepath srcdir = RaiseValueError
      <-> (~ exists rest,
             Str.split SLASH filepath = Str.split SLASH srcdir ++ rest)
          /\ ~ exists d more,
                Str.split SLASH srcdir = Str.split SLASH filepath ++ d :: more).
Proof.
  unfold get_source_file_name.
  pose proof (check_srcdir_IndexError (Str.split SLASH srcdir)
                (Str.split SLASH filepath)) as Hix.
  pose proof (check_srcdir_None (Str.split SLASH srcdir)
                (Str.split SLASH filepath)) as Hnone.
  pose proof (check_srcdir_prefix (Str.split SLASH srcdir)) as Hpre.
  destruct (check_srcdir (Str.split SLASH srcdir) (Str.split SLASH filepath))
    as [[n| |]|] eqn:E.
  - exfalso. clear -E.
    revert E. generalize (Str.split SLASH filepath).
    induction (Str.split SLASH srcdir) as [|d l IH]; intros fl; [discriminate|].
    destruct fl as [|f fl]; [discriminate|]. simpl.
    destruct (String.eqb d f); [apply IH|discriminate].
  - split; [discriminate|]. split.
    + split; [discriminate|]. intros H. apply Hix in H. discriminate.
    + split; [|reflexivity]. intros _. split.
      * intros [rest H]. rewrite H, Hpre in E. discriminate.
      * intros H. apply Hix in H. discriminate.
  - split; [discriminate|]. split.
    + split; [|reflexivity]. intros _. apply Hix. reflexivity.
    + split; [discriminate|]. intros [_ H]. exfalso. apply H, Hix. reflexivity.
  - split; [|split].
    + intros name [= <-]. destruct (Hnone eq_refl) as [rest H].
      exists rest. split; [exact H|reflexivity].
    + split; [discriminate|]. intros H. apply Hix in H. discriminate.
    + split; [discriminate|]. intros [H _]. exfalso. apply H, Hnone. reflexivity.
Qed.

(** ** split_uri_id and add_extension_to_inline_link *)

Lemma contains_app c s t :
  Str.contains c (s +:+ t) = Str.contains c s || Str.contains c t.
Proof.
  induction s as [|d s IH]; [reflexivity|].
  rewrite append_cons. simpl. rewrite IH. apply orb_assoc.
Qed.

Lemma span_not_absent c s :
  Str.contains c s = false -> Str.span_not c s = (s, "").
Proof.
  induction s as [|d s IH]; intros H; [reflexivity|].
  simpl in H. apply orb_false_elim in H as [Hd Hs].
  simpl. rewrite Hd, (IH Hs). reflexivity.
Qed.

(** X7: with an extension that holds a ['.'], as [".ipynb"] does, adding
    the extension a second time changes nothing. *)
Theorem add_extension_idempotent (uri ext : string) :
  Str.contains "." ext = true ->
  Full.add_extension_to_inline_link
    (Full.add_extension_to_inline_link uri ext) ext
  = Full.add_extension_to_inline_link uri ext.
Proof.
  intros Hext.
  destruct (Str.contains "." uri) eqn:Huri.
  - unfold Full.add_extension_to_inline_link. rewrite Huri. simpl.
    rewrite Huri. reflexivity.
  - rewrite (add_extension_without_dot _ _ Huri).
    unfold Full.add_extension_to_inline_link at 1.
    rewrite !contains_app, Hext, orb_true_r. reflexivity.
Qed.

(** X7, witness: the extension of the translator. *)
Lemma add_extension_idempotent_witness :
  Full.add_extension_to_inline_link
    (Full.add_extension_to_inline_link "intro#setup" Full.default_ext)
    Full.default_ext
  = Full.add_extension_to_inline_link "intro#setup" Full.default_ext.
Proof.
  apply (add_extension_idempotent "intro#setup" Full.default_ext).
  reflexivity.
Defined.

(** X8: the first group of [split_uri_id] holds no ['#'] and the second
    no line feed; for a uri without line feed the two groups put together
    again, with a ['#'] between them when the uri has one, give the uri
    back. *)
Theorem split_uri_id_round_trip (uri : string) :
  Str.contains "#" (Full.split_uri_id uri).1 = false
  /\ Str.contains Str.LF (Full.split_uri_id uri).2 = false
  /\ (Str.contains Str.LF uri = false ->
      uri = if Str.contains "#" uri
            then (Full.split_uri_id uri).1 +:+ "#" +:+ (Full.split_uri_id uri).2
            else (Full.split_uri_id uri).1)
  /\ (Str.contains "#" uri = false -> Full.split_uri_id uri = (uri, "")).
Proof.
  unfold Full.split_uri_id.
  destruct (span_not_spec "#" uri) as (Huri & Hg1 & Hr).
  destruct (Str.span_not "#" uri) as [g1 r]. simpl in *.
  set (rest := match r with String _ r' => r' | EmptyString => EmptyString end).
  destruct (span_not_spec Str.LF rest) as (Hrest & Hg2 & _).
  destruct (Str.span_not Str.LF rest) as [g2 t] eqn:Espan. simpl in *.
  split; [exact Hg1|]. split; [exact Hg2|]. split.
  - intros Hlf. rewrite Huri in Hlf. rewrite contains_app in Hlf.
    apply orb_false_elim in Hlf as [_ Hlfr].
    destruct Hr as [->|[r' ->]].
    + rewrite append_empty_r in Huri. subst g1. rewrite Hg1. reflexivity.
    + subst rest. simpl in Hlfr.
      rewrite (span_not_absent _ _ Hlfr) in Espan. injection Espan as <- <-.
      assert (Str.contains "#" uri = true) as ->.
      { rewrite Huri, contains_app. simpl. apply orb_true_r. }
      exact Huri.
  - intros Hno. rewrite Huri in Hno. rewrite contains_app in Hno.
    apply orb_false_elim in Hno as [_ Hnor].
    destruct Hr as [->|[r' ->]].
    + subst rest. simpl in Espan. injection Espan as <- <-.
      rewrite append_empty_r in Huri. subst g1. reflexivity.
    + simpl in Hnor. discriminate.
Qed.

(** ** visit_citation *)

Lemma unsnoc_append_char s c : Str.unsnoc (s +:+ String c "") = Some (s, c).
Proof.
  induction s as [|d s IH]; [reflexivity|].
  rewrite append_cons. simpl. rewrite IH. reflexivity.
Qed.

Lemma id_text_join ids :
  Full.drop_last_char
    (foldl (fun id_text id_ : string => id_text +:+ id_ +:+ " ") "" ids)
  = Str.join " " ids.
Proof.
  destruct ids as [|i ids]; [reflexivity|].
  assert (foldl (fun id_text id_ : string => id_text +:+ id_ +:+ " ") ""
            (i :: ids) = Str.join " " (i :: ids) +:+ " ") as ->.
  { induction ids as [|j ids IH] using rev_ind; [reflexivity|].
    change (i :: ids ++ [j]) with ((i :: ids) ++ [j]).
    rewrite foldl_snoc, IH, join_app by discriminate.
    change (Str.join " " [j]) with j.
    rewrite !append_assoc. reflexivity. }
  unfold Full.drop_last_char.
  change " " with (String " " "") at 1. rewrite unsnoc_append_char.
  reflexivity.
Qed.

(** X9: for a citation with ids, the anchor that is emitted carries the
    ids joined by single spaces, with no space after the last one, and
    the citation flag is set. *)
Theorem citation_anchor_joins_ids (a : attributes) (node_ids : list string)
    (self : translator) :
  ids a = Some node_ids ->
  Full.visit_citation a self
  = Ok (Full.emit ("<a id='" +:+ Str.join " " node_ids +:+ "'></a>" +:+ nl)
          (set_in_citation true self)).
Proof.
  intros H. unfold Full.visit_citation. rewrite H, id_text_join. reflexivity.
Qed.

(** X9, witness: a citation with two ids. *)
Lemma citation_anchor_joins_ids_witness :
  Full.visit_citation
    {| classes := []; language := None; lang_attr := None; uri := None;
       latex := None; ids := Some ["smith2010"; "id3"]; number := None;
       refuri := None; internal := None; refid := None |} fresh
  = Ok (Full.emit ("<a id='" +:+ Str.join " " ["smith2010"; "id3"]
                   +:+ "'></a>" +:+ nl)
          (set_in_citation true fresh)).
Proof.
  apply (citation_anchor_joins_ids
           {| classes := []; language := None; lang_attr := None; uri := None;
              latex := None; ids := Some ["smith2010"; "id3"]; number := None;
              refuri := None; internal := None; refid := None |}
           ["smith2010"; "id3"] fresh).
  reflexivity.
Defined.

(** ** A literal block as the only child of a list item *)

Lemma bind_Ok {A B} (a : A) (k : A -> res B) : mbind k (Ok a) = k a.
Proof. reflexivity. Qed.

Lemma bind_Raise {A B} (e : exn) (k : A -> res B) : mbind k (Raise e) = Raise e.
Proof. reflexivity. Qed.

Lemma add_markdown_cell_nonblank s :
  all_space (Str.join "" (markdown_lines s)) = false ->
  exists formatted,
    Full.add_markdown_cell s = Ok (commit_markdown formatted s).
Proof.
  intros Hns.
  destruct (add_markdown_cell_spec s) as (kept & blanks & (Hl & Hb & _) & Hadd).
  destruct kept as [|k kept].
  - exfalso. simpl in Hl.
    pose proof (join_split (Str.join "" (markdown_lines s))) as Hj.
    rewrite Hl in Hj. rewrite <- Hj, all_space_join in Hns.
    rewrite (blank_lines_all_space _ Hb) in Hns. discriminate.
  - eexists. exact Hadd.
Qed.

Lemma all_space_join_empty_snoc l s :
  all_space s = false -> all_space (Str.join "" (l ++ [s])) = false.
Proof.
  intros Hs. induction l as [|x l IH]; [exact Hs|].
  destruct l as [|y l].
  - simpl app. rewrite join_cons2, append_nil, all_space_append.
    change (Str.join "" [s]) with s. rewrite Hs. apply andb_false_r.
  - change ((x :: y :: l) ++ [s]) with (x :: y :: (l ++ [s])).
    rewrite join_cons2, append_nil, all_space_append.
    change (y :: l ++ [s]) with ((y :: l) ++ [s]).
    rewrite IH. apply andb_false_r.
Qed.

Lemma visit_literal_block_frame a s :
  exists s1 ty,
    Code.visit_literal_block a s = Ok s1
    /\ in_code_block s1 = true
    /\ output_cell_type s1 = Some ty
    /\ markdown_lines s1 = markdown_lines s
    /\ cells s1 = cells s
    /\ list_item_starts s1 = list_item_starts s
    /\ indents s1 = indents s.
Proof.
  unfold Code.visit_literal_block.
  destruct (language a); destruct (decide _);
    eexists; eexists; (split; [reflexivity|]); repeat split.
Qed.

Lemma depart_literal_block_frame s s' :
  Code.depart_literal_block s = Ok s' ->
  markdown_lines s' = markdown_lines s
  /\ list_item_starts s' = list_item_starts s
  /\ indents s' = indents s.
Proof.
  unfold Code.depart_literal_block, from_option. intros H. simpl in H.
  res_inv; repeat split.
Qed.

(** In the full translator a literal block with text children, entered with
    a markdown buffer that is not blank, is walked to the end and leaves
    the buffer empty. *)
Lemma literal_block_empties_buffer b texts s :
  all_space (Str.join "" (markdown_lines s)) = false ->
  exists s',
    walkabout JupyterTranslator (Element literal_block b (map Text texts)) s
      = Ok s'
    /\ markdown_lines s' = []
    /\ list_item_starts s' = list_item_starts s
    /\ indents s' = indents s.
Proof.
  intros Hns.
  destruct (visit_literal_block_frame b s)
    as (s1 & ty & Hvisit & Hin & Hty & Hml & Hcells & Hst & Hind).
  destruct (add_markdown_cell_nonblank s1) as (f & Hadd);
    [rewrite Hml; exact Hns|].
  rewrite walkabout_element. simpl.
  unfold Full.visit_literal_block. rewrite Hvisit. simpl. rewrite Hin, Hadd.
  simpl. rewrite walk_text_children by exact Hin. simpl.
  match goal with
  | |- context [Code.depart_literal_block ?st] =>
      destruct (Code.depart_literal_block st) as [s'|e] eqn:E
  end.
  - exists s'. split; [reflexivity|].
    apply depart_literal_block_frame in E as (Eml & Est & Eind).
    simpl in *. repeat split; congruence.
  - exfalso. apply depart_literal_block_raises in E as [[_ E]|(_ & _ & E)].
    + simpl in E. congruence.
    + simpl in E. destruct (cells s1); discriminate.
Qed.

(** X10: in the full translator the walk over a bullet list or an
    enumerated list whose first item has a literal block with text children
    as its only child raises IndexError, from every state: entering the
    block flushes the markdown buffer and leaves it empty, and the
    departure from the item reads the last fragment of the buffer. *)
Theorem list_item_with_only_literal_block_raises (k : kind)
    (a a' b : attributes) (texts : list string) (rest : list node)
    (self : translator) :
  k = bullet_list \/ k = enumerated_list ->
  walkabout JupyterTranslator
    (Element k a
       (Element list_item a' [Element literal_block b (map Text texts)]
        :: rest)) self
  = Raise IndexError.
Proof.
  intros Hk.
  assert (exists s1 bullet,
            dispatch_visit JupyterTranslator k a self = Ok s1
            /\ PyList.unsnoc (bullets s1) = Some (bullets self, bullet)
            /\ all_space bullet = false
            /\ indents s1 <> []) as (s1 & bullet & Hvisit & Hb & Hns & Hind).
  { destruct Hk as [-> | ->]; simpl.
    - unfold Full.visit_bullet_list. simpl. rewrite unsnoc_snoc. simpl.
      eexists. exists "-". split; [reflexivity|]. simpl.
      rewrite unsnoc_snoc. repeat split. destruct (indents self); discriminate.
    - unfold Full.visit_enumerated_list. simpl. rewrite unsnoc_snoc. simpl.
      eexists. exists "1.". split; [reflexivity|]. simpl.
      rewrite unsnoc_snoc. repeat split. destruct (indents self); discriminate. }
  rewrite walkabout_element, Hvisit, bind_Ok.
  rewrite walk_children_cons, walkabout_element.
  change (dispatch_visit JupyterTranslator list_item a' s1)
    with (Full.visit_list_item s1).
  change (dispatch_departure JupyterTranslator list_item a')
    with Full.depart_list_item.
  unfold Full.visit_list_item. rewrite Hb. simpl from_option.
  rewrite !bind_Ok. cbv zeta.
  set (s2 := set_list_item_starts _ _).
  change (walk_children JupyterTranslator
            [Element literal_block b (map Text texts)] s2)
    with (s' ← walkabout JupyterTranslator
                 (Element literal_block b (map Text texts)) s2; Ok s').
  destruct (literal_block_empties_buffer b texts s2) as (s3 & Hwalk & Hml & Hst & Hi).
  { subst s2. simpl. apply all_space_join_empty_snoc.
    rewrite all_space_append, Hns. reflexivity. }
  rewrite Hwalk, !bind_Ok.
  unfold Full.depart_list_item. rewrite Hst. subst s2. simpl list_item_starts.
  rewrite unsnoc_snoc. simpl from_option. rewrite bind_Ok. cbv zeta.
  simpl indents. rewrite Hi. simpl indents.
  destruct (PyList.unsnoc (indents s1)) as [[ins w]|] eqn:E;
    [|apply unsnoc_None in E; contradiction].
  simpl from_option. rewrite bind_Ok.
  simpl markdown_lines. rewrite Hml. reflexivity.
Qed.

(** X10, witness: a bullet list with one such item, at the start of a
    document. *)
Lemma list_item_with_only_literal_block_raises_witness :
  walkabout JupyterTranslator
    (Element bullet_list no_attributes
       (Element list_item no_attributes
          [Element literal_block no_attributes (map Text ["x = 1"])]
        :: [])) fresh
  = Raise IndexError.
Proof.
  apply (list_item_with_only_literal_block_raises bullet_list no_attributes
           no_attributes no_attributes ["x = 1"] [] fresh).
  left. reflexivity.
Defined.

(** ** Flushing twice *)

(** X11: a second flush right after a flush does nothing: it appends no
    cell and leaves the state as the first flush left it. *)
Theorem add_markdown_cell_idempotent (self : translator) :
  exists self1,
    Full.add_markdown_cell self = Ok self1
    /\ Full.add_markdown_cell self1 = Ok self1.
Proof.
  destruct (add_markdown_cell_spec self) as (kept & blanks & _ & Hadd).
  destruct kept as [|k kept].
  - exists self. split; exact Hadd.
  - eexists. split; [exact Hadd|]. reflexivity.
Qed.

(** ** Literal blocks by kind *)

Lemma all_space_lines text :
  all_space text = true ->
  Forall (fun line => Str.strip line = "") (Str.split Str.LF text).
Proof.
  intros H. rewrite <- (join_split text), all_space_join in H.
  apply Forall_forall. intros line Hin. apply strip_blank_iff.
  rewrite forallb_forall in H. apply H. apply list_elem_of_In, Hin.
Qed.

(** A flush of a blank buffer does nothing. *)
Lemma add_markdown_cell_blank s :
  all_space (Str.join "" (markdown_lines s)) = true ->
  Full.add_markdown_cell s = Ok s.
Proof.
  intros H.
  destruct (add_markdown_cell_spec s) as (kept & blanks & Hs & Hadd).
  rewrite Hadd.
  rewrite (all_blank_keeps_nothing _ _ _ Hs (all_space_lines _ H)).
  reflexivity.
Qed.

(** After a flush the buffer is blank. *)
Lemma add_markdown_cell_leaves_blank s s' :
  Full.add_markdown_cell s = Ok s' ->
  all_space (Str.join "" (markdown_lines s')) = true.
Proof.
  destruct (add_markdown_cell_spec s) as (kept & blanks & (Hl & Hb & _) & ->).
  intros [= <-]. destruct kept as [|k kept]; [|reflexivity].
  simpl in Hl.
  rewrite <- (join_split (Str.join "" (markdown_lines s))), Hl, all_space_join.
  apply blank_lines_all_space, Hb.
Qed.

Lemma visit_literal_block_result a s :
  exists s1,
    Code.visit_literal_block a s = Ok s1
    /\ output_cell_type s1 = Some (effective_kind a s)
    /\ nodelang s1 = block_language a s
    /\ in_code_block s1 = true
    /\ code_lines s1 = []
    /\ cells s1 = cells s
    /\ markdown_lines s1 = markdown_lines s
    /\ lang s1 = lang s
    /\ conf s1 = conf s
    /\ reported s1 = reported s.
Proof.
  unfold effective_kind, block_language, document_language,
    Code.visit_literal_block.
  destruct s as [c l]; simpl.
  destruct (language a) as [la|]; simpl;
    destruct (decide _); eexists; (split; [reflexivity|]); repeat split.
Qed.

(** The walk over a literal block with text children is its departure from
    a state that holds the kind, the language and the texts of the block;
    the full translator has flushed the markdown buffer before. *)
Lemma literal_block_walk cls a texts s :
  exists s2,
    walkabout cls (Element literal_block a (map Text texts)) s
      = Code.depart_literal_block s2
    /\ output_cell_type s2 = Some (effective_kind a s)
    /\ nodelang s2 = block_language a s
    /\ code_lines s2 = texts
    /\ (cells s2 = cells s
        \/ exists md, cls = JupyterTranslator
                      /\ cells s2 = cells s ++ [new_markdown_cell md])
    /\ lang s2 = lang s
    /\ conf s2 = conf s
    /\ reported s2 = reported s
    /\ (cls = JupyterTranslator ->
        all_space (Str.join "" (markdown_lines s2)) = true)
    /\ (all_space (Str.join "" (markdown_lines s)) = true ->
        cells s2 = cells s).
Proof.
  destruct (visit_literal_block_result a s)
    as (s1 & Hvisit & Hty & Hnl & Hin & Hcl & Hcells & Hml & Hlang & Hconf & Hrep).
  assert (exists s1',
            dispatch_visit cls literal_block a s = Ok s1'
            /\ output_cell_type s1' = output_cell_type s1
            /\ nodelang s1' = nodelang s1
            /\ in_code_block s1' = true
            /\ code_lines s1' = []
            /\ (cells s1' = cells s
                \/ exists md, cls = JupyterTranslator
                     /\ cells s1' = cells s ++ [new_markdown_cell md])
            /\ lang s1' = lang s /\ conf s1' = conf s
            /\ reported s1' = reported s
            /\ (cls = JupyterTranslator ->
                all_space (Str.join "" (markdown_lines s1')) = true)
            /\ (all_space (Str.join "" (markdown_lines s)) = true ->
                cells s1' = cells s))
    as (s1' & Hdisp & Hty' & Hnl' & Hin' & Hcl' & Hcells' & Hlang' & Hconf'
        & Hrep' & Hflush & Hblank').
  { destruct cls; simpl.
    - exists s1. rewrite Hvisit. repeat split; auto. discriminate.
    - unfold Full.visit_literal_block. rewrite Hvisit, bind_Ok, Hin.
      destruct (add_markdown_cell_spec s1) as (kept & blanks & Hs & Hadd).
      pose proof (add_markdown_cell_leaves_blank s1) as Hblank.
      pose proof (add_markdown_cell_blank s1) as Hnoop.
      rewrite Hadd in *. destruct kept as [|k kept].
      + exists s1. repeat split; auto.
      + eexists. split; [reflexivity|]. simpl. repeat split; auto.
        * right. eexists. split; [reflexivity|]. rewrite Hcells. reflexivity.
        * intros Hb. rewrite Hml in Hnoop. specialize (Hnoop Hb).
          injection Hnoop as Hnoop. apply (f_equal cells) in Hnoop.
          simpl in Hnoop. apply (f_equal length) in Hnoop.
          rewrite length_app in Hnoop. simpl in Hnoop. lia. }
  exists (set_code_lines texts s1').
  rewrite walkabout_element, Hdisp, bind_Ok.
  rewrite walk_text_children by exact Hin'. rewrite bind_Ok, Hcl'.
  simpl app. split.
  { destruct cls; reflexivity. }
  simpl. repeat split; auto; try congruence.
Qed.

(** X12: a literal block whose last class among no-execute, skip-test and
    output is no-execute or skip-test is closed to a fenced markdown cell,
    in either translator and also when its language is the language of the
    document: it never becomes a code cell. *)
Theorem no_execute_renders_markdown (cls : translator_class) (a : attributes)
    (texts : list string) (self : translator) :
  GetGeneratorFromClasses (classes a) = MARKDOWN ->
  exists formatted self' before,
    strip_blank_lines_in_end_of_block (Str.join "" texts) = Ok formatted
    /\ walkabout cls (Element literal_block a (map Text texts)) self = Ok self'
    /\ cells self' = before ++ [fenced_markdown (block_language a self) formatted]
    /\ (before = cells self
        \/ exists md, cls = JupyterTranslator
                      /\ before = cells self ++ [new_markdown_cell md]).
Proof.
  intros Hkind.
  destruct (literal_block_walk cls a texts self)
    as (s2 & Hwalk & Hty & Hnl & Hcl & Hcells & _).
  destruct (strip_blank_lines_in_end_of_block_spec (Str.join "" texts))
    as (kept & blanks & _ & Hstrip).
  assert (effective_kind a self = MARKDOWN) as Hk.
  { unfold effective_kind. destruct (decide _); [reflexivity|exact Hkind]. }
  rewrite Hk in Hty.
  exists (Str.join nl kept). eexists. exists (cells s2).
  split; [exact Hstrip|]. split.
  - rewrite Hwalk. apply depart_markdown_block; [exact Hty|].
    rewrite Hcl. exact Hstrip.
  - simpl. rewrite Hnl. split; [reflexivity|].
    destruct Hcells as [->|(md & -> & ->)]; [left; reflexivity|].
    right. exists md. split; reflexivity.
Qed.

(** X12, witness: a python3 block tagged skip-test in a python3 document. *)
Lemma no_execute_renders_markdown_witness :
  exists formatted self' before,
    strip_blank_lines_in_end_of_block (Str.join "" ["x = 1"]) = Ok formatted
    /\ walkabout JupyterCodeTranslator
         (Element literal_block (with_classes ["skip-test"]) (map Text ["x = 1"]))
         (set_lang (Some "python3") fresh) = Ok self'
    /\ cells self' = before ++ [fenced_markdown (Some "python3") formatted]
    /\ (before = []
        \/ exists md, JupyterCodeTranslator = JupyterTranslator
                      /\ before = [] ++ [new_markdown_cell md]).
Proof.
  apply (no_execute_renders_markdown JupyterCodeTranslator
           (with_classes ["skip-test"]) ["x = 1"]
           (set_lang (Some "python3") fresh)).
  reflexivity.
Defined.

(** X13: a literal block without any of the three classes, in the language
    of the document, is closed to one code cell without outputs that holds
    its text without trailing blank lines, and the translator is outside
    the code block afterwards. *)
Theorem plain_block_renders_code (cls : translator_class) (a : attributes)
    (texts : list string) (self : translator) :
  GetGeneratorFromClasses (classes a) = CODE ->
  block_language a self = document_language self ->
  exists formatted self' before,
    strip_blank_lines_in_end_of_block (Str.join "" texts) = Ok formatted
    /\ walkabout cls (Element literal_block a (map Text texts)) self = Ok self'
    /\ cells self' = before ++ [new_code_cell formatted]
    /\ in_code_block self' = false
    /\ (before = cells self
        \/ exists md, cls = JupyterTranslator
                      /\ before = cells self ++ [new_markdown_cell md]).
Proof.
  intros Hkind Hlang.
  destruct (literal_block_walk cls a texts self)
    as (s2 & Hwalk & Hty & Hnl & Hcl & Hcells & _).
  destruct (strip_blank_lines_in_end_of_block_spec (Str.join "" texts))
    as (kept & blanks & _ & Hstrip).
  assert (effective_kind a self = CODE) as Hk.
  { unfold effective_kind. destruct (decide _); [contradiction|exact Hkind]. }
  rewrite Hk in Hty.
  exists (Str.join nl kept). eexists. exists (cells s2).
  split; [exact Hstrip|]. split.
  - rewrite Hwalk. unfold Code.depart_literal_block.
    rewrite Hcl, Hstrip, bind_Ok, Hty. reflexivity.
  - simpl. split; [reflexivity|]. split; [reflexivity|].
    destruct Hcells as [->|(md & -> & ->)]; [left; reflexivity|].
    right. exists md. split; reflexivity.
Qed.

(** X13, witness: an untagged block in a python3 document. *)
Lemma plain_block_renders_code_witness :
  exists formatted self' before,
    strip_blank_lines_in_end_of_block (Str.join "" ["x = 1"]) = Ok formatted
    /\ walkabout JupyterCodeTranslator
         (Element literal_block no_attributes (map Text ["x = 1"]))
         (set_lang (Some "python3") fresh) = Ok self'
    /\ cells self' = before ++ [new_code_cell formatted]
    /\ in_code_block self' = false
    /\ (before = []
        \/ exists md, JupyterCodeTranslator = JupyterTranslator
                      /\ before = [] ++ [new_markdown_cell md]).
Proof.
  apply (plain_block_renders_code JupyterCodeTranslator no_attributes
           ["x = 1"] (set_lang (Some "python3") fresh)).
  - reflexivity.
  - reflexivity.
Defined.

(** ** Output blocks after a cell *)

(** X14: an output block that is closed when the cell list is not empty
    never raises.  After a code cell without output its text becomes the
    one stream output of that cell and nothing is reported; after a code
    cell that has an output, and after a cell of another type, the cells
    stay as they are and one warning is reported. *)
Theorem output_block_rules (self : translator) (before : list cell) (c : cell) :
  output_cell_type self = Some CODE_OUTPUT ->
  cells self = before ++ [c] ->
  exists formatted self',
    strip_blank_lines_in_end_of_block (Str.join "" (code_lines self))
      = Ok formatted
    /\ Code.depart_literal_block self = Ok self'
    /\ in_code_block self' = false
    /\ match c with
       | code_cell src [] =>
           cells self'
             = before ++ [code_cell src [new_output "stream" formatted]]
           /\ reported self' = reported self
       | code_cell _ (_ :: _) =>
           cells self' = cells self
           /\ reported self' = reported self ++ [WarnMultipleOutputs]
       | _ =>
           cells self' = cells self
           /\ reported self' = reported self ++ [WarnOutputAfter (cell_type c)]
       end.
Proof.
  intros Hty Hcells.
  destruct (depart_output_block self Hty) as (f & Hstrip & Hdep).
  exists f. unfold attach_output in Hdep.
  rewrite Hcells, unsnoc_snoc in Hdep.
  destruct c as [src [|o outs]|src|src]; eexists;
    (split; [exact Hstrip|]); (split; [exact Hdep|]);
    repeat split.
Qed.

(** X14, witness: an output block after a code cell. *)
Lemma output_block_rules_witness :
  exists formatted self',
    strip_blank_lines_in_end_of_block (Str.join "" ["1"]) = Ok formatted
    /\ Code.depart_literal_block
         (set_output_cell_type (Some CODE_OUTPUT)
            (set_code_lines ["1"] (set_cells [new_code_cell "x"] fresh)))
       = Ok self'
    /\ in_code_block self' = false
    /\ cells self' = [] ++ [code_cell "x" [new_output "stream" formatted]]
       /\ reported self' = [].
Proof.
  apply (output_block_rules
           (set_output_cell_type (Some CODE_OUTPUT)
              (set_code_lines ["1"] (set_cells [new_code_cell "x"] fresh)))
           [] (new_code_cell "x")).
  - reflexivity.
  - reflexivity.
Defined.

Lemma block_language_frame a s s' :
  lang s' = lang s -> conf s' = conf s ->
  block_language a s' = block_language a s
  /\ document_language s' = document_language s.
Proof.
  unfold block_language, document_language. intros -> ->. split; reflexivity.
Qed.

(** X15: a literal block without classes followed by a literal block of
    class output, both in the language of the document and with text
    children, give one code cell that holds the text of the first and, as
    its single stream output, the text of the second; nothing is
    reported.  This holds in both translators: the flush at the second
    block finds a blank buffer. *)
Theorem code_block_then_output_block (cls : translator_class)
    (a1 a2 : attributes) (texts1 texts2 : list string) (self : translator) :
  GetGeneratorFromClasses (classes a1) = CODE ->
  GetGeneratorFromClasses (classes a2) = CODE_OUTPUT ->
  block_language a1 self = document_language self ->
  block_language a2 self = document_language self ->
  exists source text self' before,
    strip_blank_lines_in_end_of_block (Str.join "" texts1) = Ok source
    /\ strip_blank_lines_in_end_of_block (Str.join "" texts2) = Ok text
    /\ walk_children cls
         [Element literal_block a1 (map Text texts1);
          Element literal_block a2 (map Text texts2)] self = Ok self'
    /\ cells self' = before ++ [code_cell source [new_output "stream" text]]
    /\ reported self' = reported self
    /\ (before = cells self
        \/ exists md, cls = JupyterTranslator
                      /\ before = cells self ++ [new_markdown_cell md]).
Proof.
  intros Hk1 Hk2 Hl1 Hl2.
  destruct (literal_block_walk cls a1 texts1 self)
    as (s2 & Hwalk1 & Hty1 & Hnl1 & Hcl1 & Hcells1 & Hlang1 & Hconf1 & Hrep1
        & Hblank1 & _).
  destruct (strip_blank_lines_in_end_of_block_spec (Str.join "" texts1))
    as (kept1 & blanks1 & _ & Hstrip1).
  destruct (strip_blank_lines_in_end_of_block_spec (Str.join "" texts2))
    as (kept2 & blanks2 & _ & Hstrip2).
  assert (effective_kind a1 self = CODE) as Hek1.
  { unfold effective_kind. destruct (decide _); [contradiction|exact Hk1]. }
  rewrite Hek1 in Hty1.
  set (s3 := set_in_code_block false
               (set_cells (cells s2 ++ [new_code_cell (Str.join nl kept1)]) s2)).
  assert (walkabout cls (Element literal_block a1 (map Text texts1)) self
          = Ok s3) as Hw1.
  { rewrite Hwalk1. unfold Code.depart_literal_block.
    rewrite Hcl1, Hstrip1, bind_Ok, Hty1. reflexivity. }
  destruct (literal_block_walk cls a2 texts2 s3)
    as (s4 & Hwalk2 & Hty2 & Hnl2 & Hcl2 & Hcells4 & Hlang2 & Hconf2 & Hrep2
        & _ & Hcells2).
  destruct (block_language_frame a2 self s3) as [Hbl Hdl];
    [exact Hlang1|exact Hconf1|].
  assert (effective_kind a2 s3 = CODE_OUTPUT) as Hek2.
  { unfold effective_kind. rewrite Hbl, Hdl.
    destruct (decide _); [contradiction|exact Hk2]. }
  rewrite Hek2 in Hty2.
  assert (cells s4 = cells s2 ++ [new_code_cell (Str.join nl kept1)]) as Hc4.
  { destruct cls.
    - destruct Hcells4 as [Hc|(md & Habs & _)]; [exact Hc|discriminate].
    - apply Hcells2. apply Hblank1. reflexivity. }
  destruct (depart_output_block s4 Hty2) as (f & Hf & Hdep).
  rewrite Hcl2, Hstrip2 in Hf. injection Hf as <-.
  unfold attach_output in Hdep. rewrite Hc4, unsnoc_snoc in Hdep.
  exists (Str.join nl kept1), (Str.join nl kept2).
  eexists. exists (cells s2).
  split; [exact Hstrip1|]. split; [exact Hstrip2|]. split.
  { rewrite walk_children_cons, Hw1, bind_Ok.
    rewrite walk_children_cons, Hwalk2, Hdep. reflexivity. }
  simpl. split; [reflexivity|]. split.
  - rewrite Hrep2. subst s3. simpl. exact Hrep1.
  - destruct Hcells1 as [->|(md & -> & ->)]; [left; reflexivity|].
    right. exists md. split; reflexivity.
Qed.

(** X15, witness: a block and its output in a python3 document. *)
Lemma code_block_then_output_block_witness :
  exists source text self' before,
    strip_blank_lines_in_end_of_block (Str.join "" ["1 + 1"]) = Ok source
    /\ strip_blank_lines_in_end_of_block (Str.join "" ["2"]) = Ok text
    /\ walk_children JupyterTranslator
         [Element literal_block no_attributes (map Text ["1 + 1"]);
          Element literal_block (with_classes ["output"]) (map Text ["2"])]
         (set_lang (Some "python3") fresh) = Ok self'
    /\ cells self' = before ++ [code_cell source [new_output "stream" text]]
    /\ reported self' = []
    /\ (before = []
        \/ exists md, JupyterTranslator = JupyterTranslator
                      /\ before = [] ++ [new_markdown_cell md]).
Proof.
  apply (code_block_then_output_block JupyterTranslator no_attributes
           (with_classes ["output"]) ["1 + 1"] ["2"]
           (set_lang (Some "python3") fresh)); reflexivity.
Defined.

(** ** The minimal translator and prose *)

Lemma code_dispatch_visit_trace k a s s' :
  plain_kind k = true ->
  dispatch_visit JupyterCodeTranslator k a s = Ok s' ->
  prose_trace s' = prose_trace s.
Proof.
  intros Hk H. destruct k; simpl in H; try discriminate Hk;
    unfold_handlers H; simpl in H; res_inv; reflexivity.
Qed.

Lemma code_dispatch_departure_trace k a s s' :
  plain_kind k = true ->
  dispatch_departure JupyterCodeTranslator k a s = Ok s' ->
  prose_trace s' = prose_trace s.
Proof.
  intros Hk H. destruct k; simpl in H; try discriminate Hk;
    injection H as <-; reflexivity.
Qed.

Lemma code_walk_children_trace children :
  Forall (fun n => plain n = true -> forall s s',
            in_code_block s = false ->
            walkabout JupyterCodeTranslator n s = Ok s' ->
            prose_trace s' = prose_trace s) children ->
  forallb plain children = true ->
  forall s s',
    in_code_block s = false ->
    walk_children JupyterCodeTranslator children s = Ok s' ->
    prose_trace s' = prose_trace s.
Proof.
  induction 1 as [|child children Hchild _ IH]; intros Hplain s s' Hin H.
  - injection H as <-. reflexivity.
  - simpl in Hplain. apply andb_prop in Hplain as [Hp Hps].
    rewrite walk_children_cons in H.
    destruct (walkabout JupyterCodeTranslator child s) as [s1|] eqn:E;
      [|discriminate].
    rewrite bind_Ok in H. apply (Hchild Hp _ _ Hin) in E.
    assert (in_code_block s1 = false) as Hin1.
    { unfold prose_trace in E. congruence. }
    rewrite (IH Hps _ _ Hin1 H). exact E.
Qed.

(** X16: in the minimal translator, outside a literal block, the walk over
    a tree without literal block and document leaves no trace of it: the
    cells, the code buffer and the markdown buffer are what they were, and
    the translator is still outside a literal block. *)
Theorem minimal_translator_ignores_prose (n : node) (self self' : translator) :
  plain n = true ->
  in_code_block self = false ->
  walkabout JupyterCodeTranslator n self = Ok self' ->
  cells self' = cells self
  /\ code_lines self' = code_lines self
  /\ markdown_lines self' = markdown_lines self
  /\ in_code_block self' = false.
Proof.
  intros Hplain Hin H.
  enough (prose_trace self' = prose_trace self) as Ht.
  { unfold prose_trace in Ht. injection Ht as -> -> -> ->. auto. }
  revert self self' Hplain Hin H.
  induction n as [text|k a children IH] using node_ind';
    intros self self' Hplain Hin H.
  - simpl in H. unfold Code.visit_Text in H. rewrite Hin in H.
    simpl in H. injection H as <-. reflexivity.
  - simpl in Hplain. apply andb_prop in Hplain as [Hk Hps].
    rewrite walkabout_element in H.
    destruct (dispatch_visit JupyterCodeTranslator k a self) as [s1|] eqn:Ev;
      [|discriminate].
    rewrite bind_Ok in H.
    destruct (walk_children JupyterCodeTranslator children s1) as [s2|] eqn:Ec;
      [|discriminate].
    rewrite bind_Ok in H.
    apply (code_dispatch_visit_trace _ _ _ _ Hk) in Ev.
    assert (in_code_block s1 = false) as Hin1.
    { unfold prose_trace in Ev. congruence. }
    assert (Forall (fun n => plain n = true -> forall s s',
                      in_code_block s = false ->
                      walkabout JupyterCodeTranslator n s = Ok s' ->
                      prose_trace s' = prose_trace s) children) as IH'.
    { eapply Forall_impl; [exact IH|]. intros n Hn Hp s s' Hi Hw.
      exact (Hn s s' Hp Hi Hw). }
    apply (code_walk_children_trace _ IH' Hps _ _ Hin1) in Ec.
    apply (code_dispatch_departure_trace _ _ _ _ Hk) in H.
    congruence.
Qed.

(** X16, witness: a section with a title and a paragraph, walked from a
    state with one code cell: the state comes back as it was. *)
Lemma minimal_translator_ignores_prose_witness :
  cells (set_cells [new_code_cell "x = 1"] fresh)
    = cells (set_cells [new_code_cell "x = 1"] fresh)
  /\ code_lines (set_cells [new_code_cell "x = 1"] fresh)
      = code_lines (set_cells [new_code_cell "x = 1"] fresh)
  /\ markdown_lines (set_cells [new_code_cell "x = 1"] fresh)
      = markdown_lines (set_cells [new_code_cell "x = 1"] fresh)
  /\ in_code_block (set_cells [new_code_cell "x = 1"] fresh) = false.
Proof.
  apply (minimal_translator_ignores_prose
           (Element section no_attributes
              [Element title no_attributes [Text "Intro"];
               Element paragraph no_attributes [Text "Hello"]])
           (set_cells [new_code_cell "x = 1"] fresh)
           (set_cells [new_code_cell "x = 1"] fresh)).
  - reflexivity.
  - reflexivity.
  - reflexivity.
Defined.

(** ** Cells are only added *)

Lemma cells_extend_refl s : cells_extend s s.
Proof. exists []. rewrite app_nil_r. reflexivity. Qed.

Lemma cells_extend_trans s s1 s2 :
  cells_extend s s1 -> cells_extend s1 s2 -> cells_extend s s2.
Proof.
  intros [a1 H1] [a2 H2]. exists (a1 ++ a2).
  rewrite H2, H1, app_assoc. reflexivity.
Qed.

Lemma cells_extend_frame s s0 t s' :
  cells_extend s0 t -> cells s0 = cells s -> cells s' = cells t ->
  cells_extend s s'.
Proof.
  intros [added H] H0 H'. exists added. rewrite H', H, H0. reflexivity.
Qed.

Lemma add_markdown_cell_extend s s' :
  Full.add_markdown_cell s = Ok s' -> cells_extend s s'.
Proof.
  destruct (add_markdown_cell_spec s) as (kept & blanks & _ & ->).
  intros [= <-]. destruct kept as [|k kept]; [apply cells_extend_refl|].
  eexists. simpl. rewrite map_app. reflexivity.
Qed.

Lemma visit_literal_block_extend a s s' :
  Code.visit_literal_block a s = Ok s' -> cells s' = cells s.
Proof.
  destruct (visit_literal_block_result a s) as (s1 & -> & H).
  intros [= <-]. apply H.
Qed.

Ltac extend_solve :=
  match goal with
  | E : Full.add_markdown_cell ?s0 = Ok ?t |- cells_extend ?s _ =>
      apply (cells_extend_frame s s0 t _ (add_markdown_cell_extend _ _ E));
      reflexivity
  | |- cells_extend _ _ => exists []; simpl; rewrite app_nil_r; reflexivity
  end.

(** Closing a literal block appends a cell, adds an output to the last
    cell, or leaves the cells alone. *)
Lemma depart_literal_block_extend s s' :
  Code.depart_literal_block s = Ok s' -> cells_extend s s'.
Proof.
  unfold Code.depart_literal_block, from_option. intros H. simpl in H.
  res_inv.
  - (* an output attached to the last cell *)
    match goal with
    | E : PyList.unsnoc (cells s) = Some _ |- _ => apply unsnoc_Some in E
    end.
    exists []. simpl. rewrite app_nil_r.
    match goal with E : cells s = _ |- _ => rewrite E end.
    rewrite !map_app. reflexivity.
  - extend_solve.
  - extend_solve.
  - extend_solve.
  - eexists. simpl. rewrite map_app. reflexivity.
Qed.

Lemma code_visit_literal_block_extend a s s' :
  Code.visit_literal_block a s = Ok s' -> cells_extend s s'.
Proof.
  intros H. apply visit_literal_block_extend in H.
  exists []. rewrite H, app_nil_r. reflexivity.
Qed.

Lemma full_visit_literal_block_extend a s s' :
  Full.visit_literal_block a s = Ok s' -> cells_extend s s'.
Proof.
  unfold Full.visit_literal_block. intros H.
  destruct (Code.visit_literal_block a s) as [s1|] eqn:E; [|discriminate].
  rewrite bind_Ok in H. apply visit_literal_block_extend in E.
  destruct (in_code_block s1).
  - apply add_markdown_cell_extend in H.
    apply (cells_extend_frame s s1 s' s' H E eq_refl).
  - injection H as <-. exists []. rewrite E, app_nil_r. reflexivity.
Qed.

Lemma depart_reference_extend a s s' :
  Full.depart_reference a s = Ok s' -> cells_extend s s'.
Proof.
  unfold Full.depart_reference. intros [= <-].
  destruct (in_topic s); [extend_solve|].
  destruct (refuri a); [destruct (decide _)|destruct (refid a)]; extend_solve.
Qed.

(** No visit and no departure of a node other than the document removes,
    reorders or retypes a cell. *)
Lemma dispatch_visit_extend cls k a s s' :
  k <> document ->
  dispatch_visit cls k a s = Ok s' -> cells_extend s s'.
Proof.
  intros Hk H.
  destruct cls, k; simpl in H; try congruence;
    try (apply code_visit_literal_block_extend in H; exact H);
    try (apply full_visit_literal_block_extend in H; exact H);
    unfold_handlers H; simpl in H; res_inv; extend_solve.
Qed.

Lemma dispatch_departure_extend cls k a s s' :
  k <> document ->
  dispatch_departure cls k a s = Ok s' -> cells_extend s s'.
Proof.
  intros Hk H.
  destruct cls, k; simpl in H; try congruence;
    try (apply depart_literal_block_extend in H; exact H);
    try (apply depart_reference_extend in H; exact H);
    unfold_handlers H; simpl in H; res_inv; goal_cases; extend_solve.
Qed.

Lemma walk_children_extend cls children :
  Forall (fun n => no_document n = true -> forall s s',
            walkabout cls n s = Ok s' -> cells_extend s s') children ->
  forallb no_document children = true ->
  forall s s',
    walk_children cls children s = Ok s' -> cells_extend s s'.
Proof.
  induction 1 as [|child children Hchild _ IH]; intros Hnd s s' H.
  - injection H as <-. apply cells_extend_refl.
  - simpl in Hnd. apply andb_prop in Hnd as [Hn Hns].
    rewrite walk_children_cons in H.
    destruct (walkabout cls child s) as [s1|] eqn:E; [|discriminate].
    rewrite bind_Ok in H.
    exact (cells_extend_trans _ _ _ (Hchild Hn _ _ E) (IH Hns _ _ H)).
Qed.

Lemma no_document_element k a children :
  no_document (Element k a children) = true ->
  k <> document /\ forallb no_document children = true.
Proof.
  simpl. destruct k; try discriminate; intros H; split; congruence.
Qed.

(** X17: in both translators, whenever the walk over a tree without a
    document node completes, the cells that were there before are still
    the first cells, in the same order and with the same type and source;
    cells are only added behind them, and only the outputs of an existing
    cell can change. *)
Theorem cells_are_only_added (cls : translator_class) (n : node)
    (self self' : translator) :
  no_document n = true ->
  walkabout cls n self = Ok self' ->
  exists added,
    map type_and_source (cells self')
      = map type_and_source (cells self) ++ added.
Proof.
  intros Hnd H. change (cells_extend self self').
  revert self self' Hnd H.
  induction n as [text|k a children IH] using node_ind';
    intros self self' Hnd H.
  - destruct cls; simpl in H;
      unfold Code.visit_Text, Full.visit_Text in H;
      destruct (in_code_block self); injection H as <-; extend_solve.
  - apply no_document_element in Hnd as [Hk Hns].
    rewrite walkabout_element in H.
    destruct (dispatch_visit cls k a self) as [s1|] eqn:Ev; [|discriminate].
    rewrite bind_Ok in H.
    destruct (walk_children cls children s1) as [s2|] eqn:Ec; [|discriminate].
    rewrite bind_Ok in H.
    apply (dispatch_visit_extend _ _ _ _ _ Hk) in Ev.
    assert (Forall (fun n => no_document n = true -> forall s s',
                      walkabout cls n s = Ok s' -> cells_extend s s') children)
      as IH'.
    { eapply Forall_impl; [exact IH|]. intros n Hn Hp s s' Hw.
      exact (Hn s s' Hp Hw). }
    apply (walk_children_extend _ _ IH' Hns) in Ec.
    apply (dispatch_departure_extend _ _ _ _ _ Hk) in H.
    exact (cells_extend_trans _ _ _ (cells_extend_trans _ _ _ Ev Ec) H).
Qed.

(** X17, witness: the walk over a section with nested lists. *)
Lemma cells_are_only_added_witness :
  exists added,
    map type_and_source (cells after_nested_document)
      = map type_and_source (cells fresh) ++ added.
Proof.
  apply (cells_are_only_added JupyterTranslator nested_document fresh
           after_nested_document).
  - reflexivity.
  - vm_compute. reflexivity.
Defined.

(** ** Header cells in their order *)

(** X18: [depart_document] never raises.  With header cells for the final
    language, they are inserted in their order: behind the first cell when
    metadata is written (the first cell is the metadata cell when there is
    no welcome block), in front of all cells otherwise.  With headers
    configured but none for the final language the cells stay as they are
    and the invalid-headers warning is reported; with no headers
    configured the cells stay as they are.  The language register ends as
    the language that was looked up. *)
Theorem depart_document_headers (self : translator) :
  exists self',
    Code.depart_document self = Ok self'
    /\ lang self' = Some (final_lang self)
    /\ match jupyter_headers (conf self) with
       | None => cells self' = cells self
       | Some headers =>
           match headers !! final_lang self with
           | None =>
               cells self' = cells self
               /\ In WarnInvalidHeaders (reported self')
           | Some hs =>
               if jupyter_write_metadata (conf self) then
                 forall m rest,
                   cells self = m :: rest -> cells self' = m :: hs ++ rest
               else cells self' = hs ++ cells self
           end
       end.
Proof.
  eexists. split; [reflexivity|]. split.
  { unfold Code.depart_document, final_lang.
    destruct self as [c l nlg cs]; simpl.
    destruct (truthy l) eqn:El; [destruct l; [|discriminate]|];
      simpl; goal_cases; reflexivity. }
  unfold final_lang.
  destruct self as [c l nlg cs]; simpl.
  destruct (truthy l) eqn:El; simpl.
  - destruct (jupyter_headers c) as [headers|]; simpl.
    + destruct (headers !! default default_lang l) as [hs|]; simpl.
      * destruct (jupyter_kernels c) as [kernels|]; simpl;
          [destruct (kernels !! default default_lang l ≫= entry_kernelspec)|];
          simpl; destruct (jupyter_write_metadata c);
          rewrite ?insert_headers_at_0; try reflexivity;
          intros m rest ->; rewrite insert_headers_at_1; reflexivity.
      * destruct (jupyter_kernels c) as [kernels|]; simpl;
          [destruct (kernels !! default default_lang l ≫= entry_kernelspec)|];
          simpl; (split; [reflexivity|]);
          rewrite ?in_app_iff; simpl; auto.
    + destruct (jupyter_kernels c) as [kernels|]; simpl;
        [destruct (kernels !! default default_lang l ≫= entry_kernelspec)|];
        reflexivity.
  - destruct (jupyter_headers c) as [headers|]; simpl.
    + destruct (headers !! default_lang) as [hs|]; simpl.
      * destruct (jupyter_kernels c) as [kernels|]; simpl;
          [destruct (kernels !! default_lang ≫= entry_kernelspec)|];
          simpl; destruct (jupyter_write_metadata c);
          rewrite ?insert_headers_at_0; try reflexivity;
          intros m rest ->; rewrite insert_headers_at_1; reflexivity.
      * destruct (jupyter_kernels c) as [kernels|]; simpl;
          [destruct (kernels !! default_lang ≫= entry_kernelspec)|];
          simpl; (split; [reflexivity|]);
          rewrite ?in_app_iff; simpl; auto.
    + destruct (jupyter_kernels c) as [kernels|]; simpl;
        [destruct (kernels !! default_lang ≫= entry_kernelspec)|];
        reflexivity.
Qed.

(** ** The language register *)

Lemma same_lang_refl s : same_lang s s.
Proof. split; reflexivity. Qed.

Lemma same_lang_frame s s0 t s' :
  same_lang s0 t -> same_lang s s0 -> same_lang t s' -> same_lang s s'.
Proof. unfold same_lang. intros [? ?] [? ?] [? ?]. split; congruence. Qed.

Lemma add_markdown_cell_same_lang s s' :
  Full.add_markdown_cell s = Ok s' -> same_lang s s'.
Proof.
  destruct (add_markdown_cell_spec s) as (kept & blanks & _ & ->).
  intros [= <-]. destruct kept; split; reflexivity.
Qed.

Ltac lang_solve :=
  match goal with
  | E : Full.add_markdown_cell ?s0 = Ok ?t |- same_lang ?s _ =>
      apply (same_lang_frame s s0 t _ (add_markdown_cell_same_lang _ _ E));
      split; reflexivity
  | |- same_lang _ _ => split; reflexivity
  end.

Lemma visit_literal_block_same_lang cls a s s' :
  dispatch_visit cls literal_block a s = Ok s' -> same_lang s s'.
Proof.
  destruct (visit_literal_block_result a s)
    as (s1 & Hv & _ & _ & _ & _ & _ & _ & Hlang & Hconf & _).
  destruct cls; simpl.
  - rewrite Hv. intros [= <-]. split; assumption.
  - unfold Full.visit_literal_block. rewrite Hv, bind_Ok.
    destruct (in_code_block s1).
    + intros H. apply add_markdown_cell_same_lang in H as [Hc Hl].
      split; congruence.
    + intros [= <-]. split; assumption.
Qed.

Lemma depart_literal_block_same_lang s s' :
  Code.depart_literal_block s = Ok s' -> same_lang s s'.
Proof.
  unfold Code.depart_literal_block, from_option. intros H. simpl in H.
  res_inv; lang_solve.
Qed.

Lemma depart_reference_same_lang a s s' :
  Full.depart_reference a s = Ok s' -> same_lang s s'.
Proof.
  unfold Full.depart_reference. intros [= <-].
  destruct (in_topic s); [lang_solve|].
  destruct (refuri a); [destruct (decide _)|destruct (refid a)]; lang_solve.
Qed.

(** Only the document node and the highlightlang node assign to the
    language register; nothing assigns to the config. *)
Lemma dispatch_visit_same_lang cls k a s s' :
  k <> document -> k <> highlightlang ->
  dispatch_visit cls k a s = Ok s' -> same_lang s s'.
Proof.
  intros Hd Hh H.
  destruct cls, k; try congruence;
    try (apply visit_literal_block_same_lang in H; exact H);
    simpl in H; unfold_handlers H; simpl in H; res_inv; lang_solve.
Qed.

Lemma dispatch_departure_same_lang cls k a s s' :
  k <> document ->
  dispatch_departure cls k a s = Ok s' -> same_lang s s'.
Proof.
  intros Hd H.
  destruct cls, k; try congruence; simpl in H;
    try (apply depart_literal_block_same_lang in H; exact H);
    try (apply depart_reference_same_lang in H; exact H);
    unfold_handlers H; simpl in H; res_inv; goal_cases; lang_solve.
Qed.

Lemma known_lang_same s s' : same_lang s s' -> known_lang s -> known_lang s'.
Proof.
  intros [Hc Hl] (l & Hlang & Hk). exists l. rewrite Hl, Hc. auto.
Qed.

Lemma visit_highlightlang_known a s s' :
  Code.visit_highlightlang a s = Ok s' -> conf s' = conf s /\ known_lang s'.
Proof.
  unfold Code.visit_highlightlang, from_option. intros H. simpl in H.
  destruct (lang_attr a) as [l|]; [|discriminate]. simpl in H.
  destruct (jupyter_kernels (conf s)) as [kernels|] eqn:Ek; [|discriminate].
  simpl in H. destruct (decide _) as [Hkey|_]; injection H as <-.
  - split; [reflexivity|]. eexists. split; [reflexivity|].
    right. exists kernels. split; [exact Ek|exact Hkey].
  - split; [reflexivity|]. eexists. split; [reflexivity|]. left. reflexivity.
Qed.

Lemma depart_document_known cls a s s' :
  dispatch_departure cls document a s = Ok s' ->
  conf s' = conf s /\ (known_lang s -> known_lang s')
  /\ (lang s = None -> known_lang s').
Proof.
  assert (forall t t', Code.depart_document t = Ok t' ->
            conf t' = conf t /\ (known_lang t -> known_lang t')
            /\ (lang t = None -> known_lang t')) as Hcode.
  { intros t t' H.
    destruct (depart_document_cells t) as (t'' & Ht & _).
    assert (conf t' = conf t
            /\ lang t' = Some (final_lang t)) as [Hc Hl].
    { unfold Code.depart_document, final_lang in *.
      destruct t as [c l]; simpl in *.
      destruct (truthy l) eqn:El; [destruct l; [|discriminate]|];
        simpl in *; injection H as <-; goal_cases; split; reflexivity. }
    split; [exact Hc|]. split.
    - intros (l & Hlang & Hk). unfold final_lang in Hl. rewrite Hlang in Hl.
      simpl in Hl. destruct l as [|ch l]; simpl in Hl.
      + eexists. split; [exact Hl|]. left. reflexivity.
      + exists (String ch l). rewrite Hc. auto.
    - intros Hnone. unfold final_lang in Hl. rewrite Hnone in Hl. simpl in Hl.
      eexists. split; [exact Hl|]. left. reflexivity. }
  destruct cls; simpl; [apply Hcode|].
  unfold Full.depart_document. intros H.
  destruct (Full.add_markdown_cell s) as [s1|] eqn:E; [|discriminate].
  rewrite bind_Ok in H. apply add_markdown_cell_same_lang in E as [Ec El].
  apply Hcode in H as (Hc & Hk & Hn). split; [congruence|]. split.
  - intros Hs. apply Hk. apply (known_lang_same s s1); [split; assumption|exact Hs].
  - intros Hs. apply Hn. congruence.
Qed.

Lemma walk_children_known cls children :
  Forall (fun n => forall s s', walkabout cls n s = Ok s' ->
            conf s' = conf s /\ (known_lang s -> known_lang s')) children ->
  forall s s',
    walk_children cls children s = Ok s' ->
    conf s' = conf s /\ (known_lang s -> known_lang s').
Proof.
  induction 1 as [|child children Hchild _ IH]; intros s s' H.
  - injection H as <-. auto.
  - rewrite walk_children_cons in H.
    destruct (walkabout cls child s) as [s1|] eqn:E; [|discriminate].
    rewrite bind_Ok in H.
    destruct (Hchild _ _ E) as [Hc1 Hk1]. destruct (IH _ _ H) as [Hc2 Hk2].
    split; [congruence|auto].
Qed.

(** Every completed walk leaves the config alone and keeps a known
    language known. *)
Lemma walkabout_known cls n :
  forall s s', walkabout cls n s = Ok s' ->
    conf s' = conf s /\ (known_lang s -> known_lang s').
Proof.
  induction n as [text|k a children IH] using node_ind'; intros s s' H.
  - assert (same_lang s s') as [Hc Hl].
    { destruct cls; simpl in H;
        unfold Code.visit_Text, Full.visit_Text in H;
        destruct (in_code_block s); injection H as <-; split; reflexivity. }
    split; [exact Hc|]. apply known_lang_same. split; assumption.
  - rewrite walkabout_element in H.
    destruct (dispatch_visit cls k a s) as [s1|] eqn:Ev; [|discriminate].
    rewrite bind_Ok in H.
    destruct (walk_children cls children s1) as [s2|] eqn:Ec; [|discriminate].
    rewrite bind_Ok in H.
    destruct (walk_children_known _ _ IH _ _ Ec) as [Hc2 Hk2].
    assert (conf s1 = conf s /\ (known_lang s -> known_lang s1)) as [Hc1 Hk1].
    { destruct k;
        try (apply dispatch_visit_same_lang in Ev; [|discriminate|discriminate];
             split; [apply Ev|apply known_lang_same, Ev]).
      - destruct cls; simpl in Ev; injection Ev as <-;
          (split; [reflexivity|]); intros _; eexists;
          (split; [reflexivity|]); left; reflexivity.
      - assert (Code.visit_highlightlang a s = Ok s1) as Hh
            by (destruct cls; exact Ev).
        apply visit_highlightlang_known in Hh as [Hc Hk]. auto. }
    assert (conf s' = conf s2 /\ (known_lang s2 -> known_lang s')) as [Hc3 Hk3].
    { destruct k;
        try (apply dispatch_departure_same_lang in H; [|discriminate];
             split; [apply H|apply known_lang_same, H]).
      apply depart_document_known in H as (Hc & Hk & _). auto. }
    split; [congruence|auto].
Qed.

(** X19: when the walk over a document completes, in either translator and
    from any state, the config is what it was and the language register
    holds the default language or a key of jupyter_kernels: a language
    that has no kernel never stays in the register. *)
Theorem document_language_is_known (cls : translator_class) (a : attributes)
    (children : list node) (self self' : translator) :
  walkabout cls (Element document a children) self = Ok self' ->
  conf self' = conf self /\ known_lang self'.
Proof.
  intros H. rewrite walkabout_element in H.
  destruct (dispatch_visit cls document a self) as [s1|] eqn:Ev; [|discriminate].
  rewrite bind_Ok in H.
  destruct (walk_children cls children s1) as [s2|] eqn:Ec; [|discriminate].
  rewrite bind_Ok in H.
  assert (conf s1 = conf self /\ known_lang s1) as [Hc1 Hk1].
  { destruct cls; simpl in Ev; injection Ev as <-;
      (split; [reflexivity|]); eexists;
      (split; [reflexivity|]); left; reflexivity. }
  assert (Forall (fun n => forall s s', walkabout cls n s = Ok s' ->
                    conf s' = conf s /\ (known_lang s -> known_lang s'))
            children) as Hall.
  { apply Forall_forall. intros n _. apply walkabout_known. }
  destruct (walk_children_known _ _ Hall _ _ Ec) as [Hc2 Hk2].
  apply depart_document_known in H as (Hc3 & Hk3 & _).
  split; [congruence|auto].
Qed.

(** X19, witness: a document that switches to julia. *)
Lemma document_language_is_known_witness :
  conf after_julia_document = conf (initial kernel_settings [])
  /\ known_lang after_julia_document.
Proof.
  apply (document_language_is_known JupyterTranslator no_attributes
           [Element highlightlang
              {| classes := []; language := None; lang_attr := Some "julia";
                 uri := None; latex := None; ids := Some []; number := None;
                 refuri := None; internal := None; refid := None |} [];
            Element literal_block no_attributes [Text "x = 1"]]
           (initial kernel_settings []) after_julia_document).
  vm_compute. reflexivity.
Defined.

(** ** Re-indenting a list item *)

Lemma join_empty_cons x l : Str.join "" (x :: l) = x +:+ Str.join "" l.
Proof.
  destruct l as [|y l]; [symmetry; apply append_empty_r|].
  rewrite join_cons2, append_nil. reflexivity.
Qed.

Lemma join_empty_app l1 l2 :
  Str.join "" (l1 ++ l2) = Str.join "" l1 +:+ Str.join "" l2.
Proof.
  induction l1 as [|x l1 IH]; [reflexivity|].
  change ((x :: l1) ++ l2) with (x :: (l1 ++ l2)).
  rewrite !join_empty_cons, IH, append_assoc. reflexivity.
Qed.

(** Replacing one character works fragment by fragment. *)
Lemma replace_append c by_ s t :
  Str.replace c by_ (s +:+ t) = Str.replace c by_ s +:+ Str.replace c by_ t.
Proof.
  induction s as [|d s IH]; [reflexivity|].
  rewrite append_cons. simpl. rewrite IH.
  destruct (Ascii.eqb d c); [rewrite append_assoc|rewrite append_cons];
    reflexivity.
Qed.

Lemma join_map_replace c by_ l :
  Str.join "" (map (Str.replace c by_) l) = Str.replace c by_ (Str.join "" l).
Proof.
  induction l as [|x l IH]; [reflexivity|].
  change (map (Str.replace c by_) (x :: l))
    with (Str.replace c by_ x :: map (Str.replace c by_) l).
  rewrite !join_empty_cons, IH, replace_append. reflexivity.
Qed.

Lemma str_unsnoc_Some s i c :
  Str.unsnoc s = Some (i, c) -> s = i +:+ String c "".
Proof.
  revert i. induction s as [|d s IH]; intros i; simpl; [discriminate|].
  destruct (Str.unsnoc s) as [[i' c']|] eqn:E.
  - intros [= <- <-]. rewrite append_cons. f_equal. apply IH. reflexivity.
  - intros [= <- <-]. destruct s as [|e s]; [reflexivity|].
    simpl in E. destruct (Str.unsnoc s) as [[? ?]|]; discriminate.
Qed.

Lemma str_unsnoc_nonempty s : s <> "" -> exists i c, Str.unsnoc s = Some (i, c).
Proof.
  destruct s as [|d s]; [congruence|]. intros _. simpl.
  destruct (Str.unsnoc s) as [[i c]|]; eauto.
Qed.

(** X20: preconditions: the stack of item starts is not empty and its top
    is a position inside the markdown buffer (the fragments in front of it
    are [head], at least one fragment stands behind it), the stack of
    indents is not empty (its top is [width]), and the last fragment of the
    buffer is not the empty string.  Then closing the list item does not
    raise.  The fragments in front of the item stay as they are, and the
    text of the item (its fragments put together) is re-indented as a
    whole: every line feed except a final one is followed by [width]
    spaces, wherever the fragments are cut.  The start of the item is
    popped, the indents stay, and no cell is added. *)
Theorem list_item_indents_continuation_lines (self : translator)
    (starts ins : list nat) (width : nat) (head item : list string)
    (last : string) :
  list_item_starts self = starts ++ [length head] ->
  indents self = ins ++ [width] ->
  markdown_lines self = head ++ item ++ [last] ->
  last <> "" ->
  exists self',
    Full.depart_list_item self = Ok self'
    /\ list_item_starts self' = starts
    /\ indents self' = indents self
    /\ cells self' = cells self
    /\ take (length head) (markdown_lines self') = head
    /\ Str.join "" (drop (length head) (markdown_lines self'))
       = indented width (Str.join "" (item ++ [last])).
Proof.
  intros Hs Hi Hm Hlast.
  destruct (str_unsnoc_nonempty last Hlast) as (li & lc & Hu).
  pose proof (str_unsnoc_Some _ _ _ Hu) as Hl.
  assert (Str.unsnoc (Str.join "" (item ++ [last]))
          = Some (Str.join "" (item ++ [li]), lc)) as Hju.
  { rewrite !join_empty_app. change (Str.join "" [last]) with last.
    change (Str.join "" [li]) with li.
    rewrite Hl, <- append_assoc. apply unsnoc_append_char. }
  unfold Full.depart_list_item.
  rewrite Hs, unsnoc_snoc. simpl from_option. rewrite bind_Ok. cbv zeta.
  simpl indents. rewrite Hi, unsnoc_snoc. simpl from_option.
  rewrite bind_Ok. simpl markdown_lines.
  rewrite Hm, app_assoc, unsnoc_snoc. simpl from_option. rewrite bind_Ok.
  rewrite Hu. simpl from_option. rewrite bind_Ok. cbv zeta.
  unfold indented. rewrite Hju.
  destruct (Ascii.eqb lc Str.LF) eqn:Elc.
  - eexists. split; [reflexivity|]. simpl.
    split; [reflexivity|]. split; [exact Hi|]. split; [reflexivity|].
    rewrite <- !app_assoc.
    rewrite take_app_length, drop_app_length.
    split; [apply take_app_length|].
    rewrite drop_app_length, join_empty_app, join_map_replace. reflexivity.
  - eexists. split; [reflexivity|]. simpl.
    split; [reflexivity|]. split; [exact Hi|]. split; [reflexivity|].
    rewrite Hm.
    rewrite take_app_length, drop_app_length.
    split; [apply take_app_length|].
    rewrite drop_app_length, join_map_replace. reflexivity.
Qed.

(** X20, witness: an item of two fragments under a bullet. *)
Lemma list_item_indents_continuation_lines_witness :
  exists self',
    Full.depart_list_item inside_list_item = Ok self'
    /\ list_item_starts self' = []
    /\ indents self' = indents inside_list_item
    /\ cells self' = cells inside_list_item
    /\ take 1 (markdown_lines self') = ["- "]
    /\ Str.join "" (drop 1 (markdown_lines self'))
       = "one" +:+ nl +:+ "  two" +:+ "three" +:+ nl.
Proof.
  apply (list_item_indents_continuation_lines inside_list_item
           [] [] 2 ["- "] ["one" +:+ nl +:+ "two"] ("three" +:+ nl));
    [reflexivity|reflexivity|reflexivity|discriminate].
Defined.

(** ** Heading levels *)

Lemma add_markdown_cell_set_section_level v s flushed :
  Full.add_markdown_cell s = Ok flushed ->
  Full.add_markdown_cell (set_section_level v s)
    = Ok (set_section_level v flushed).
Proof.
  unfold Full.add_markdown_cell. simpl markdown_lines.
  destruct (strip_blank_lines_in_end_of_block _) as [f|e]; [|discriminate].
  rewrite !bind_Ok. destruct (Nat.ltb _ _); intros [= <-]; reflexivity.
Qed.

Lemma add_markdown_cell_flags s flushed :
  Full.add_markdown_cell s = Ok flushed ->
  in_topic flushed = in_topic s
  /\ in_code_block flushed = in_code_block s
  /\ section_level flushed = section_level s.
Proof.
  destruct (add_markdown_cell_spec s) as (kept & blanks & _ & ->).
  intros [= <-]. destruct kept; repeat split.
Qed.

(** X21: in the full translator, outside a literal block, a title with one
    text below [depth] nested sections is walked to the end from every
    state: the markdown buffer is flushed, then the heading mark, the text
    and a paragraph break are put in the buffer.  The heading mark has as
    many ['#'] as the section level at the start plus [depth], one more
    inside a topic, and none when that number is below one; the section
    level ends as it started. *)
Theorem title_depth_gives_heading_level (depth : nat) (a b : attributes)
    (text : string) (self : translator) :
  in_code_block self = false ->
  exists flushed self',
    Full.add_markdown_cell self = Ok flushed
    /\ walkabout JupyterTranslator
         (in_sections depth a (Element title b [Text text])) self = Ok self'
    /\ cells self' = cells flushed
    /\ markdown_lines self'
       = markdown_lines flushed
         ++ [Str.mul "#" (section_level self + Z.of_nat depth
                          + (if in_topic self then 1 else 0)) +:+ " ";
             text; Full.sep_paras]
    /\ section_level self' = section_level self.
Proof.
  revert self. induction depth as [|d IH]; intros self Hin.
  - destruct (add_markdown_cell_ok self) as (flushed & Hadd).
    destruct (add_markdown_cell_flags _ _ Hadd) as (Ht & Hc & Hl).
    rewrite Hin in Hc.
    exists flushed. simpl in_sections. rewrite walkabout_element.
    change (dispatch_visit JupyterTranslator title b self)
      with (Full.visit_title self).
    unfold Full.visit_title. rewrite Hadd, !bind_Ok, Ht, Hl, Z.add_0_r.
    destruct (in_topic self); rewrite bind_Ok, walk_children_cons;
      simpl walkabout; unfold Full.visit_Text; simpl in_code_block;
      rewrite Hc, !bind_Ok; simpl;
      eexists; (split; [reflexivity|]); (split; [reflexivity|]); simpl;
      rewrite <- ?app_assoc, ?Z.add_0_r; repeat split; assumption.
  - destruct (add_markdown_cell_ok self) as (flushed & Hadd).
    destruct (IH (set_section_level (section_level self + 1) self) Hin)
      as (flushed1 & s2 & Hadd1 & Hwalk & Hcells & Hml & Hlevel).
    rewrite (add_markdown_cell_set_section_level _ _ _ Hadd) in Hadd1.
    injection Hadd1 as <-. simpl in Hcells, Hml, Hlevel.
    exists flushed. eexists. split; [exact Hadd|].
    simpl in_sections. rewrite walkabout_element.
    change (dispatch_visit JupyterTranslator section a self)
      with (Full.visit_section self).
    unfold Full.visit_section. rewrite bind_Ok, walk_children_cons, Hwalk.
    split; [reflexivity|]. simpl.
    split; [exact Hcells|]. split; [|lia].
    rewrite Hml.
    replace (section_level self + Z.of_nat (S d))
      with (section_level self + 1 + Z.of_nat d) by lia.
    reflexivity.
Qed.

(** X21, witness: a title two sections deep at the start of a document. *)
Lemma title_depth_gives_heading_level_witness :
  exists flushed self',
    Full.add_markdown_cell fresh = Ok flushed
    /\ walkabout JupyterTranslator
         (Element section no_attributes
            [Element section no_attributes
               [Element title no_attributes [Text "Setup"]]]) fresh
       = Ok self'
    /\ cells self' = cells flushed
    /\ markdown_lines self'
       = markdown_lines flushed ++ ["## "; "Setup"; Full.sep_paras]
    /\ section_level self' = section_level fresh.
Proof.
  apply (title_depth_gives_heading_level 2 no_attributes no_attributes
           "Setup" fresh).
  reflexivity.
Defined.
